(** * zp_salary_bot_v2: the accrual ledger and the dialogue controller of
    [app_v3.py], as a shallow embedding.

    Modelling conventions.
    - The SQLite file is a record of three tables (lists of rows, in rowid
      order) plus the AUTOINCREMENT counters.  Every [with get_db() as conn]
      block is one transaction: it either raises and leaves the tables as
      they were, or commits.
    - Money amounts live in a [REAL] column and are Python floats, that is
      IEEE 754 binary64 numbers: they are the primitive [float]s, with their
      round-to-nearest-even arithmetic, infinities and NaN.  [SUM] starts from
      0.0 and adds the value of each scanned row in rowid order; a NaN bound
      to a statement is stored as NULL.  The integer 0 that SQLite gives for a
      sum without a real term is identified with 0.0.
    - Strings are byte strings holding well-formed UTF-8.  [str.strip]
      removes the white space of Unicode.  [int()] and [float()] are modelled
      on their ASCII syntax: a result [Some v] is the value that Python
      computes, and on an ASCII text [None] is [ValueError]; the decimal
      digits outside ASCII, which Python reads too, are not modelled.
    - A handler runs on a message that has a text.  [route] gives the handler
      that the router picks for a text; which of the two command handlers
      takes a text that begins with a slash is left open.
    - A store failure (file locked, unreadable, ...) is a schedule of faults
      consumed by the transactions: [true] makes the next transaction raise
      [OperationalError].
    - Message texts and keyboards are presentation; each reply is a
      constructor naming the message that the handler sends. *)

From Stdlib Require Import ZArith List String Ascii Bool DecimalString DecimalPos.
From Stdlib Require Import Floats Permutation Lia Setoid.
Import ListNotations.

Local Open Scope string_scope.
Local Open Scope Z_scope.

(* ------------------------------------------------------------------ *)
(** ** Python string helpers *)

Module PyStr.

(** The byte as a number. *)
Definition code (c : ascii) : Z := Z.of_N (N_of_ascii c).

(** The white space of [str.isspace] in the ASCII range: U+0009 to U+000D,
    U+001C to U+001F and the space. *)
Definition is_space (c : ascii) : bool :=
  let n := code c in (9 <=? n) && (n <=? 13) || (28 <=? n) && (n <=? 32).

(** The white space that takes two bytes: U+0085 and U+00A0. *)
Definition space2 (c c1 : ascii) : bool :=
  (code c =? 194) && ((code c1 =? 133) || (code c1 =? 160)).

(** The white space that takes three bytes: U+1680, U+2000 to U+200A,
    U+2028, U+2029, U+202F, U+205F and U+3000. *)
Definition space3 (c c1 c2 : ascii) : bool :=
  (code c =? 225) && (code c1 =? 154) && (code c2 =? 128)
  || (code c =? 226) && (code c1 =? 128)
     && ((128 <=? code c2) && (code c2 <=? 138)
         || (code c2 =? 168) || (code c2 =? 169) || (code c2 =? 175))
  || (code c =? 226) && (code c1 =? 129) && (code c2 =? 159)
  || (code c =? 227) && (code c1 =? 128) && (code c2 =? 128).

Fixpoint lstrip (s : string) : string :=
  match s with
  | EmptyString => EmptyString
  | String c r =>
      if is_space c then lstrip r
      else
        match r with
        | EmptyString => s
        | String c1 r1 =>
            if space2 c c1 then lstrip r1
            else
              match r1 with
              | EmptyString => s
              | String c2 r2 => if space3 c c1 c2 then lstrip r2 else s
              end
        end
  end.

Definition is_blank (s : string) : bool :=
  match lstrip s with EmptyString => true | _ => false end.

(** The first byte of a white space character of two or three bytes. *)
Definition is_lead (c : ascii) : bool :=
  (code c =? 194) || (225 <=? code c) && (code c <=? 227).

(** A byte that begins no white space character. *)
Definition starts_text (c : ascii) : bool := negb (is_space c) && negb (is_lead c).

(** [rstrip] cuts the text where only white space follows. *)
Fixpoint rstrip (s : string) : string :=
  match s with
  | EmptyString => EmptyString
  | String c r => if is_blank s then EmptyString else String c (rstrip r)
  end.

(** [s.strip()] *)
Definition strip (s : string) : string := rstrip (lstrip s).

(** [s.replace(old, new)] for a non-empty [old]: occurrences are replaced
    left to right and do not overlap; [skip] counts the characters of the
    occurrence that is being dropped. *)
Fixpoint replace_from (old new s : string) (skip : nat) : string :=
  match s with
  | EmptyString => EmptyString
  | String c r =>
      match skip with
      | S k => replace_from old new r k
      | O =>
          if prefix old s
          then new ++ replace_from old new r (String.length old - 1)
          else String c (replace_from old new r 0)
      end
  end.

Definition replace (old new s : string) : string := replace_from old new s 0.

(** [s.split(sep, 1)[0]] for a one-character [sep]: the text before the
    first separator, the whole text when there is none. *)
Fixpoint before_first (sep : ascii) (s : string) : string :=
  match s with
  | EmptyString => EmptyString
  | String c r => if Ascii.eqb c sep then EmptyString else String c (before_first sep r)
  end.

Definition is_digit (c : ascii) : bool :=
  let n := nat_of_ascii c in ((48 <=? n) && (n <=? 57))%nat.

Definition digit_val (c : ascii) : Z := Z.of_nat (nat_of_ascii c) - 48.


(** [digitpart ::= digit (["_"] digit)*]: the value read so far and the number
    of digits.  [after_digit] says that the previous character was a digit, so
    that an underscore or the end may follow. *)
Fixpoint digitpart (s : string) (after_digit : bool) (acc : Z) (n : nat)
  : option (Z * nat) :=
  match s with
  | EmptyString => if after_digit then Some (acc, n) else None
  | String c r =>
      if is_digit c then digitpart r true (10 * acc + digit_val c) (S n)
      else if Ascii.eqb c "_" && after_digit then digitpart r false acc n
      else None
  end.

(** The sign of a numeric literal and the rest of it. *)
Definition split_sign (s : string) : bool * string :=
  match s with
  | String "-" r => (true, r)
  | String "+" r => (false, r)
  | _ => (false, s)
  end.

(** [int(s)]: white space around, a sign, ASCII digits with single
    underscores between them.  [None] stands for [ValueError].  The texts are
    Telegram messages, which are shorter than the 4300 digits at which
    [int()] gives up. *)
Definition py_int (s : string) : option Z :=
  let (neg, body) := split_sign (strip s) in
  match digitpart body false 0 0 with
  | Some (v, _) => Some (if neg then - v else v)
  | None => None
  end.

(** The text before and after the first ["."], if there is one. *)
Fixpoint split_dot (s : string) : string * option string :=
  match s with
  | EmptyString => (EmptyString, None)
  | String c r =>
      if Ascii.eqb c "." then (EmptyString, Some r)
      else let (a, b) := split_dot r in (String c a, b)
  end.

(** The text before and after the first ["e"] or ["E"], if there is one. *)
Fixpoint split_exp (s : string) : string * option string :=
  match s with
  | EmptyString => (EmptyString, None)
  | String c r =>
      if Ascii.eqb c "e" || Ascii.eqb c "E" then (EmptyString, Some r)
      else let (a, b) := split_exp r in (String c a, b)
  end.

Definition to_lower (c : ascii) : ascii :=
  if (65 <=? code c) && (code c <=? 90) then ascii_of_N (N_of_ascii c + 32) else c.

Fixpoint lower (s : string) : string :=
  match s with
  | EmptyString => EmptyString
  | String c r => String (to_lower c) (lower r)
  end.

(** The binary64 number nearest to [m * 10 ^ e10] (ties to even) with the
    sign [neg], for [m >= 0]: an integer is rounded as it is, a quotient by
    a power of ten is divided far enough for one rounding. *)
Definition of_decimal (neg : bool) (m : Z) (e10 : Z) : float :=
  match m with
  | Zpos p =>
      if 0 <=? e10
      then SF2Prim (binary_round prec emax neg (Z.to_pos (Zpos p * 10 ^ e10)) 0)
      else
        let '(q, e, l) :=
          SFdiv_core_binary prec emax (Zpos p) 0 (10 ^ (- e10)) 0 in
        SF2Prim (binary_round_aux prec emax neg q e l)
  | _ => if neg then (- 0)%float else 0%float
  end.

(** The digits of [[digitpart] ["." [digitpart]]] read as one integer, and
    the number of digits after the point; a point needs a digit on one of its
    sides. *)
Definition mantissa (s : string) : option (Z * nat) :=
  match split_dot s with
  | (ip, None) =>
      match digitpart ip false 0 0 with
      | Some (v, _) => Some (v, O)
      | None => None
      end
  | (EmptyString, Some fp) => digitpart fp false 0 0
  | (ip, Some EmptyString) =>
      match digitpart ip false 0 0 with
      | Some (v, _) => Some (v, O)
      | None => None
      end
  | (ip, Some fp) =>
      match digitpart ip false 0 0 with
      | Some (v, _) => digitpart fp false v 0
      | None => None
      end
  end.

(** The exponent part [("e" | "E") ["+" | "-"] digitpart], 0 without one. *)
Definition exponent (s : option string) : option Z :=
  match s with
  | None => Some 0
  | Some t =>
      let (neg, digits) := split_sign t in
      match digitpart digits false 0 0 with
      | Some (v, _) => Some (if neg then - v else v)
      | None => None
      end
  end.

(** [float(s)]: white space around, a sign, then [inf], [infinity] or [nan]
    in any case, or a decimal numeral with an optional exponent, rounded to
    the nearest binary64 number.  [None] stands for [ValueError]. *)
Definition py_float (s : string) : option float :=
  let (neg, body) := split_sign (strip s) in
  let word := lower body in
  if String.eqb word "inf" || String.eqb word "infinity"
  then Some (if neg then neg_infinity else infinity)
  else if String.eqb word "nan" then Some nan
  else
    let (m, ex) := split_exp body in
    match mantissa m, exponent ex with
    | Some (v, nf), Some e => Some (of_decimal neg v (e - Z.of_nat nf))
    | _, _ => None
    end.

End PyStr.

(* ------------------------------------------------------------------ *)
(** ** The persisted layout ([init_db]) *)

(** [CHECK(role IN ('employee', 'manager'))] *)
Inductive emp_role := RoleEmployee | RoleManager.

(** [CHECK(kind IN ('salary', 'bonus', 'deduction', 'advance', 'payout'))] *)
Inductive kind := Salary | Bonus | Deduction | Advance | Payout.

Record department := {
  dept_id : Z;
  dept_name : string;                 (* TEXT NOT NULL UNIQUE *)
  dept_emoji : option string
}.

Record employee := {
  emp_id : Z;
  full_name : string;                 (* TEXT NOT NULL *)
  telegram_user_id : option Z;        (* INTEGER UNIQUE *)
  department_id : Z;                  (* INTEGER NOT NULL *)
  role : emp_role;
  position : option string;
  salary : option float;                  (* REAL DEFAULT 0 *)
  is_active : Z                       (* INTEGER NOT NULL DEFAULT 1 *)
}.

Record accrual := {
  acc_id : Z;
  acc_employee_id : Z;                (* INTEGER NOT NULL *)
  amount : float;                         (* REAL NOT NULL *)
  acc_kind : kind;
  comment : option string;
  period : option string;
  created_at : string;                (* TEXT NOT NULL *)
  created_by : option Z
}.

(** The three tables and the [sqlite_sequence] counters of their
    AUTOINCREMENT keys. *)
Record db := {
  departments : list department;
  employees : list employee;
  accruals : list accrual;
  seq_departments : Z;
  seq_employees : Z;
  seq_accruals : Z
}.

Definition empty_db : db :=
  {| departments := []; employees := []; accruals := [];
     seq_departments := 0; seq_employees := 0; seq_accruals := 0 |}.

Definition kind_of_string (s : string) : option kind :=
  if String.eqb s "salary" then Some Salary
  else if String.eqb s "bonus" then Some Bonus
  else if String.eqb s "deduction" then Some Deduction
  else if String.eqb s "advance" then Some Advance
  else if String.eqb s "payout" then Some Payout
  else None.

Definition emp_role_of_string (s : string) : option emp_role :=
  if String.eqb s "employee" then Some RoleEmployee
  else if String.eqb s "manager" then Some RoleManager
  else None.

Definition kind_eqb (a b : kind) : bool :=
  match a, b with
  | Salary, Salary | Bonus, Bonus | Deduction, Deduction
  | Advance, Advance | Payout, Payout => true
  | _, _ => false
  end.

(** The rowid given to a new row of an AUTOINCREMENT table: one more than the
    largest rowid in the table and than the recorded counter. *)
Definition next_rowid (ids : list Z) (seq : Z) : Z :=
  fold_right Z.max seq ids + 1.

(* ------------------------------------------------------------------ *)
(** ** The world a handler runs in *)

Inductive exn :=
| OperationalError                    (* the store could not be used *)
| IntegrityError (constraint : string).

Inductive level := INFO | ERROR.

(** One [logging] call: its level, the function that logs, and the exception
    it reports. *)
Record log_record := { lvl : level; origin : string; cause : option exn }.

Inductive user_role := ROLE_SUPERADMIN | ROLE_MANAGER | ROLE_EMPLOYEE | ROLE_UNKNOWN.

Definition user_role_eqb (a b : user_role) : bool :=
  match a, b with
  | ROLE_SUPERADMIN, ROLE_SUPERADMIN | ROLE_MANAGER, ROLE_MANAGER
  | ROLE_EMPLOYEE, ROLE_EMPLOYEE | ROLE_UNKNOWN, ROLE_UNKNOWN => true
  | _, _ => false
  end.

(** The states of the [StatesGroup] classes. *)
Inductive fsm_state :=
| AddEmployee_waiting_for_full_name
| AddEmployee_waiting_for_position
| AddEmployee_waiting_for_department
| Accrual_waiting_for_employee
| Accrual_waiting_for_amount
| Accrual_waiting_for_comment
| AddDepartment_waiting_for_name
| SetSalary_waiting_for_employee_id
| SetSalary_waiting_for_amount
| AddBonus_waiting_for_employee_id
| AddBonus_waiting_for_amount
| AddBonus_waiting_for_comment
| AddDeduction_waiting_for_employee_id
| AddDeduction_waiting_for_amount
| AddDeduction_waiting_for_comment.

(** The keys that the handlers put into the FSM data dictionary; an absent
    key is [None] ([data.get] returns [None] for it). *)
Record fsm_data := {
  d_full_name : option string;
  d_position : option string;
  d_employee_id : option Z;
  d_amount : option float;
  d_bonus_amount : option float;
  d_deduction_amount : option float;
  d_current_department_id : option Z;
  d_current_department_name : option string;
  d_current_employee_id : option Z
}.

Definition no_data : fsm_data :=
  {| d_full_name := None; d_position := None; d_employee_id := None;
     d_amount := None; d_bonus_amount := None; d_deduction_amount := None;
     d_current_department_id := None; d_current_department_name := None;
     d_current_employee_id := None |}.

(** The figures of an employee card ([show_updated_card]). *)
Record card := {
  card_employee : employee;
  card_salary : float;
  card_bonuses : float;
  card_deductions : float;
  card_advances : float;
  card_payouts : float;
  card_balance : float;
  card_recent : list accrual;
  card_role : user_role
}.

(** The messages that the modelled handlers send. *)
Inductive message :=
| MsgNoAccess                         (* require_role refusal *)
| MsgDepartmentNameEmpty
| MsgDepartmentAdded (name : string)
| MsgDepartmentError (e : exn)
| MsgEmployeeNameEmpty
| MsgAskPosition
| MsgPositionEmpty
| MsgOwnDepartmentUnknown
| MsgEmployeeAddedOwn (name position : option string)
| MsgEmployeeAdded (name position : option string) (dept : string)
| MsgEmployeeError (e : exn)
| MsgNoDepartmentsYet
| MsgChooseDepartment
| MsgDepartmentNotFound
| MsgManagerDepartmentNotFound
| MsgNoEmployeesInDepartment
| MsgChooseEmployee
| MsgBadEmployeeFormat
| MsgAskAccrualAmount
| MsgBadAccrualAmount
| MsgAskAccrualComment
| MsgAccrued (amount : option float) (employee_id : option Z) (comment : string)
| MsgAccrualError (e : exn)
| MsgEmployeeNotSelected
| MsgNothingToPay
| MsgSalaryPaid (balance : float)
| MsgPayoutError (e : exn)
| MsgBadAmount
| MsgSalaryChanged (amount : float)
| MsgError (e : exn)
| MsgAskBonusComment
| MsgAskDeductionComment
| MsgCard (c : card)
| MsgAdvanceGiven
| MsgAdvanceError (e : exn)
| MsgAskNewSalary
| MsgAskBonusAmount
| MsgAskDeductionAmount
| MsgDataError
| MsgBonusAdded (amount : float)
| MsgDeductionAdded (amount : float)
| MsgAskDepartmentName
| MsgAskEmployeeName
| MsgMainMenu
| MsgDepartmentMissing
| MsgDepartmentHasNoEmployees (emoji : option string) (name : string)
| MsgDepartmentEmployees (emoji : option string) (name : string)
| MsgListHasNoEmployees (name : option string)   (* back_to_employee_list: no glyph *)
| MsgListEmployees (name : option string)
| MsgEmployeeNotFound
| MsgMyEmployees (groups : list (list employee))
| MsgAllEmployees (groups : list (department * list employee))
| MsgNoDepartments
| MsgNotInDirectory
| MsgOwnBalance (row : employee) (balance : float)
| MsgBalanceError.

Inductive keyboard :=
| KbUnchanged
| KbRemove
| KbSuperadminMain (depts : list department)
| KbManagerMain
| KbCard (viewer : user_role)          (* the action buttons under a card *)
| KbButtons (labels : list string)
| KbEmployeeMain.

Record reply := { text : message; markup : keyboard }.

Record world := {
  superadmins : list Z;               (* settings.superadmins *)
  store : db;
  faults : list bool;
  log : list log_record;
  now_iso : string;                   (* datetime.now(timezone.utc).isoformat() *)
  now_period : string;                (* ... .strftime("%Y-%m") *)
  state : option fsm_state;
  data : fsm_data;
  outbox : list reply
}.

Definition with_store (d : db) (w : world) : world :=
  {| superadmins := superadmins w; store := d; faults := faults w; log := log w;
     now_iso := now_iso w; now_period := now_period w;
     state := state w; data := data w; outbox := outbox w |}.

Definition with_faults (f : list bool) (w : world) : world :=
  {| superadmins := superadmins w; store := store w; faults := f; log := log w;
     now_iso := now_iso w; now_period := now_period w;
     state := state w; data := data w; outbox := outbox w |}.

Definition with_log (l : list log_record) (w : world) : world :=
  {| superadmins := superadmins w; store := store w; faults := faults w; log := l;
     now_iso := now_iso w; now_period := now_period w;
     state := state w; data := data w; outbox := outbox w |}.

Definition with_state (s : option fsm_state) (w : world) : world :=
  {| superadmins := superadmins w; store := store w; faults := faults w; log := log w;
     now_iso := now_iso w; now_period := now_period w;
     state := s; data := data w; outbox := outbox w |}.

Definition with_data (d : fsm_data) (w : world) : world :=
  {| superadmins := superadmins w; store := store w; faults := faults w; log := log w;
     now_iso := now_iso w; now_period := now_period w;
     state := state w; data := d; outbox := outbox w |}.

Definition with_outbox (o : list reply) (w : world) : world :=
  {| superadmins := superadmins w; store := store w; faults := faults w; log := log w;
     now_iso := now_iso w; now_period := now_period w;
     state := state w; data := data w; outbox := o |}.

(* ------------------------------------------------------------------ *)
(** ** Computations that may raise *)

Inductive result (A : Type) :=
| Ok (a : A)
| Raise (e : exn).
Arguments Ok {A} a.
Arguments Raise {A} e.

Definition M (A : Type) : Type := world -> result A * world.

Definition ret {A} (a : A) : M A := fun w => (Ok a, w).

Definition bind {A B} (m : M A) (k : A -> M B) : M B :=
  fun w => match m w with
           | (Ok a, w') => k a w'
           | (Raise e, w') => (Raise e, w')
           end.

Definition raise {A} (e : exn) : M A := fun w => (Raise e, w).

(** [try: m  except Exception as e: h e] *)
Definition try_except {A} (m : M A) (h : exn -> M A) : M A :=
  fun w => match m w with
           | (Ok a, w') => (Ok a, w')
           | (Raise e, w') => h e w'
           end.

Declare Scope py_scope.
Delimit Scope py_scope with py.
Notation "x <- m ;; k" := (bind m (fun x => k))
  (at level 100, m at next level, right associativity) : py_scope.
Notation "m ;;; k" := (bind m (fun _ => k))
  (at level 100, right associativity) : py_scope.
Local Open Scope py_scope.

Definition get_world : M world := fun w => (Ok w, w).

Definition logging (l : level) (who : string) (e : option exn) : M unit :=
  fun w => (Ok tt, with_log (log w ++ [{| lvl := l; origin := who; cause := e |}]) w).

(** Opening a transaction: the next entry of the fault schedule decides
    whether the store can be used. *)
Definition get_db : M db :=
  fun w => (if hd false (faults w) then Raise OperationalError else Ok (store w),
            with_faults (tl (faults w)) w).

(** [conn.commit()] *)
Definition commit (d : db) : M unit := fun w => (Ok tt, with_store d w).

(** The final state and the value of a computation. *)
Definition exec {A} (m : M A) (w : world) : world := snd (m w).
Definition eval {A} (m : M A) (w : world) : result A := fst (m w).

(* ------------------------------------------------------------------ *)
(** ** SQL helpers *)

(** [ORDER BY]: stable insertion sort; rows with equal keys keep their table
    order. *)
Fixpoint insert_by {A} (le : A -> A -> bool) (x : A) (l : list A) : list A :=
  match l with
  | [] => [x]
  | y :: t => if le x y then x :: l else y :: insert_by le x t
  end.

Definition order_by {A} (le : A -> A -> bool) (l : list A) : list A :=
  fold_right (insert_by le) [] l.

(** [SELECT DISTINCT]: the first occurrence of each value. *)
Fixpoint distinct (l : list Z) (seen : list Z) : list Z :=
  match l with
  | [] => []
  | x :: t => if existsb (Z.eqb x) seen then distinct t seen
              else x :: distinct t (x :: seen)
  end.

(** SQLite has no NaN: a float that is not a number is NULL, whether it is
    bound to a parameter of a statement or is the result of a sum or of a
    subtraction. *)
Definition sql_real (x : float) : option float :=
  if is_nan x then None else Some x.

(** [SUM(...)] is NULL over no rows; otherwise the running total starts at
    0.0 and takes the value of each row in the order of the scan.
    [COALESCE(x, d)]. *)
Definition sql_sum (l : list float) : option float :=
  match l with
  | [] => None
  | _ => sql_real (fold_left PrimFloat.add l 0%float)
  end.

Definition coalesce (x : option float) (d : float) : float :=
  match x with Some v => v | None => d end.

Definition opt_Z_eqb (x : option Z) (y : Z) : bool :=
  match x with Some v => Z.eqb v y | None => false end.

Definition opt_string_eqb (x : option string) (y : string) : bool :=
  match x with Some v => String.eqb v y | None => false end.

(** [kind IN ('salary', 'bonus')] and [kind IN ('payout', 'advance', 'deduction')] *)
Definition is_credit (k : kind) : bool :=
  match k with Salary | Bonus => true | _ => false end.

Definition is_debit (k : kind) : bool :=
  match k with Payout | Advance | Deduction => true | _ => false end.

(** [WHERE employee_id = ?] on the accruals table. *)
Definition records_of (employee_id : Z) (rows : list accrual) : list accrual :=
  filter (fun r => acc_employee_id r =? employee_id) rows.

(** The values that the two sums of the balance query add up:
    [CASE WHEN kind IN (...) THEN amount ELSE 0 END] over the rows of the
    employee. *)
Definition credit_values (employee_id : Z) (d : db) : list float :=
  map (fun r => if is_credit (acc_kind r) then amount r else 0%float)
      (records_of employee_id (accruals d)).

Definition debit_values (employee_id : Z) (d : db) : list float :=
  map (fun r => if is_debit (acc_kind r) then amount r else 0%float)
      (records_of employee_id (accruals d)).

(** The running totals of the two sums after the last row. *)
Definition credit_total (employee_id : Z) (d : db) : float :=
  fold_left PrimFloat.add (credit_values employee_id d) 0%float.

Definition debit_total (employee_id : Z) (d : db) : float :=
  fold_left PrimFloat.add (debit_values employee_id d) 0%float.

(** [COALESCE(SUM(...), 0)] *)
Definition credit_sum (employee_id : Z) (d : db) : float :=
  coalesce (sql_sum (credit_values employee_id d)) 0%float.

Definition debit_sum (employee_id : Z) (d : db) : float :=
  coalesce (sql_sum (debit_values employee_id d)) 0%float.

(** The column [balance] of the row that the balance query returns. *)
Definition balance_row (employee_id : Z) (d : db) : option float :=
  sql_real (credit_sum employee_id d - debit_sum employee_id d)%float.

(** [row["balance"] if row and row["balance"] is not None else 0.0] *)
Definition balance_query (employee_id : Z) (d : db) : float :=
  coalesce (balance_row employee_id d) 0%float.

(* ------------------------------------------------------------------ *)
(** ** Roles *)

Definition get_user_role (user_id : Z) : M user_role :=
  w <- get_world ;;
  if existsb (Z.eqb user_id) (superadmins w) then ret ROLE_SUPERADMIN
  else
    try_except
      (conn <- get_db ;;
       match find (fun r => opt_Z_eqb (telegram_user_id r) user_id && (is_active r =? 1))
                  (employees conn) with
       | Some row =>
           ret (match role row with
                | RoleManager => ROLE_MANAGER
                | RoleEmployee => ROLE_EMPLOYEE
                end)
       | None => ret ROLE_UNKNOWN
       end)
      (fun e => logging ERROR "get_user_role" (Some e) ;;; ret ROLE_UNKNOWN).

Definition answer (m : message) (k : keyboard) : M unit :=
  fun w => (Ok tt, with_outbox (outbox w ++ [{| text := m; markup := k |}]) w).

(** A handler receives the sender's identifier and the message text. *)
Definition handler : Type := Z -> string -> M unit.

Definition require_role (allowed_roles : list user_role) (h : handler) : handler :=
  fun user_id txt =>
    r <- get_user_role user_id ;;
    if negb (existsb (user_role_eqb r) allowed_roles)
    then answer MsgNoAccess KbUnchanged
    else h user_id txt.

Definition get_manager_departments (user_id : Z) : M (list Z) :=
  try_except
    (conn <- get_db ;;
     ret (distinct
            (map department_id
               (filter (fun r => opt_Z_eqb (telegram_user_id r) user_id
                                 && match role r with RoleManager => true | _ => false end
                                 && (is_active r =? 1))
                       (employees conn)))
            []))
    (fun e => logging ERROR "get_manager_departments" (Some e) ;;; ret []).

(** The rows carry all columns; the query selects id, full_name, position
    and role. *)
Definition get_department_employees (dept : Z) : M (list employee) :=
  try_except
    (conn <- get_db ;;
     ret (order_by (fun a b => String.leb (full_name a) (full_name b))
            (filter (fun r => (department_id r =? dept) && (is_active r =? 1))
                    (employees conn))))
    (fun e => logging ERROR "get_department_employees" (Some e) ;;; ret []).

(* ------------------------------------------------------------------ *)
(** ** Directory and ledger operations *)

(** Arguments that the callers read with [data.get] may be [None]; the column
    constraints then reject the row. *)
Definition add_employee (name : option string) (dept : Z) (role_tag : string)
    (pos : option string) (tg : option Z) : M unit :=
  try_except
    (conn <- get_db ;;
     match name with
     | None => raise (IntegrityError "NOT NULL constraint failed: employees.full_name")
     | Some name' =>
       match emp_role_of_string role_tag with
       | None => raise (IntegrityError "CHECK constraint failed: role")
       | Some r =>
         if match tg with
            | Some t => existsb (fun e => opt_Z_eqb (telegram_user_id e) t) (employees conn)
            | None => false
            end
         then raise (IntegrityError "UNIQUE constraint failed: employees.telegram_user_id")
         else
           let id := next_rowid (map emp_id (employees conn)) (seq_employees conn) in
           commit {| departments := departments conn;
                     employees := employees conn ++
                       [{| emp_id := id; full_name := name'; telegram_user_id := tg;
                           department_id := dept; role := r; position := pos;
                           salary := Some 0%float; is_active := 1 |}];
                     accruals := accruals conn;
                     seq_departments := seq_departments conn;
                     seq_employees := id;
                     seq_accruals := seq_accruals conn |} ;;;
           logging INFO "add_employee" None
       end
     end)
    (fun e => logging ERROR "add_employee" (Some e) ;;; raise e).

Definition add_department (name : string) (emoji : string) : M Z :=
  try_except
    (conn <- get_db ;;
     if existsb (fun d => String.eqb (dept_name d) name) (departments conn)
     then raise (IntegrityError "UNIQUE constraint failed: departments.name")
     else
       let id := next_rowid (map dept_id (departments conn)) (seq_departments conn) in
       commit {| departments := departments conn ++
                   [{| dept_id := id; dept_name := name; dept_emoji := Some emoji |}];
                 employees := employees conn;
                 accruals := accruals conn;
                 seq_departments := id;
                 seq_employees := seq_employees conn;
                 seq_accruals := seq_accruals conn |} ;;;
       logging INFO "add_department" None ;;;
       ret id)
    (fun e => logging ERROR "add_department" (Some e) ;;; raise e).

Definition get_departments : M (list department) :=
  try_except
    (conn <- get_db ;;
     ret (order_by (fun a b => dept_id a <=? dept_id b) (departments conn)))
    (fun e => logging ERROR "get_departments" (Some e) ;;; ret []).

(** The row that [add_accrual] inserts; the period is left NULL.  The
    connection does not switch foreign keys on, so the employee reference is
    not looked up. *)
Definition new_accrual (id employee_id : Z) (amt : float) (k : kind) (c : string)
    (at_ : string) (by_ : Z) : accrual :=
  {| acc_id := id; acc_employee_id := employee_id; amount := amt; acc_kind := k;
     comment := Some c; period := None; created_at := at_; created_by := Some by_ |}.

Definition add_accrual (employee_id : option Z) (amt : option float) (kind_tag : string)
    (c : string) (by_ : Z) : M unit :=
  try_except
    (conn <- get_db ;;
     w <- get_world ;;
     match employee_id, match amt with Some a => sql_real a | None => None end with
     | None, _ => raise (IntegrityError "NOT NULL constraint failed: accruals.employee_id")
     | _, None => raise (IntegrityError "NOT NULL constraint failed: accruals.amount")
     | Some emp, Some a =>
       match kind_of_string kind_tag with
       | None => raise (IntegrityError "CHECK constraint failed: kind")
       | Some k =>
           let id := next_rowid (map acc_id (accruals conn)) (seq_accruals conn) in
           commit {| departments := departments conn;
                     employees := employees conn;
                     accruals := accruals conn ++ [new_accrual id emp a k c (now_iso w) by_];
                     seq_departments := seq_departments conn;
                     seq_employees := seq_employees conn;
                     seq_accruals := id |} ;;;
           logging INFO "add_accrual" None
       end
     end)
    (fun e => logging ERROR "add_accrual" (Some e) ;;; raise e).

Definition get_employee_balance (employee_id : Z) : M float :=
  try_except
    (conn <- get_db ;;
     ret (balance_query employee_id conn))
    (fun e => logging ERROR "get_employee_balance" (Some e) ;;; ret 0%float).

Definition get_employee_by_name (name : string) (dept : option Z) : M (option employee) :=
  try_except
    (conn <- get_db ;;
     let clean_name :=
       PyStr.strip (PyStr.replace "👔" EmptyString
                      (PyStr.replace "👤" EmptyString name)) in
     match dept with
     | Some d =>
         if d =? 0
         then ret (find (fun r => String.eqb (full_name r) clean_name && (is_active r =? 1))
                        (employees conn))
         else ret (find (fun r => String.eqb (full_name r) clean_name
                                  && (department_id r =? d) && (is_active r =? 1))
                        (employees conn))
     | None =>
         ret (find (fun r => String.eqb (full_name r) clean_name && (is_active r =? 1))
                   (employees conn))
     end)
    (fun e => logging ERROR "get_employee_by_name" (Some e) ;;; ret None).

(** [period] is used as a filter only when it is a non-empty string; without
    it the twenty newest rows are returned. *)
Definition get_employee_accruals (employee_id : Z) (per : option string) : M (list accrual) :=
  try_except
    (conn <- get_db ;;
     let newest_first :=
       order_by (fun a b => String.leb (created_at b) (created_at a)) in
     match per with
     | Some (String c p) =>
         ret (newest_first
                (filter (fun r => (acc_employee_id r =? employee_id)
                                  && opt_string_eqb (period r) (String c p))
                        (accruals conn)))
     | _ => ret (firstn 20 (newest_first (records_of employee_id (accruals conn))))
     end)
    (fun e => logging ERROR "get_employee_accruals" (Some e) ;;; ret []).

Definition get_employee_salary (employee_id : Z) : M float :=
  try_except
    (conn <- get_db ;;
     match find (fun r => emp_id r =? employee_id) (employees conn) with
     | Some row =>
         match salary row with
         | Some s => if is_zero s then ret 0%float else ret s
         | None => ret 0%float
         end
     | None => ret 0%float
     end)
    (fun e => logging ERROR "get_employee_salary" (Some e) ;;; ret 0%float).

Definition set_salary_row (employee_id : Z) (s : float) (r : employee) : employee :=
  if emp_id r =? employee_id
  then {| emp_id := emp_id r; full_name := full_name r;
          telegram_user_id := telegram_user_id r; department_id := department_id r;
          role := role r; position := position r; salary := sql_real s;
          is_active := is_active r |}
  else r.

Definition set_employee_salary (employee_id : Z) (s : float) : M unit :=
  try_except
    (conn <- get_db ;;
     commit {| departments := departments conn;
               employees := map (set_salary_row employee_id s) (employees conn);
               accruals := accruals conn;
               seq_departments := seq_departments conn;
               seq_employees := seq_employees conn;
               seq_accruals := seq_accruals conn |} ;;;
     logging INFO "set_employee_salary" None)
    (fun e => logging ERROR "set_employee_salary" (Some e) ;;; raise e).

(** [validate_amount]: the comma is read as a decimal point; only a value
    above zero is returned, so neither a zero nor NaN is. *)
Definition validate_amount (amount_str : string) : option float :=
  match PyStr.py_float (PyStr.strip (PyStr.replace "," "." amount_str)) with
  | Some a => if (0 <? a)%float then Some a else None
  | None => None
  end.

(* ------------------------------------------------------------------ *)
(** ** Conversation context ([FSMContext]) *)

Definition set_state (s : option fsm_state) : M unit :=
  fun w => (Ok tt, with_state s w).

(** [state.clear()] drops the state and every key of the data. *)
Definition clear : M unit :=
  fun w => (Ok tt, with_data no_data (with_state None w)).

Definition get_data : M fsm_data := fun w => (Ok (data w), w).

Definition update_data (f : fsm_data -> fsm_data) : M unit :=
  fun w => (Ok tt, with_data (f (data w)) w).

Definition put_full_name (v : string) (d : fsm_data) : fsm_data :=
  {| d_full_name := Some v; d_position := d_position d; d_employee_id := d_employee_id d;
     d_amount := d_amount d; d_bonus_amount := d_bonus_amount d;
     d_deduction_amount := d_deduction_amount d;
     d_current_department_id := d_current_department_id d;
     d_current_department_name := d_current_department_name d;
     d_current_employee_id := d_current_employee_id d |}.

Definition put_position (v : string) (d : fsm_data) : fsm_data :=
  {| d_full_name := d_full_name d; d_position := Some v; d_employee_id := d_employee_id d;
     d_amount := d_amount d; d_bonus_amount := d_bonus_amount d;
     d_deduction_amount := d_deduction_amount d;
     d_current_department_id := d_current_department_id d;
     d_current_department_name := d_current_department_name d;
     d_current_employee_id := d_current_employee_id d |}.

Definition put_employee_id (v : Z) (d : fsm_data) : fsm_data :=
  {| d_full_name := d_full_name d; d_position := d_position d; d_employee_id := Some v;
     d_amount := d_amount d; d_bonus_amount := d_bonus_amount d;
     d_deduction_amount := d_deduction_amount d;
     d_current_department_id := d_current_department_id d;
     d_current_department_name := d_current_department_name d;
     d_current_employee_id := d_current_employee_id d |}.

Definition put_amount (v : float) (d : fsm_data) : fsm_data :=
  {| d_full_name := d_full_name d; d_position := d_position d;
     d_employee_id := d_employee_id d;
     d_amount := Some v; d_bonus_amount := d_bonus_amount d;
     d_deduction_amount := d_deduction_amount d;
     d_current_department_id := d_current_department_id d;
     d_current_department_name := d_current_department_name d;
     d_current_employee_id := d_current_employee_id d |}.

Definition put_bonus_amount (v : float) (d : fsm_data) : fsm_data :=
  {| d_full_name := d_full_name d; d_position := d_position d;
     d_employee_id := d_employee_id d;
     d_amount := d_amount d; d_bonus_amount := Some v;
     d_deduction_amount := d_deduction_amount d;
     d_current_department_id := d_current_department_id d;
     d_current_department_name := d_current_department_name d;
     d_current_employee_id := d_current_employee_id d |}.

Definition put_deduction_amount (v : float) (d : fsm_data) : fsm_data :=
  {| d_full_name := d_full_name d; d_position := d_position d;
     d_employee_id := d_employee_id d;
     d_amount := d_amount d; d_bonus_amount := d_bonus_amount d;
     d_deduction_amount := Some v;
     d_current_department_id := d_current_department_id d;
     d_current_department_name := d_current_department_name d;
     d_current_employee_id := d_current_employee_id d |}.

(** Python truth of an optional integer: [None] and [0] are false. *)
Definition truthy_id (x : option Z) : option Z :=
  match x with
  | Some v => if v =? 0 then None else Some v
  | None => None
  end.

Definition is_empty (s : string) : bool :=
  match s with EmptyString => true | _ => false end.

(** [s or default] *)
Definition or_default (s default : string) : string :=
  if is_empty s then default else s.

(* ------------------------------------------------------------------ *)
(** ** Keyboards that read the store *)

Definition superadmin_main_kb : M keyboard :=
  ds <- get_departments ;;
  ret (KbSuperadminMain ds).

Definition department_label (d : department) : string :=
  (match dept_emoji d with
   | Some (String c e) => String c e
   | _ => "🏢"
   end ++ " " ++ dept_name d)%string.

Definition employee_label (e : employee) : string :=
  (NilZero.string_of_int (Z.to_int (emp_id e)) ++ ": " ++ full_name e)%string.

(** Python [sum] over the amounts of one kind: the amounts are added to 0
    one after the other in the order of the rows given. *)
Definition sum_kind (k : kind) (rows : list accrual) : float :=
  fold_left PrimFloat.add (map amount (filter (fun a => kind_eqb (acc_kind a) k) rows))
    0%float.

Definition show_updated_card (user_id emp : Z) : M unit :=
  try_except
    (conn <- get_db ;;
     match find (fun r => emp_id r =? emp) (employees conn) with
     | None => ret tt
     | Some e =>
         s <- get_employee_salary emp ;;
         b <- get_employee_balance emp ;;
         rows <- get_employee_accruals emp None ;;
         r <- get_user_role user_id ;;
         answer (MsgCard {| card_employee := e; card_salary := s;
                            card_bonuses := sum_kind Bonus rows;
                            card_deductions := sum_kind Deduction rows;
                            card_advances := sum_kind Advance rows;
                            card_payouts := sum_kind Payout rows;
                            card_balance := b;
                            card_recent := firstn 5 rows;
                            card_role := r |})
                (KbCard r)
     end)
    (fun e => logging ERROR "show_updated_card" (Some e)).

(** [UPDATE accruals SET period = ? WHERE id =
     (SELECT MAX(id) FROM accruals WHERE employee_id = ?)], in a transaction of
    its own. *)
Definition max_id (employee_id : Z) (rows : list accrual) : option Z :=
  match map acc_id (records_of employee_id rows) with
  | [] => None
  | i :: t => Some (fold_left Z.max t i)
  end.

Definition set_period (p : string) (r : accrual) : accrual :=
  {| acc_id := acc_id r; acc_employee_id := acc_employee_id r; amount := amount r;
     acc_kind := acc_kind r; comment := comment r; period := Some p;
     created_at := created_at r; created_by := created_by r |}.

Definition update_last_period (p : string) (employee_id : Z) : M unit :=
  conn <- get_db ;;
  commit {| departments := departments conn;
            employees := employees conn;
            accruals := map (fun r => if opt_Z_eqb (max_id employee_id (accruals conn)) (acc_id r)
                                      then set_period p r else r)
                            (accruals conn);
            seq_departments := seq_departments conn;
            seq_employees := seq_employees conn;
            seq_accruals := seq_accruals conn |}.

(* ------------------------------------------------------------------ *)
(** ** Handlers *)

(** State [AddDepartmentStates.waiting_for_name]. *)
Definition superadmin_add_department_finish : handler :=
  require_role [ROLE_SUPERADMIN] (fun _ txt =>
    let name := PyStr.strip txt in
    if is_empty name then answer MsgDepartmentNameEmpty KbUnchanged
    else
      try_except
        (add_department name EmptyString ;;;
         clear ;;;
         kb <- superadmin_main_kb ;;
         answer (MsgDepartmentAdded name) kb)
        (fun e =>
           kb <- superadmin_main_kb ;;
           answer (MsgDepartmentError e) kb ;;;
           clear)).

(** State [AddEmployeeStates.waiting_for_full_name]. *)
Definition add_employee_enter_position : handler :=
  require_role [ROLE_SUPERADMIN; ROLE_MANAGER] (fun _ txt =>
    let name := PyStr.strip txt in
    if is_empty name then answer MsgEmployeeNameEmpty KbUnchanged
    else
      update_data (put_full_name name) ;;;
      set_state (Some AddEmployee_waiting_for_position) ;;;
      answer MsgAskPosition KbUnchanged).

(** State [AddEmployeeStates.waiting_for_position]. *)
Definition add_employee_choose_department : handler :=
  require_role [ROLE_SUPERADMIN; ROLE_MANAGER] (fun user_id txt =>
    r <- get_user_role user_id ;;
    let pos := PyStr.strip txt in
    if is_empty pos then answer MsgPositionEmpty KbUnchanged
    else
      update_data (put_position pos) ;;;
      d <- get_data ;;
      let name := d_full_name d in
      if user_role_eqb r ROLE_MANAGER then
        dept_ids <- get_manager_departments user_id ;;
        match dept_ids with
        | [] => answer MsgOwnDepartmentUnknown KbManagerMain ;;; clear
        | d0 :: _ =>
            try_except
              (add_employee name d0 "employee" (Some pos) None ;;;
               answer (MsgEmployeeAddedOwn name (Some pos)) KbManagerMain)
              (fun e => answer (MsgEmployeeError e) KbManagerMain) ;;;
            clear
        end
      else
        ds <- get_departments ;;
        match ds with
        | [] =>
            kb <- superadmin_main_kb ;;
            answer MsgNoDepartmentsYet kb ;;;
            clear
        | _ =>
            set_state (Some AddEmployee_waiting_for_department) ;;;
            answer MsgChooseDepartment (KbButtons (map department_label ds))
        end).

Definition department_emojis : list string :=
  ["💸"; "🧾"; "📦"; "📣"; "🧰"; "🧮"; "🏢"].

(** The department named by a button label: each glyph is removed in turn
    and the text stripped after each removal. *)
Definition department_name_of_text (txt : string) : string :=
  fold_left (fun t emoji => PyStr.strip (PyStr.replace emoji EmptyString t)) department_emojis txt.

(** State [AddEmployeeStates.waiting_for_department]. *)
Definition add_employee_finish_superadmin : handler :=
  require_role [ROLE_SUPERADMIN] (fun _ txt =>
    d <- get_data ;;
    let name := d_full_name d in
    let pos := d_position d in
    let dept_name_text := department_name_of_text txt in
    ds <- get_departments ;;
    match truthy_id (option_map dept_id
                       (find (fun x => String.eqb (dept_name x) dept_name_text) ds)) with
    | None => answer MsgDepartmentNotFound KbUnchanged
    | Some dept =>
        try_except
          (add_employee name dept "employee" pos None ;;;
           clear ;;;
           kb <- superadmin_main_kb ;;
           answer (MsgEmployeeAdded name pos dept_name_text) kb)
          (fun e =>
             kb <- superadmin_main_kb ;;
             answer (MsgEmployeeError e) kb ;;;
             clear)
    end).

(** [employees.extend(get_department_employees(dept_id))] for each department. *)
Fixpoint employees_of_departments (dept_ids : list Z) : M (list employee) :=
  match dept_ids with
  | [] => ret []
  | i :: t =>
      es <- get_department_employees i ;;
      rest <- employees_of_departments t ;;
      ret (es ++ rest)%list
  end.

(** The manager's menu entry that starts the accrual flow. *)
Definition accrual_start : handler :=
  require_role [ROLE_MANAGER] (fun user_id _ =>
    dept_ids <- get_manager_departments user_id ;;
    match dept_ids with
    | [] => answer MsgManagerDepartmentNotFound KbManagerMain
    | _ =>
        es <- employees_of_departments dept_ids ;;
        match es with
        | [] => answer MsgNoEmployeesInDepartment KbManagerMain
        | _ =>
            set_state (Some Accrual_waiting_for_employee) ;;;
            answer MsgChooseEmployee (KbButtons (map employee_label es))
        end
    end).

(** State [AccrualStates.waiting_for_employee]. *)
Definition accrual_choose_employee : handler :=
  require_role [ROLE_MANAGER] (fun _ txt =>
    let t := PyStr.strip txt in
    match PyStr.py_int (PyStr.before_first ":" t) with
    | None => answer MsgBadEmployeeFormat KbUnchanged
    | Some employee_id =>
        update_data (put_employee_id employee_id) ;;;
        set_state (Some Accrual_waiting_for_amount) ;;;
        answer MsgAskAccrualAmount KbRemove
    end).

(** State [AccrualStates.waiting_for_amount]. *)
Definition accrual_enter_amount : handler :=
  require_role [ROLE_MANAGER] (fun _ txt =>
    match validate_amount txt with
    | None => answer MsgBadAccrualAmount KbUnchanged
    | Some a =>
        update_data (put_amount a) ;;;
        set_state (Some Accrual_waiting_for_comment) ;;;
        answer MsgAskAccrualComment KbUnchanged
    end).

(** State [AccrualStates.waiting_for_comment]. *)
Definition accrual_finish : handler :=
  require_role [ROLE_MANAGER] (fun user_id txt =>
    d <- get_data ;;
    let employee_id := d_employee_id d in
    let amt := d_amount d in
    let c := PyStr.strip txt in
    try_except
      (add_accrual employee_id amt "accrual" (or_default c "Начисление") user_id ;;;
       clear ;;;
       answer (MsgAccrued amt employee_id c) KbManagerMain)
      (fun e =>
         answer (MsgAccrualError e) KbManagerMain ;;;
         clear)).

(** The card button that pays the salary out. *)
Definition give_salary : handler :=
  require_role [ROLE_SUPERADMIN] (fun user_id _ =>
    d <- get_data ;;
    match truthy_id (d_current_employee_id d) with
    | None => answer MsgEmployeeNotSelected KbUnchanged
    | Some emp =>
        try_except
          (balance <- get_employee_balance emp ;;
           if (balance <=? 0)%float then answer MsgNothingToPay KbUnchanged
           else
             w <- get_world ;;
             let current_period := now_period w in
             add_accrual (Some emp) (Some balance) "payout"
               ("Выплата зарплаты за " ++ current_period)%string user_id ;;;
             update_last_period current_period emp ;;;
             answer (MsgSalaryPaid balance) KbUnchanged ;;;
             show_updated_card user_id emp)
          (fun e => answer (MsgPayoutError e) KbUnchanged)
    end).

(** State [SetSalaryStates.waiting_for_amount]. *)
Definition change_salary_finish : handler :=
  fun user_id txt =>
    match validate_amount txt with
    | None => answer MsgBadAmount KbUnchanged
    | Some a =>
        if (a <? 0)%float then answer MsgBadAmount KbUnchanged
        else
          d <- get_data ;;
          match truthy_id (d_current_employee_id d) with
          | None => answer MsgEmployeeNotSelected KbUnchanged ;;; clear
          | Some emp =>
              try_except
                (set_employee_salary emp a ;;;
                 answer (MsgSalaryChanged a) KbUnchanged ;;;
                 set_state None ;;;
                 show_updated_card user_id emp)
                (fun e => answer (MsgError e) KbUnchanged ;;; clear)
          end
    end.

(** State [AddBonusStates.waiting_for_amount]. *)
Definition add_bonus_comment : handler :=
  fun _ txt =>
    match validate_amount txt with
    | None => answer MsgBadAmount KbUnchanged
    | Some a =>
        if (a <=? 0)%float then answer MsgBadAmount KbUnchanged
        else
          update_data (put_bonus_amount a) ;;;
          set_state (Some AddBonus_waiting_for_comment) ;;;
          answer MsgAskBonusComment KbUnchanged
    end.

(** State [AddDeductionStates.waiting_for_amount]. *)
Definition add_deduction_comment : handler :=
  fun _ txt =>
    match validate_amount txt with
    | None => answer MsgBadAmount KbUnchanged
    | Some a =>
        if (a <=? 0)%float then answer MsgBadAmount KbUnchanged
        else
          update_data (put_deduction_amount a) ;;;
          set_state (Some AddDeduction_waiting_for_comment) ;;;
          answer MsgAskDeductionComment KbUnchanged
    end.

(* ------------------------------------------------------------------ *)
(** ** The balance as the specification words it *)

Definition kind_in (k : kind) (ks : list kind) : bool := existsb (kind_eqb k) ks.

(** [Σ(amount where kind ∈ ks)] for an employee: the total is taken along
    the ledger from zero, and a record counts when it is a record of the
    employee and of one of the kinds. *)
Definition total_of (employee_id : Z) (ks : list kind) (rows : list accrual) : float :=
  fold_left (fun acc r => if (acc_employee_id r =? employee_id) && kind_in (acc_kind r) ks
                          then (acc + amount r)%float else acc)
            rows 0%float.

(** [Σ(amount where kind ∈ {salary, bonus}) −
     Σ(amount where kind ∈ {payout, advance, deduction})] *)
Definition signed_fold (employee_id : Z) (rows : list accrual) : float :=
  (total_of employee_id [Salary; Bonus] rows
   - total_of employee_id [Payout; Advance; Deduction] rows)%float.

(** Two floats that are the same number: they are equal, or they are the
    zeros 0.0 and -0.0, which differ in the sign bit only. *)
Definition same_number (x y : float) : Prop :=
  x = y \/ (is_zero x = true /\ is_zero y = true).

(** The next transaction finds the store usable. *)
Definition store_ready (w : world) : Prop := hd false (faults w) = false.

(** The next transaction fails. *)
Definition store_failing (w : world) : Prop := hd false (faults w) = true.

(** No failure is scheduled at all. *)
Definition no_faults (w : world) : Prop := existsb (fun b => b) (faults w) = false.

(* ------------------------------------------------------------------ *)
(** ** A small company, used to run the handlers on concrete inputs *)

Module Sample.

Definition boss : employee :=
  {| emp_id := 1; full_name := "Boss"; telegram_user_id := Some 10; department_id := 1;
     role := RoleManager; position := Some "head of sales"; salary := Some 0%float;
     is_active := 1 |}.

Definition ann : employee :=
  {| emp_id := 2; full_name := "Ann"; telegram_user_id := Some 20; department_id := 1;
     role := RoleEmployee; position := None; salary := Some 0%float; is_active := 1 |}.

Definition petrov : employee :=
  {| emp_id := 3; full_name := "Petrov"; telegram_user_id := None; department_id := 2;
     role := RoleEmployee; position := None; salary := Some 0%float; is_active := 1 |}.

Definition sales : department :=
  {| dept_id := 1; dept_name := "Sales"; dept_emoji := Some EmptyString |}.

Definition ops : department :=
  {| dept_id := 2; dept_name := "Ops"; dept_emoji := None |}.

(** Ann has a bonus of 10000 and a deduction of 2000; Petrov has no rows. *)
Definition ledger : list accrual :=
  [ new_accrual 1 2 10000 Bonus "plan" "2025-10-01T09:00:00+00:00" 10;
    new_accrual 2 2 2000 Deduction "late" "2025-10-02T09:00:00+00:00" 10 ].

Definition company : db :=
  {| departments := [sales; ops]; employees := [boss; ann; petrov]; accruals := ledger;
     seq_departments := 2; seq_employees := 3; seq_accruals := 2 |}.

(** User 1 is the configured super-administrator; user 10 is the manager of
    department 1. *)
Definition world_at (s : option fsm_state) (d : fsm_data) (f : list bool) : world :=
  {| superadmins := [1]; store := company; faults := f; log := [];
     now_iso := "2025-11-03T08:00:00+00:00"; now_period := "2025-11";
     state := s; data := d; outbox := [] |}.

(** The same world with another allow-list. *)
Definition with_admins (admins : list Z) (w : world) : world :=
  {| superadmins := admins; store := store w; faults := faults w; log := log w;
     now_iso := now_iso w; now_period := now_period w;
     state := state w; data := data w; outbox := outbox w |}.

(** The amounts of [texts], read by [validate_amount], recorded for an
    employee one after the other by user 1. *)
Fixpoint record_all (employee_id : Z) (kind_tag : string) (texts : list string) : M unit :=
  match texts with
  | [] => ret tt
  | t :: rest =>
      add_accrual (Some employee_id) (validate_amount t) kind_tag "note" 1 ;;;
      record_all employee_id kind_tag rest
  end.

Definition pinned (e : Z) : fsm_data :=
  {| d_full_name := None; d_position := None; d_employee_id := None;
     d_amount := None; d_bonus_amount := None; d_deduction_amount := None;
     d_current_department_id := Some 1; d_current_department_name := Some "Sales";
     d_current_employee_id := Some e |}.

(** The sample company after a bonus of 9007199254740994 and a deduction of
    1 for Petrov, who is pinned. *)
Definition rounding_world : world :=
  exec (record_all 3 "bonus" ["9007199254740994"] ;;;
        record_all 3 "deduction" ["1"])
       (world_at None (pinned 3) []).

End Sample.

(* ------------------------------------------------------------------ *)
(** ** Frames *)

(** [frame w w']: the tables, the conversation, the settings and the clock of
    [w'] are those of [w]. *)
Definition frame (w w' : world) : Prop :=
  store w' = store w /\ state w' = state w /\ data w' = data w
  /\ superadmins w' = superadmins w /\ now_iso w' = now_iso w
  /\ now_period w' = now_period w.

Definition quiet {A} (m : M A) : Prop := forall w, frame w (snd (m w)).

Definition total {A} (m : M A) : Prop := forall w, exists a, fst (m w) = Ok a.

(* ------------------------------------------------------------------ *)
(** ** The validating steps of the flows *)

Inductive step :=
| StepDepartmentName                  (* AddDepartment: awaiting-name *)
| StepEmployeeName                    (* AddEmployee: awaiting-name *)
| StepEmployeePosition                (* AddEmployee: awaiting-position *)
| StepEmployeeDepartment              (* AddEmployee: awaiting-department *)
| StepAccrualEmployee                 (* RecordAccrual: awaiting-employee *)
| StepAccrualAmount                   (* RecordAccrual: awaiting-amount *)
| StepSalaryAmount                    (* SetSalary: awaiting-amount *)
| StepBonusAmount                     (* bonus: awaiting-amount *)
| StepDeductionAmount.                (* deduction: awaiting-amount *)

(** The state filter under which the router registers the step's handler. *)
Definition step_state (s : step) : fsm_state :=
  match s with
  | StepDepartmentName => AddDepartment_waiting_for_name
  | StepEmployeeName => AddEmployee_waiting_for_full_name
  | StepEmployeePosition => AddEmployee_waiting_for_position
  | StepEmployeeDepartment => AddEmployee_waiting_for_department
  | StepAccrualEmployee => Accrual_waiting_for_employee
  | StepAccrualAmount => Accrual_waiting_for_amount
  | StepSalaryAmount => SetSalary_waiting_for_amount
  | StepBonusAmount => AddBonus_waiting_for_amount
  | StepDeductionAmount => AddDeduction_waiting_for_amount
  end.



(** The number that [float()] reads in a text, a comma standing for the
    point. *)
Definition amount_of_text (txt : string) : option float :=
  PyStr.py_float (PyStr.strip (PyStr.replace "," "." txt)).





(** The departments that the manager [user_id] administers. *)
Definition manager_scope (user_id : Z) (d : db) : list Z :=
  map department_id
    (filter (fun r => opt_Z_eqb (telegram_user_id r) user_id
                      && match role r with RoleManager => true | _ => false end
                      && (is_active r =? 1))
            (employees d)).

(** The employee [employee_id] is an active member of one of those
    departments. *)
Definition in_scope (user_id employee_id : Z) (d : db) : bool :=
  existsb (fun e => (emp_id e =? employee_id) && (is_active e =? 1)
                    && existsb (Z.eqb (department_id e)) (manager_scope user_id d))
          (employees d).

(* ------------------------------------------------------------------ *)
(** ** The other handlers of the router *)

Definition put_current_department (i : Z) (name : string) (d : fsm_data) : fsm_data :=
  {| d_full_name := d_full_name d; d_position := d_position d;
     d_employee_id := d_employee_id d;
     d_amount := d_amount d; d_bonus_amount := d_bonus_amount d;
     d_deduction_amount := d_deduction_amount d;
     d_current_department_id := Some i;
     d_current_department_name := Some name;
     d_current_employee_id := d_current_employee_id d |}.

Definition put_current_employee_id (i : Z) (d : fsm_data) : fsm_data :=
  {| d_full_name := d_full_name d; d_position := d_position d;
     d_employee_id := d_employee_id d;
     d_amount := d_amount d; d_bonus_amount := d_bonus_amount d;
     d_deduction_amount := d_deduction_amount d;
     d_current_department_id := d_current_department_id d;
     d_current_department_name := d_current_department_name d;
     d_current_employee_id := Some i |}.

(** Python truth of an optional float: [None] and the two zeros are false,
    NaN is true. *)
Definition truthy_amount (x : option float) : option float :=
  match x with
  | Some v => if is_zero v then None else Some v
  | None => None
  end.

(** [role in (ROLE_SUPERADMIN, ROLE_MANAGER)] *)
Definition is_staff (r : user_role) : bool :=
  match r with ROLE_SUPERADMIN | ROLE_MANAGER => true | _ => false end.

(** Menu entry that starts the AddDepartment flow. *)
Definition superadmin_add_department_start : handler :=
  require_role [ROLE_SUPERADMIN] (fun _ _ =>
    set_state (Some AddDepartment_waiting_for_name) ;;;
    answer MsgAskDepartmentName KbRemove).

(** Menu entry that starts the AddEmployee flow. *)
Definition add_employee_start : handler :=
  require_role [ROLE_SUPERADMIN; ROLE_MANAGER] (fun _ _ =>
    set_state (Some AddEmployee_waiting_for_full_name) ;;;
    answer MsgAskEmployeeName KbRemove).

(** The full list for the super-administrator: every department with its
    active employees. *)
Fixpoint employees_by_department (ds : list department)
  : M (list (department * list employee)) :=
  match ds with
  | [] => ret []
  | d :: t =>
      es <- get_department_employees (dept_id d) ;;
      rest <- employees_by_department t ;;
      ret ((d, es) :: rest)
  end.

Definition superadmin_all_employees : handler :=
  require_role [ROLE_SUPERADMIN] (fun _ _ =>
    ds <- get_departments ;;
    match ds with
    | [] =>
        kb <- superadmin_main_kb ;;
        answer MsgNoDepartments kb
    | _ =>
        groups <- employees_by_department ds ;;
        kb <- superadmin_main_kb ;;
        answer (MsgAllEmployees groups) kb
    end).

(** The manager's list: the active employees of each administered
    department. *)
Fixpoint employees_per_department (dept_ids : list Z) : M (list (list employee)) :=
  match dept_ids with
  | [] => ret []
  | i :: t =>
      es <- get_department_employees i ;;
      rest <- employees_per_department t ;;
      ret (es :: rest)
  end.

Definition manager_my_employees : handler :=
  require_role [ROLE_MANAGER] (fun user_id _ =>
    dept_ids <- get_manager_departments user_id ;;
    match dept_ids with
    | [] => answer MsgManagerDepartmentNotFound KbManagerMain
    | _ =>
        groups <- employees_per_department dept_ids ;;
        answer (MsgMyEmployees groups) KbManagerMain
    end).

(** The button of an employee in a department list: the badge of the role, a
    space and the name. *)
Definition badge_label (e : employee) : string :=
  (match role e with RoleManager => "👔" | RoleEmployee => "👤" end
   ++ " " ++ full_name e)%string.

Definition back_label : string := "⬅️ Назад в главное меню".

(** A department button pressed by the super-administrator. *)
Definition superadmin_view_department : handler :=
  require_role [ROLE_SUPERADMIN] (fun _ txt =>
    let name := department_name_of_text txt in
    ds <- get_departments ;;
    match truthy_id (option_map dept_id
                       (find (fun x => String.eqb (dept_name x) name) ds)) with
    | None =>
        kb <- superadmin_main_kb ;;
        answer MsgDepartmentMissing kb
    | Some dept =>
        es <- get_department_employees dept ;;
        let emoji :=
          match find (fun x => dept_id x =? dept) ds with
          | Some x => dept_emoji x
          | None => Some "🏢"
          end in
        match es with
        | [] =>
            kb <- superadmin_main_kb ;;
            answer (MsgDepartmentHasNoEmployees emoji name) kb
        | _ =>
            update_data (put_current_department dept name) ;;;
            answer (MsgDepartmentEmployees emoji name)
                   (KbButtons (map badge_label es ++ [back_label]))
        end
    end).

(** The button that leads back to the main menu. *)
Definition back_to_main : handler :=
  fun user_id _ =>
    clear ;;;
    r <- get_user_role user_id ;;
    match r with
    | ROLE_SUPERADMIN =>
        kb <- superadmin_main_kb ;;
        answer MsgMainMenu kb
    | ROLE_MANAGER => answer MsgMainMenu KbManagerMain
    | _ => answer MsgMainMenu KbEmployeeMain
    end.

(** The menu entry of an employee: the balance of the row bound to the
    sender. *)
Definition employee_balance : handler :=
  require_role [ROLE_EMPLOYEE] (fun user_id _ =>
    try_except
      (conn <- get_db ;;
       match find (fun r => opt_Z_eqb (telegram_user_id r) user_id && (is_active r =? 1))
                  (employees conn) with
       | None => answer MsgNotInDirectory KbEmployeeMain
       | Some row =>
           b <- get_employee_balance (emp_id row) ;;
           answer (MsgOwnBalance row b) KbEmployeeMain
       end)
      (fun e =>
         logging ERROR "employee_balance" (Some e) ;;;
         answer MsgBalanceError KbEmployeeMain)).

(** An employee button: the card of the employee with that name. *)
Definition show_employee_card : handler :=
  fun user_id txt =>
    r <- get_user_role user_id ;;
    if negb (is_staff r) then ret tt
    else
      d <- get_data ;;
      found <- get_employee_by_name txt (d_current_department_id d) ;;
      match found with
      | None => answer MsgEmployeeNotFound KbUnchanged
      | Some e =>
          update_data (put_current_employee_id (emp_id e)) ;;;
          s <- get_employee_salary (emp_id e) ;;
          b <- get_employee_balance (emp_id e) ;;
          rows <- get_employee_accruals (emp_id e) None ;;
          answer (MsgCard {| card_employee := e; card_salary := s;
                             card_bonuses := sum_kind Bonus rows;
                             card_deductions := sum_kind Deduction rows;
                             card_advances := sum_kind Advance rows;
                             card_payouts := sum_kind Payout rows;
                             card_balance := b;
                             card_recent := firstn 5 rows;
                             card_role := r |})
                 (KbCard r)
      end.

(** The button that leads back from a card to the list of the department. *)
Definition back_to_employee_list : handler :=
  fun user_id _ =>
    d <- get_data ;;
    match truthy_id (d_current_department_id d) with
    | None =>
        r <- get_user_role user_id ;;
        match r with
        | ROLE_SUPERADMIN =>
            kb <- superadmin_main_kb ;;
            answer MsgMainMenu kb
        | _ => answer MsgMainMenu KbManagerMain
        end
    | Some dept =>
        es <- get_department_employees dept ;;
        match es with
        | [] =>
            kb <- superadmin_main_kb ;;
            answer (MsgListHasNoEmployees (d_current_department_name d)) kb
        | _ =>
            answer (MsgListEmployees (d_current_department_name d))
                   (KbButtons (map badge_label es ++ [back_label]))
        end
    end.

(** The card button that gives an advance of 20000. *)
Definition give_advance : handler :=
  require_role [ROLE_SUPERADMIN] (fun user_id _ =>
    d <- get_data ;;
    match truthy_id (d_current_employee_id d) with
    | None => answer MsgEmployeeNotSelected KbUnchanged
    | Some emp =>
        try_except
          (w <- get_world ;;
           let current_period := now_period w in
           add_accrual (Some emp) (Some 20000%float) "advance" "Аванс" user_id ;;;
           update_last_period current_period emp ;;;
           answer MsgAdvanceGiven KbUnchanged ;;;
           show_updated_card user_id emp)
          (fun e => answer (MsgAdvanceError e) KbUnchanged)
    end).

(** The card button that starts the SetSalary flow; other roles get no
    answer. *)
Definition change_salary_start : handler :=
  fun user_id _ =>
    r <- get_user_role user_id ;;
    if negb (is_staff r) then ret tt
    else
      set_state (Some SetSalary_waiting_for_amount) ;;;
      answer MsgAskNewSalary KbRemove.

Definition add_bonus_start : handler :=
  fun user_id _ =>
    r <- get_user_role user_id ;;
    if negb (is_staff r) then ret tt
    else
      set_state (Some AddBonus_waiting_for_amount) ;;;
      answer MsgAskBonusAmount KbRemove.

Definition add_deduction_start : handler :=
  fun user_id _ =>
    r <- get_user_role user_id ;;
    if negb (is_staff r) then ret tt
    else
      set_state (Some AddDeduction_waiting_for_amount) ;;;
      answer MsgAskDeductionAmount KbRemove.

(** The commit of a bonus or a deduction: the two handlers differ in the key
    of the amount, the kind, the default comment and the confirmation. *)
Definition adjustment_finish (amount_key : fsm_data -> option float) (kind_tag default : string)
    (done : float -> message) : handler :=
  fun user_id txt =>
    d <- get_data ;;
    let c := PyStr.strip txt in
    match truthy_id (d_current_employee_id d), truthy_amount (amount_key d) with
    | Some emp, Some a =>
        try_except
          (w <- get_world ;;
           let current_period := now_period w in
           add_accrual (Some emp) (Some a) kind_tag (or_default c default) user_id ;;;
           update_last_period current_period emp ;;;
           answer (done a) KbUnchanged ;;;
           set_state None ;;;
           show_updated_card user_id emp)
          (fun e => answer (MsgError e) KbUnchanged ;;; clear)
    | _, _ => answer MsgDataError KbUnchanged ;;; clear
    end.

(** State [AddBonusStates.waiting_for_comment]. *)
Definition add_bonus_finish : handler :=
  adjustment_finish d_bonus_amount "bonus" "Премия" MsgBonusAdded.

(** State [AddDeductionStates.waiting_for_comment]. *)
Definition add_deduction_finish : handler :=
  adjustment_finish d_deduction_amount "deduction" "Вычет" MsgDeductionAdded.

(* ------------------------------------------------------------------ *)
(** ** Every handler, and what the stores keep *)

Inductive action :=
| ASuperadminAddDepartmentStart | ASuperadminAddDepartmentFinish
| AAddEmployeeStart | AAddEmployeeEnterPosition | AAddEmployeeChooseDepartment
| AAddEmployeeFinishSuperadmin
| ASuperadminAllEmployees | AManagerMyEmployees | ASuperadminViewDepartment
| ABackToMain
| AAccrualStart | AAccrualChooseEmployee | AAccrualEnterAmount | AAccrualFinish
| AEmployeeBalance | AShowEmployeeCard | ABackToEmployeeList
| AGiveAdvance | AGiveSalary
| AChangeSalaryStart | AChangeSalaryFinish
| AAddBonusStart | AAddBonusComment | AAddBonusFinish
| AAddDeductionStart | AAddDeductionComment | AAddDeductionFinish.

Definition run (a : action) : handler :=
  match a with
  | ASuperadminAddDepartmentStart => superadmin_add_department_start
  | ASuperadminAddDepartmentFinish => superadmin_add_department_finish
  | AAddEmployeeStart => add_employee_start
  | AAddEmployeeEnterPosition => add_employee_enter_position
  | AAddEmployeeChooseDepartment => add_employee_choose_department
  | AAddEmployeeFinishSuperadmin => add_employee_finish_superadmin
  | ASuperadminAllEmployees => superadmin_all_employees
  | AManagerMyEmployees => manager_my_employees
  | ASuperadminViewDepartment => superadmin_view_department
  | ABackToMain => back_to_main
  | AAccrualStart => accrual_start
  | AAccrualChooseEmployee => accrual_choose_employee
  | AAccrualEnterAmount => accrual_enter_amount
  | AAccrualFinish => accrual_finish
  | AEmployeeBalance => employee_balance
  | AShowEmployeeCard => show_employee_card
  | ABackToEmployeeList => back_to_employee_list
  | AGiveAdvance => give_advance
  | AGiveSalary => give_salary
  | AChangeSalaryStart => change_salary_start
  | AChangeSalaryFinish => change_salary_finish
  | AAddBonusStart => add_bonus_start
  | AAddBonusComment => add_bonus_comment
  | AAddBonusFinish => add_bonus_finish
  | AAddDeductionStart => add_deduction_start
  | AAddDeductionComment => add_deduction_comment
  | AAddDeductionFinish => add_deduction_finish
  end.

(** The roles that [require_role] admits to an action; [None] for the
    handlers without the decorator. *)
Definition gate (a : action) : option (list user_role) :=
  match a with
  | ASuperadminAddDepartmentStart | ASuperadminAddDepartmentFinish
  | AAddEmployeeFinishSuperadmin | ASuperadminAllEmployees
  | ASuperadminViewDepartment | AGiveAdvance | AGiveSalary => Some [ROLE_SUPERADMIN]
  | AAddEmployeeStart | AAddEmployeeEnterPosition | AAddEmployeeChooseDepartment =>
      Some [ROLE_SUPERADMIN; ROLE_MANAGER]
  | AManagerMyEmployees | AAccrualStart | AAccrualChooseEmployee
  | AAccrualEnterAmount | AAccrualFinish => Some [ROLE_MANAGER]
  | AEmployeeBalance => Some [ROLE_EMPLOYEE]
  | _ => None
  end.

(* ------------------------------------------------------------------ *)
(** ** The router *)

(** The filters of [@router.message(...)]: [F.text == t], [F.text.regexp] of
    a glyph followed by something, and a state of the conversation. *)
Inductive trigger :=
| OnText (t : string)
| OnGlyph (glyphs : list string)
| OnState (s : fsm_state).

Definition state_index (s : fsm_state) : Z :=
  match s with
  | AddEmployee_waiting_for_full_name => 1
  | AddEmployee_waiting_for_position => 2
  | AddEmployee_waiting_for_department => 3
  | Accrual_waiting_for_employee => 4
  | Accrual_waiting_for_amount => 5
  | Accrual_waiting_for_comment => 6
  | AddDepartment_waiting_for_name => 7
  | SetSalary_waiting_for_employee_id => 8
  | SetSalary_waiting_for_amount => 9
  | AddBonus_waiting_for_employee_id => 10
  | AddBonus_waiting_for_amount => 11
  | AddBonus_waiting_for_comment => 12
  | AddDeduction_waiting_for_employee_id => 13
  | AddDeduction_waiting_for_amount => 14
  | AddDeduction_waiting_for_comment => 15
  end.

Definition fsm_state_eqb (a b : fsm_state) : bool := state_index a =? state_index b.

(** What is left of [s] after the prefix [p]. *)
Fixpoint after_prefix (p s : string) : option string :=
  match p, s with
  | EmptyString, _ => Some s
  | String a p', String b s' => if Ascii.eqb a b then after_prefix p' s' else None
  | String _ _, EmptyString => None
  end.

(** [re.match("^[glyphs].+", txt)]: one of the glyphs, then a character that
    is not a line feed. *)
Definition glyph_then_text (glyphs : list string) (txt : string) : bool :=
  existsb (fun g => match after_prefix g txt with
                    | Some (String c _) => negb (Ascii.eqb c "010")
                    | _ => false
                    end)
          glyphs.

Definition triggers (f : trigger) (st : option fsm_state) (txt : string) : bool :=
  match f with
  | OnText t => String.eqb txt t
  | OnGlyph glyphs => glyph_then_text glyphs txt
  | OnState s =>
      match st with
      | Some s' => fsm_state_eqb s' s
      | None => false
      end
  end.

(** The handlers in the order of their registration, after the two command
    handlers [cmd_start] and [cmd_help]. *)
Definition registrations : list (trigger * action) :=
  [ (OnText "➕ Добавить отдел", ASuperadminAddDepartmentStart);
    (OnState AddDepartment_waiting_for_name, ASuperadminAddDepartmentFinish);
    (OnText "➕ Добавить сотрудника", AAddEmployeeStart);
    (OnState AddEmployee_waiting_for_full_name, AAddEmployeeEnterPosition);
    (OnState AddEmployee_waiting_for_position, AAddEmployeeChooseDepartment);
    (OnState AddEmployee_waiting_for_department, AAddEmployeeFinishSuperadmin);
    (OnText "📊 Все сотрудники", ASuperadminAllEmployees);
    (OnText "👥 Мои сотрудники", AManagerMyEmployees);
    (OnGlyph department_emojis, ASuperadminViewDepartment);
    (OnText "⬅️ Назад в главное меню", ABackToMain);
    (OnText "💵 Начислить зарплату", AAccrualStart);
    (OnState Accrual_waiting_for_employee, AAccrualChooseEmployee);
    (OnState Accrual_waiting_for_amount, AAccrualEnterAmount);
    (OnState Accrual_waiting_for_comment, AAccrualFinish);
    (OnText "📊 Моя зарплата", AEmployeeBalance);
    (OnGlyph ["👤"; "👔"], AShowEmployeeCard);
    (OnText "⬅️ Назад к списку сотрудников", ABackToEmployeeList);
    (OnText "💸 Выдать аванс 20,000", AGiveAdvance);
    (OnText "💰 Выдать зарплату", AGiveSalary);
    (OnText "✏️ Изменить оклад", AChangeSalaryStart);
    (OnState SetSalary_waiting_for_amount, AChangeSalaryFinish);
    (OnText "➕ Добавить премию", AAddBonusStart);
    (OnState AddBonus_waiting_for_amount, AAddBonusComment);
    (OnState AddBonus_waiting_for_comment, AAddBonusFinish);
    (OnText "➖ Добавить вычет", AAddDeductionStart);
    (OnState AddDeduction_waiting_for_amount, AAddDeductionComment);
    (OnState AddDeduction_waiting_for_comment, AAddDeductionFinish) ].

(** Where the router sends a text.  A text whose first word begins with a
    slash goes through the filters of [cmd_start] and [cmd_help], which are
    not modelled. *)
Inductive routed :=
| CommandOrLater
| Handler (a : action)
| Unhandled.

(** The first registered handler whose filter holds takes the message. *)
Definition route (st : option fsm_state) (txt : string) : routed :=
  match PyStr.lstrip txt with
  | String "/" _ => CommandOrLater
  | _ =>
      match find (fun r => triggers (fst r) st txt) registrations with
      | Some r => Handler (snd r)
      | None => Unhandled
      end
  end.



(** The columns of an accrual that no statement of the program updates:
    everything but the period. *)
Definition fixed_columns (r : accrual)
  : Z * Z * float * kind * option string * string * option Z :=
  (acc_id r, acc_employee_id r, amount r, acc_kind r, comment r, created_at r,
   created_by r).

(** [d'] holds the accruals of [d], in place and unchanged but for their
    periods, followed by new ones. *)
Definition ledger_extends (d d' : db) : Prop :=
  exists added, map fixed_columns (accruals d')
                = (map fixed_columns (accruals d) ++ added)%list.

(** The role tag of the active row bound to a Telegram identifier. *)
Definition bound_role (user_id : Z) (d : db) : option emp_role :=
  option_map role
    (find (fun r => opt_Z_eqb (telegram_user_id r) user_id && (is_active r =? 1))
          (employees d)).

(** [d'] binds the same identifiers to the same roles and gives every manager
    the same departments as [d]. *)
Definition same_roles (d d' : db) : Prop :=
  forall user_id,
    bound_role user_id d' = bound_role user_id d
    /\ manager_scope user_id d' = manager_scope user_id d.

(** The keys of the three tables are unique and not above the counters; the
    department names are unique. *)
Definition keys_ok (d : db) : Prop :=
  NoDup (map dept_id (departments d))
  /\ NoDup (map dept_name (departments d))
  /\ NoDup (map emp_id (employees d))
  /\ NoDup (map acc_id (accruals d))
  /\ (forall i, In i (map dept_id (departments d)) -> i <= seq_departments d)
  /\ (forall i, In i (map emp_id (employees d)) -> i <= seq_employees d)
  /\ (forall i, In i (map acc_id (accruals d)) -> i <= seq_accruals d).

(** The tables after each of the five statements that write. *)
Definition db_add_accrual (d : db) (emp : Z) (a : float) (k : kind) (c at_ : string) (by_ : Z)
  : db :=
  {| departments := departments d;
     employees := employees d;
     accruals := accruals d ++
       [new_accrual (next_rowid (map acc_id (accruals d)) (seq_accruals d))
          emp a k c at_ by_];
     seq_departments := seq_departments d;
     seq_employees := seq_employees d;
     seq_accruals := next_rowid (map acc_id (accruals d)) (seq_accruals d) |}.

Definition db_add_department (d : db) (name emoji : string) : db :=
  {| departments := departments d ++
       [{| dept_id := next_rowid (map dept_id (departments d)) (seq_departments d);
           dept_name := name; dept_emoji := Some emoji |}];
     employees := employees d;
     accruals := accruals d;
     seq_departments := next_rowid (map dept_id (departments d)) (seq_departments d);
     seq_employees := seq_employees d;
     seq_accruals := seq_accruals d |}.

Definition db_add_employee (d : db) (name : string) (tg : option Z) (dept : Z)
    (r : emp_role) (pos : option string) : db :=
  {| departments := departments d;
     employees := employees d ++
       [{| emp_id := next_rowid (map emp_id (employees d)) (seq_employees d);
           full_name := name; telegram_user_id := tg;
           department_id := dept; role := r; position := pos;
           salary := Some 0%float; is_active := 1 |}];
     accruals := accruals d;
     seq_departments := seq_departments d;
     seq_employees := next_rowid (map emp_id (employees d)) (seq_employees d);
     seq_accruals := seq_accruals d |}.

Definition db_set_salary (d : db) (emp : Z) (s : float) : db :=
  {| departments := departments d;
     employees := map (set_salary_row emp s) (employees d);
     accruals := accruals d;
     seq_departments := seq_departments d;
     seq_employees := seq_employees d;
     seq_accruals := seq_accruals d |}.

Definition db_set_last_period (d : db) (p : string) (emp : Z) : db :=
  {| departments := departments d;
     employees := employees d;
     accruals := map (fun r => if opt_Z_eqb (max_id emp (accruals d)) (acc_id r)
                               then set_period p r else r)
                     (accruals d);
     seq_departments := seq_departments d;
     seq_employees := seq_employees d;
     seq_accruals := seq_accruals d |}.

(** [m] takes the tables from [d] to some [d'] with [P d d']. *)
Definition keeps (P : db -> db -> Prop) {A} (m : M A) : Prop :=
  forall w, P (store w) (store (snd (m w))).

(** The columns of an employee that no statement of the program updates:
    everything but the salary. *)
Definition employee_fixed_columns (e : employee)
  : Z * string * option Z * Z * emp_role * option string * Z :=
  (emp_id e, full_name e, telegram_user_id e, department_id e, role e, position e,
   is_active e).

(** [d'] holds the departments of [d] followed by new ones, and the employees
    of [d], unchanged but for their salaries, followed by new ones. *)
Definition directory_extends (d d' : db) : Prop :=
  (exists added, departments d' = (departments d ++ added)%list)
  /\ (exists added, map employee_fixed_columns (employees d')
                    = (map employee_fixed_columns (employees d) ++ added)%list).

(** [m] only adds replies to the outbox. *)
Definition grows {A} (m : M A) : Prop :=
  forall w, exists rest, outbox (snd (m w)) = (outbox w ++ rest)%list.

(** The characters of a printed integer. *)
Definition digit_or_minus (c : ascii) : Prop :=
  PyStr.is_digit c = true \/ c = "-"%char.

(** The glyph on the button of a department: its own, or the default one
    when it has none. *)
Definition department_glyph (d : department) : string :=
  match dept_emoji d with
  | Some (String c e) => String c e
  | _ => "🏢"
  end.

(** The amounts that the conversation holds for a later commit are
    positive. *)
Definition data_positive (d : fsm_data) : Prop :=
  (forall a, d_amount d = Some a -> (0 <? a)%float = true)
  /\ (forall a, d_bonus_amount d = Some a -> (0 <? a)%float = true)
  /\ (forall a, d_deduction_amount d = Some a -> (0 <? a)%float = true).

(** Every row of the ledger has a positive amount, and so has every amount
    that the conversation holds. *)
Definition amounts_positive (w : world) : Prop :=
  Forall (fun a => (0 <? a)%float = true) (map amount (accruals (store w)))
  /\ data_positive (data w).

(** [m] keeps the invariant [I] of the world. *)
Definition preserves (I : world -> Prop) {A} (m : M A) : Prop :=
  forall w, I w -> I (snd (m w)).

(* ------------------------------------------------------------------ *)
(** ** The initial import *)

(** A Python dict from names to keys, as the list of its items in insertion
    order. *)
Fixpoint dict_set (k : string) (v : Z) (l : list (string * Z)) : list (string * Z) :=
  match l with
  | [] => [(k, v)]
  | (k', v') :: t => if String.eqb k' k then (k, v) :: t else (k', v') :: dict_set k v t
  end.

(** [dept_ids[k]].  The import looks up only names that it has set before;
    0 stands for the KeyError of any other name. *)
Definition dict_get (k : string) (l : list (string * Z)) : Z :=
  match find (fun kv => String.eqb (fst kv) k) l with
  | Some kv => snd kv
  | None => 0
  end.

(** The dict [departments] of the import: names and glyphs. *)
Definition import_departments : list (string * string) :=
  [("Отдел выкупа", "💸");
   ("Отдел продаж", "🧾");
   ("Склад (производство)", "📦");
   ("PR-отдел", "📣");
   ("Отдел разбора", "🧰");
   ("Бухгалтерия", "🧮")].

Definition employees_vykup : list (string * string) :=
  [("Захаркин Андрей Андреевич", "менеджер по выкупу");
   ("Макарова Лилия Сергеевна", "оператор колл-центра");
   ("Михайленков Алексей Викторович", "менеджер по выкупу");
   ("Пославская Юлия Ивановна", "оператор колл-центра");
   ("Широ Татьяна Ивановна", "руководитель колл-центра")].

Definition employees_sales : list (string * string) :=
  [("Филимонов Игорь Павлович", "менеджер по продажам");
   ("Дериглазов Виктор Васильевич", "менеджер по продажам");
   ("Серков Виталий Андреевич", "менеджер по продажам");
   ("Джумакашева Марина Васильевна", "кассир");
   ("Ефремова Ангелина Ивановна", "кассир");
   ("Клюкин Владимир Олегович", "менеджер по продажам");
   ("Ломас Кирилл Алексеевич", "менеджер по продажам");
   ("Овчинников Данил Витальевич", "менеджер по продажам");
   ("Темерке Дмитрий Николаевич", "менеджер по продажам");
   ("Сергеева Лариса Анатольевна", "кассир");
   ("Куриленко Ксения Сергеевна", "менеджер по продажам");
   ("Шабуров Артём Владимирович", "менеджер по продажам")].

Definition employees_warehouse : list (string * string) :=
  [("Агафонов Виталий", "кладовщик");
   ("Бурматов Дмитрий", "кладовщик");
   ("Быковский Максим", "кладовщик");
   ("Выбрик Александр Валерьевич", "кладовщик");
   ("Гарус Игорь", "кладовщик");
   ("Горбунов Александр", "кладовщик");
   ("Гречихин Владимир Анатольевич", "кладовщик");
   ("Макаров Алексей", "кладовщик");
   ("Новосёлов Александр Сергеевич", "сварщик");
   ("Шадрин Евгений", "кладовщик");
   ("Подберёзный Игорь Романович", "кладовщик");
   ("Попов Максим Андреевич", "кладовщик");
   ("Привалов Владимир Геннадьевич", "старший кладовщик");
   ("Романов Александр Викторович", "кладовщик");
   ("Сероштан Владимир Фёдорович", "разнорабочий");
   ("Соколов Дмитрий Николаевич", "кладовщик");
   ("Сулейманов Ринат Тимершатович", "кладовщик");
   ("Цветков Николай", "кладовщик");
   ("Шулепова Ульяна Алексеевна", "уборщица");
   ("Валерий Ловягин", "разнорабочий");
   ("Сиваченко Юрий", "кладовщик");
   ("Хисматуллин Артур Рафикович", "кладовщик");
   ("Мухутдинов Эдуард", "кладовщик");
   ("Валько Владислав", "кладовщик")].

Definition employees_pr : list (string * string) :=
  [("Солдатова Екатерина Валерьевна", "блогер");
   ("Курсов Перун Андреевич (Данил)", "блогер");
   ("Герасименко Андрей Иванович", "оператор-монтажёр")].

Definition employees_razbor : list (string * string) :=
  [("Калугин Максим", "проценщик");
   ("Попов Максим", "проценщик");
   ("Кокшаров Виталий", "разборщик");
   ("Кудрявцев Сергей", "разборщик");
   ("Клюкин Денис", "проценщик");
   ("Матюшенко Александр", "проценщик");
   ("Шульц Максим", "подготовщик")].

Definition employees_buh : list (string * string) :=
  [("Назырова Анна", "бухгалтер");
   ("Виктория (фамилия уточняется)", "бухгалтер")].

(** [INSERT INTO departments (name, emoji)]: the name must be new. *)
Definition insert_department (conn : db) (name emoji : string) : result db :=
  if existsb (fun x => String.eqb (dept_name x) name) (departments conn)
  then Raise (IntegrityError "UNIQUE constraint failed: departments.name")
  else Ok (db_add_department conn name emoji).

(** The loop over the dict: each department is inserted and its key, the
    [lastrowid] of the insert, kept under its name. *)
Fixpoint insert_departments (rows : list (string * string)) (conn : db)
    (dept_ids : list (string * Z)) : result (db * list (string * Z)) :=
  match rows with
  | [] => Ok (conn, dept_ids)
  | (name, emoji) :: rest =>
      match insert_department conn name emoji with
      | Raise e => Raise e
      | Ok conn' =>
          insert_departments rest conn' (dict_set name (seq_departments conn') dept_ids)
      end
  end.

(** A loop of [INSERT INTO employees (full_name, department_id, role,
    position, is_active)]: no Telegram identifier, the default salary. *)
Definition insert_employees (r : emp_role) (dept : Z) (rows : list (string * string))
    (conn : db) : db :=
  fold_left (fun c row => db_add_employee c (fst row) None dept r (Some (snd row)))
    rows conn.

(** The second part of the import: the employees of each department, with
    the two managers before the staff of theirs. *)
Definition import_employees (dept_ids : list (string * Z)) (conn : db) : db :=
  let conn :=
    insert_employees RoleEmployee (dict_get "Отдел выкупа" dept_ids)
      employees_vykup conn in
  let conn :=
    insert_employees RoleManager (dict_get "Отдел продаж" dept_ids)
      [("Артамонов Дмитрий Сергеевич", "руководитель отдела продаж")] conn in
  let conn :=
    insert_employees RoleEmployee (dict_get "Отдел продаж" dept_ids)
      employees_sales conn in
  let conn :=
    insert_employees RoleEmployee (dict_get "Склад (производство)" dept_ids)
      employees_warehouse conn in
  let conn :=
    insert_employees RoleEmployee (dict_get "PR-отдел" dept_ids)
      employees_pr conn in
  let conn :=
    insert_employees RoleManager (dict_get "Отдел разбора" dept_ids)
      [("Первухин Алексей", "руководитель отдела разбора")] conn in
  let conn :=
    insert_employees RoleEmployee (dict_get "Отдел разбора" dept_ids)
      employees_razbor conn in
  let conn :=
    insert_employees RoleEmployee (dict_get "Бухгалтерия" dept_ids)
      employees_buh conn in
  conn.

(** [import_company_structure]: skipped when there is a department already;
    otherwise the departments and then their employees are inserted and the
    whole is committed. *)
Definition import_company_structure : M unit :=
  conn <- get_db ;;
  if 0 <? Z.of_nat (List.length (departments conn))
  then logging INFO "import_company_structure" None
  else
    logging INFO "import_company_structure" None ;;;
    match insert_departments import_departments conn [] with
    | Raise e => raise e
    | Ok (conn, dept_ids) =>
        commit (import_employees dept_ids conn) ;;;
        logging INFO "import_company_structure" None
    end.

(** [d'] is [d] with [n] more employees, each active, bound to no Telegram
    identifier and of a department among [depts]; the other tables are those
    of [d]. *)
Definition staffed (depts : list Z) (n : nat) (d d' : db) : Prop :=
  departments d' = departments d
  /\ accruals d' = accruals d
  /\ seq_departments d' = seq_departments d
  /\ seq_accruals d' = seq_accruals d
  /\ exists new,
       employees d' = (employees d ++ new)%list
       /\ List.length new = n
       /\ Forall (fun e => telegram_user_id e = None /\ is_active e = 1
                           /\ In (department_id e) depts) new.

(** [LocallySorted] for a boolean order. *)
Inductive sorted_by {A} (le : A -> A -> bool) : list A -> Prop :=
| sorted_nil : sorted_by le []
| sorted_one : forall x, sorted_by le [x]
| sorted_cons : forall x y l, le x y = true -> sorted_by le (y :: l) -> sorted_by le (x :: y :: l).

(* ================================================================== *)
(** * Properties *)

Arguments PyStr.strip : simpl never.
Arguments PyStr.replace : simpl never.
Arguments PyStr.py_int : simpl never.
Arguments PyStr.py_float : simpl never.
Arguments PyStr.before_first : simpl never.
Arguments validate_amount : simpl never.
Arguments department_name_of_text : simpl never.
Arguments balance_query : simpl never.
Arguments next_rowid : simpl never.
Arguments records_of : simpl never.
Arguments max_id : simpl never.
Arguments is_zero : simpl never.
Arguments is_nan : simpl never.
Arguments sql_real : simpl never.

(* ------------------------------------------------------------------ *)
(** ** Floats *)

Lemma Prim2SF_inj (x y : float) : Prim2SF x = Prim2SF y -> x = y.
Proof.
  intros H. rewrite <- (SF2Prim_Prim2SF x), <- (SF2Prim_Prim2SF y), H. reflexivity.
Qed.

Lemma is_zero_spec (x : float) : is_zero x = true <-> exists s, Prim2SF x = S754_zero s.
Proof.
  unfold is_zero. rewrite FloatAxioms.eqb_spec.
  change (Prim2SF zero) with (S754_zero false).
  destruct (Prim2SF x) as [s|s| |s m e]; cbn; split; intros H; try discriminate;
    try (eexists; reflexivity); try (destruct H; discriminate).
  - destruct s; discriminate.
  - destruct s; discriminate.
Qed.

Lemma same_number_refl (x : float) : same_number x x.
Proof. left. reflexivity. Qed.

Lemma same_number_sym (x y : float) : same_number x y -> same_number y x.
Proof. intros [->|[H1 H2]]; [left; reflexivity|right; split; assumption]. Qed.

Lemma same_number_trans (x y z : float) :
  same_number x y -> same_number y z -> same_number x z.
Proof.
  intros [->|[H1 H2]] [->|[H3 H4]]; try (left; reflexivity); right; split; assumption.
Qed.

(** Adding 0.0 gives the same number: only -0.0 becomes 0.0. *)
Lemma add_zero_r (x : float) : same_number (x + 0) x.
Proof.
  destruct (Prim2SF x) as [s|s| |s m e] eqn:E.
  - right. split; apply is_zero_spec.
    + rewrite add_spec, E. change (Prim2SF 0) with (S754_zero false).
      destruct s; cbn; eexists; reflexivity.
    + eexists; exact E.
  - left. apply Prim2SF_inj. rewrite add_spec, E. reflexivity.
  - left. apply Prim2SF_inj. rewrite add_spec, E. reflexivity.
  - left. apply Prim2SF_inj. rewrite add_spec, E. reflexivity.
Qed.

Lemma add_same_l (a a' b : float) : same_number a a' -> same_number (a + b) (a' + b).
Proof.
  intros [->|[H1 H2]]; [left; reflexivity|].
  apply is_zero_spec in H1, H2. destruct H1 as [s1 H1], H2 as [s2 H2].
  destruct (Prim2SF b) as [s|s| |s m e] eqn:E.
  - right. split; apply is_zero_spec; rewrite add_spec, E; [rewrite H1|rewrite H2];
      destruct s; [destruct s1|destruct s1|destruct s2|destruct s2]; cbn; eexists; reflexivity.
  - left. apply Prim2SF_inj. rewrite !add_spec, E, H1, H2. reflexivity.
  - left. apply Prim2SF_inj. rewrite !add_spec, E, H1, H2. reflexivity.
  - left. apply Prim2SF_inj. rewrite !add_spec, E, H1, H2. reflexivity.
Qed.

Lemma sub_same_r (x y y' : float) : same_number y y' -> same_number (x - y) (x - y').
Proof.
  intros [->|[H1 H2]]; [left; reflexivity|].
  apply is_zero_spec in H1, H2. destruct H1 as [s1 H1], H2 as [s2 H2].
  destruct (Prim2SF x) as [s|s| |s m e] eqn:E.
  - right. split; apply is_zero_spec; rewrite sub_spec, E; [rewrite H1|rewrite H2];
      destruct s; [destruct s1|destruct s1|destruct s2|destruct s2]; cbn; eexists; reflexivity.
  - left. apply Prim2SF_inj. rewrite !sub_spec, E, H1, H2. reflexivity.
  - left. apply Prim2SF_inj. rewrite !sub_spec, E, H1, H2. reflexivity.
  - left. apply Prim2SF_inj. rewrite !sub_spec, E, H1, H2. reflexivity.
Qed.

Lemma sub_same_l (x x' y : float) : same_number x x' -> same_number (x - y) (x' - y).
Proof.
  intros [->|[H1 H2]]; [left; reflexivity|].
  apply is_zero_spec in H1, H2. destruct H1 as [s1 H1], H2 as [s2 H2].
  destruct (Prim2SF y) as [s|s| |s m e] eqn:E.
  - right. split; apply is_zero_spec; rewrite sub_spec, E; [rewrite H1|rewrite H2];
      destruct s; [destruct s1|destruct s1|destruct s2|destruct s2]; cbn; eexists; reflexivity.
  - left. apply Prim2SF_inj. rewrite !sub_spec, E, H1, H2. reflexivity.
  - left. apply Prim2SF_inj. rewrite !sub_spec, E, H1, H2. reflexivity.
  - left. apply Prim2SF_inj. rewrite !sub_spec, E, H1, H2. reflexivity.
Qed.

Lemma sub_same (a a' b b' : float) :
  same_number a a' -> same_number b b' -> same_number (a - b) (a' - b').
Proof.
  intros Ha Hb.
  eapply same_number_trans; [apply sub_same_l; exact Ha|apply sub_same_r; exact Hb].
Qed.

(** The comparisons with zero, by the cases of the number. *)
Ltac float_cases b :=
  unfold is_nan, is_zero;
  rewrite ?FloatAxioms.leb_spec, ?FloatAxioms.ltb_spec, ?FloatAxioms.eqb_spec;
  change (Prim2SF 0) with (S754_zero false);
  change (Prim2SF zero) with (S754_zero false);
  destruct (Prim2SF b) as [[]|[]| |[] ? ?]; cbn; try rewrite Z.compare_refl;
  try rewrite Pos.compare_cont_refl; cbn; intros; try discriminate; auto.

(** A balance that is not [<= 0] is above zero or NaN. *)
Lemma not_leb_zero (b : float) :
  (b <=? 0)%float = false -> (0 <? b)%float = true \/ is_nan b = true.
Proof. float_cases b. Qed.

Lemma ltb_not_leb (b : float) : (0 <? b)%float = true -> (b <=? 0)%float = false.
Proof. float_cases b. Qed.

Lemma ltb_not_nan (b : float) : (0 <? b)%float = true -> is_nan b = false.
Proof. float_cases b. Qed.

Lemma ltb_not_zero (b : float) : (0 <? b)%float = true -> is_zero b = false.
Proof. float_cases b. Qed.

Lemma ltb_not_below (b : float) : (0 <? b)%float = true -> (b <? 0)%float = false.
Proof. float_cases b. Qed.


Lemma zero_not_above (b : float) : is_zero b = true -> (0 <? b)%float = false.
Proof. float_cases b. Qed.

Lemma nan_not_leb (b : float) : is_nan b = true -> (b <=? 0)%float = false.
Proof. float_cases b. Qed.

Lemma sub_not_nan (x y : float) :
  is_nan (x - y) = false -> is_nan x = false /\ is_nan y = false.
Proof.
  unfold is_nan. rewrite !FloatAxioms.eqb_spec, sub_spec.
  destruct (Prim2SF x) as [[]|[]| |[] ? ?]; destruct (Prim2SF y) as [[]|[]| |[] ? ?];
    cbn; intros H; try discriminate H; split; try reflexivity;
    rewrite ?Z.compare_refl, ?Pos.compare_cont_refl; reflexivity.
Qed.

Lemma zero_not_nan (x : float) : is_zero x = true -> is_nan x = false.
Proof. float_cases x. Qed.

Lemma same_number_nan (x y : float) :
  same_number x y -> is_nan y = false -> is_nan x = false.
Proof. intros [->|[Hx _]] Hy; [exact Hy|apply zero_not_nan; exact Hx]. Qed.

(* ------------------------------------------------------------------ *)
(** ** Sums *)

Lemma sql_real_number (x : float) : is_nan x = false -> sql_real x = Some x.
Proof. unfold sql_real. intros ->. reflexivity. Qed.

Lemma sql_real_positive (x : float) : (0 <? x)%float = true -> sql_real x = Some x.
Proof. intros H. apply sql_real_number, ltb_not_nan, H. Qed.

(** A sum that is not a number counts as zero, like the sum over no row. *)
Lemma coalesce_sql_sum (l : list float) :
  coalesce (sql_sum l) 0 = coalesce (sql_real (fold_left PrimFloat.add l 0%float)) 0.
Proof. destruct l; reflexivity. Qed.

Lemma credit_sum_total (employee_id : Z) (d : db) :
  credit_sum employee_id d = coalesce (sql_real (credit_total employee_id d)) 0.
Proof. apply coalesce_sql_sum. Qed.

Lemma debit_sum_total (employee_id : Z) (d : db) :
  debit_sum employee_id d = coalesce (sql_real (debit_total employee_id d)) 0.
Proof. apply coalesce_sql_sum. Qed.

Lemma records_of_app (employee_id : Z) (rows : list accrual) (r : accrual) :
  records_of employee_id (rows ++ [r])
  = if acc_employee_id r =? employee_id
    then (records_of employee_id rows ++ [r])%list
    else records_of employee_id rows.
Proof.
  unfold records_of. rewrite filter_app. cbn.
  destruct (acc_employee_id r =? employee_id); [reflexivity|apply app_nil_r].
Qed.

Lemma records_of_none (employee_id : Z) (rows : list accrual) :
  (forall r, In r rows -> acc_employee_id r <> employee_id) ->
  records_of employee_id rows = [].
Proof.
  unfold records_of. induction rows as [|r rows IH]; intros H; [reflexivity|].
  simpl. destruct (acc_employee_id r =? employee_id) eqn:E.
  - apply Z.eqb_eq in E. exfalso. exact (H r (or_introl eq_refl) E).
  - apply IH. intros x Hx. apply H. right. exact Hx.
Qed.

Lemma is_credit_kind_in (k : kind) : is_credit k = kind_in k [Salary; Bonus].
Proof. destruct k; reflexivity. Qed.

Lemma is_debit_kind_in (k : kind) : is_debit k = kind_in k [Payout; Advance; Deduction].
Proof. destruct k; reflexivity. Qed.

(** The [CASE ... ELSE 0] sum over the rows of the employee and the total of
    the listed kinds along the ledger are the same number: a row of another
    kind adds 0.0 to the first and is passed over by the second. *)
Lemma case_sum_total (employee_id : Z) (listed : kind -> bool) (ks : list kind)
    (rows : list accrual) (a a' : float) :
  (forall k, listed k = kind_in k ks) ->
  same_number a a' ->
  same_number
    (fold_left PrimFloat.add
       (map (fun r => if listed (acc_kind r) then amount r else 0%float)
            (records_of employee_id rows))
       a)
    (fold_left (fun acc r => if (acc_employee_id r =? employee_id) && kind_in (acc_kind r) ks
                             then (acc + amount r)%float else acc)
       rows a').
Proof.
  intros Hk. unfold records_of. revert a a'.
  induction rows as [|r rows IH]; intros a a' Ha; simpl; [exact Ha|].
  destruct (acc_employee_id r =? employee_id); simpl.
  - rewrite Hk. destruct (kind_in (acc_kind r) ks); apply IH.
    + apply add_same_l. exact Ha.
    + eapply same_number_trans; [apply add_zero_r|exact Ha].
  - apply IH. exact Ha.
Qed.

Lemma credit_total_of (employee_id : Z) (d : db) :
  same_number (credit_total employee_id d) (total_of employee_id [Salary; Bonus] (accruals d)).
Proof.
  apply case_sum_total; [apply is_credit_kind_in|apply same_number_refl].
Qed.

Lemma debit_total_of (employee_id : Z) (d : db) :
  same_number (debit_total employee_id d)
    (total_of employee_id [Payout; Advance; Deduction] (accruals d)).
Proof.
  apply case_sum_total; [apply is_debit_kind_in|apply same_number_refl].
Qed.

(** The balance query computes the signed fold of the specification, when
    that is a number. *)
Lemma balance_query_signed_fold (employee_id : Z) (d : db) :
  is_nan (signed_fold employee_id (accruals d)) = false ->
  same_number (balance_query employee_id d) (signed_fold employee_id (accruals d)).
Proof.
  intros Hnum.
  pose proof (credit_total_of employee_id d) as Hc.
  pose proof (debit_total_of employee_id d) as Hd.
  pose proof (sub_same _ _ _ _ Hc Hd) as Hsub.
  fold (signed_fold employee_id (accruals d)) in Hsub.
  destruct (sub_not_nan _ _ Hnum) as [Hc' Hd'].
  unfold balance_query, balance_row.
  rewrite credit_sum_total, debit_sum_total.
  rewrite (sql_real_number _ (same_number_nan _ _ Hc Hc')).
  rewrite (sql_real_number _ (same_number_nan _ _ Hd Hd')).
  cbn [coalesce].
  rewrite (sql_real_number _ (same_number_nan _ _ Hsub Hnum)).
  exact Hsub.
Qed.

Lemma balance_query_rows (employee_id : Z) (d d' : db) :
  filter (fun r => acc_employee_id r =? employee_id) (accruals d')
  = filter (fun r => acc_employee_id r =? employee_id) (accruals d) ->
  balance_query employee_id d' = balance_query employee_id d.
Proof.
  intros H.
  unfold balance_query, balance_row, credit_sum, debit_sum, credit_values, debit_values,
    records_of.
  rewrite H. reflexivity.
Qed.

Lemma get_employee_balance_ready (w : world) (employee_id : Z) :
  store_ready w ->
  eval (get_employee_balance employee_id) w = Ok (balance_query employee_id (store w)).
Proof.
  unfold store_ready, eval, get_employee_balance, try_except, bind, get_db, ret.
  intros ->. reflexivity.
Qed.

(* ------------------------------------------------------------------ *)
(** ** The derived balance *)

(** C1, amended.  When the store can be read, [get_employee_balance] returns
    the signed fold of the employee's records: the amounts of kind salary or
    bonus minus the amounts of kind payout, advance or deduction, each total
    taken in binary64 arithmetic in the order in which the records were
    inserted, as long as that is a number.  The value depends on the records
    of that employee and their order only: a store whose ledger holds the
    same records of the employee in the same order gives the same value.  An
    employee without records gets exactly zero as a normal return value. *)
Theorem get_employee_balance_signed_fold (w : world) (employee_id : Z) :
  store_ready w ->
  exists b,
    eval (get_employee_balance employee_id) w = Ok b
    /\ (is_nan (signed_fold employee_id (accruals (store w))) = false ->
        same_number b (signed_fold employee_id (accruals (store w))))
    /\ (forall w',
          store_ready w' ->
          filter (fun r => acc_employee_id r =? employee_id) (accruals (store w'))
          = filter (fun r => acc_employee_id r =? employee_id) (accruals (store w)) ->
          eval (get_employee_balance employee_id) w' = Ok b)
    /\ ((forall r, In r (accruals (store w)) -> acc_employee_id r <> employee_id) ->
        b = 0%float).
Proof.
  intros Hw. exists (balance_query employee_id (store w)).
  split; [apply get_employee_balance_ready; exact Hw|].
  split; [apply balance_query_signed_fold|].
  split.
  - intros w' Hw' Hrows. rewrite (get_employee_balance_ready w' employee_id Hw').
    f_equal. apply balance_query_rows. exact Hrows.
  - intros Hnone.
    unfold balance_query, balance_row, credit_sum, debit_sum, credit_values, debit_values.
    rewrite (records_of_none employee_id _ Hnone). reflexivity.
Qed.

(** Ann's balance in the sample company is 8000, also when a row of Petrov
    comes first in the ledger; Petrov, who has no records, gets zero. *)
Lemma get_employee_balance_signed_fold_witness :
  eval (get_employee_balance 2) (Sample.world_at None no_data []) = Ok 8000%float
  /\ eval (get_employee_balance 2)
          (exec (add_accrual (Some 3) (Some 5%float) "bonus" "note" 1)
                (Sample.world_at None no_data []))
     = Ok 8000%float
  /\ eval (get_employee_balance 3) (Sample.world_at None no_data []) = Ok 0%float.
Proof.
  destruct (get_employee_balance_signed_fold (Sample.world_at None no_data []) 2 eq_refl)
    as (b & Hb & _ & Hrows & _).
  destruct (get_employee_balance_signed_fold (Sample.world_at None no_data []) 3 eq_refl)
    as (b3 & Hb3 & _ & _ & Hzero).
  assert (E : b = 8000%float) by (vm_compute in Hb; congruence).
  split; [rewrite Hb, E; reflexivity|].
  split.
  - rewrite <- E. apply Hrows; reflexivity.
  - rewrite Hb3. f_equal. apply Hzero.
    intros r [<-|[<-|[]]]; discriminate.
Defined.

(** C1 as stated fails: the balance depends on the order of insertion.
    Petrov gets the bonuses 0.1, 0.7 and 0.2 in this order and in the order
    0.7, 0.2, 0.1: the two ledgers hold the same records, and the balance is
    1 after the first run and the float below 1 after the second. *)
Lemma balance_depends_on_insertion_order :
  Permutation
    (map (fun r => (acc_employee_id r, amount r, acc_kind r))
       (accruals (store (exec (Sample.record_all 3 "bonus" ["0.1"; "0.7"; "0.2"])
                              (Sample.world_at None no_data [])))))
    (map (fun r => (acc_employee_id r, amount r, acc_kind r))
       (accruals (store (exec (Sample.record_all 3 "bonus" ["0.7"; "0.2"; "0.1"])
                              (Sample.world_at None no_data [])))))
  /\ eval (get_employee_balance 3)
          (exec (Sample.record_all 3 "bonus" ["0.1"; "0.7"; "0.2"])
                (Sample.world_at None no_data []))
     = Ok 1%float
  /\ eval (get_employee_balance 3)
          (exec (Sample.record_all 3 "bonus" ["0.7"; "0.2"; "0.1"])
                (Sample.world_at None no_data []))
     = Ok 0x1.fffffffffffffp-1%float
  /\ (0x1.fffffffffffffp-1 <? 1)%float = true.
Proof.
  split; [|repeat split].
  vm_compute.
  apply perm_skip, perm_skip.
  eapply perm_trans; [apply perm_swap|]. apply perm_skip, perm_swap.
Qed.

(* ------------------------------------------------------------------ *)
(** ** Reads under a failing store *)

(** C10.  When the store raises, the read operations do not raise: the
    balance is 0, the department list and the list of a department's employees
    are empty, and the lookup by name finds nobody.  Each of these results is
    the one that a usable store without any rows gives, and the tables are
    left as they were. *)
Theorem reads_swallow_store_errors
    (w : world) (employee_id dept : Z) (name : string) (scope : option Z) :
  store_failing w ->
  (eval (get_employee_balance employee_id) w = Ok 0%float
   /\ eval get_departments w = Ok []
   /\ eval (get_department_employees dept) w = Ok []
   /\ eval (get_employee_by_name name scope) w = Ok None)
  /\ (forall w0, store_ready w0 -> store w0 = empty_db ->
        eval (get_employee_balance employee_id) w0 = eval (get_employee_balance employee_id) w
        /\ eval get_departments w0 = eval get_departments w
        /\ eval (get_department_employees dept) w0 = eval (get_department_employees dept) w
        /\ eval (get_employee_by_name name scope) w0 = eval (get_employee_by_name name scope) w)
  /\ (store (exec (get_employee_balance employee_id) w) = store w
      /\ store (exec get_departments w) = store w
      /\ store (exec (get_department_employees dept) w) = store w
      /\ store (exec (get_employee_by_name name scope) w) = store w).
Proof.
  unfold store_failing, store_ready. intros Hfail.
  unfold eval, exec, get_employee_balance, get_departments, get_department_employees,
    get_employee_by_name, try_except, bind, get_db, ret, logging.
  rewrite Hfail. cbn.
  split; [repeat split|]. split; [|repeat split].
  intros w0 Hready Hempty. rewrite Hready, Hempty. cbn.
  repeat split.
  destruct scope as [d|]; [destruct (d =? 0)|]; reflexivity.
Qed.

(** The four reads on the sample company with a failure scheduled. *)
Lemma reads_swallow_store_errors_witness :
  eval (get_employee_balance 2) (Sample.world_at None no_data [true]) = Ok 0%float
  /\ eval get_departments (Sample.world_at None no_data [true]) = Ok []
  /\ eval (get_department_employees 1) (Sample.world_at None no_data [true]) = Ok []
  /\ eval (get_employee_by_name "Ann" (Some 1)) (Sample.world_at None no_data [true]) = Ok None.
Proof.
  exact (proj1 (reads_swallow_store_errors
                  (Sample.world_at None no_data [true]) 2 1 "Ann" (Some 1) eq_refl)).
Defined.

(* ------------------------------------------------------------------ *)
(** ** Role resolution *)

(** The row that binds [user_id] as an active employee. *)
Lemma find_unique_binding (user_id : Z) (rows : list employee) (e : employee) :
  In e rows ->
  telegram_user_id e = Some user_id ->
  is_active e = 1 ->
  (forall e', In e' rows -> telegram_user_id e' = Some user_id -> e' = e) ->
  find (fun r => opt_Z_eqb (telegram_user_id r) user_id && (is_active r =? 1)) rows = Some e.
Proof.
  intros Hin Htg Hact Huniq.
  induction rows as [|r rows IH]; [contradiction|].
  simpl. destruct (opt_Z_eqb (telegram_user_id r) user_id && (is_active r =? 1)) eqn:Hr.
  - apply andb_prop in Hr. destruct Hr as [Hr _].
    unfold opt_Z_eqb in Hr. destruct (telegram_user_id r) as [t|] eqn:Ht; [|discriminate].
    apply Z.eqb_eq in Hr. subst t.
    rewrite (Huniq r (or_introl eq_refl) Ht). reflexivity.
  - destruct Hin as [->|Hin].
    + rewrite Htg, Hact in Hr. simpl in Hr. rewrite Z.eqb_refl in Hr. discriminate.
    + apply IH; [exact Hin|]. intros e' He'. apply Huniq. right. exact He'.
Qed.

Lemma find_no_binding (user_id : Z) (rows : list employee) :
  (forall e, In e rows -> telegram_user_id e = Some user_id -> is_active e <> 1) ->
  find (fun r => opt_Z_eqb (telegram_user_id r) user_id && (is_active r =? 1)) rows = None.
Proof.
  intros Hnone. induction rows as [|r rows IH]; [reflexivity|].
  simpl. destruct (opt_Z_eqb (telegram_user_id r) user_id && (is_active r =? 1)) eqn:Hr.
  - apply andb_prop in Hr. destruct Hr as [Hr Ha].
    unfold opt_Z_eqb in Hr. destruct (telegram_user_id r) as [t|] eqn:Ht; [|discriminate].
    apply Z.eqb_eq in Hr. subst t. apply Z.eqb_eq in Ha.
    exfalso. exact (Hnone r (or_introl eq_refl) Ht Ha).
  - apply IH. intros e He. apply Hnone. right. exact He.
Qed.

Lemma existsb_Zeqb_In (x : Z) (l : list Z) : existsb (Z.eqb x) l = true <-> In x l.
Proof.
  rewrite existsb_exists. split.
  - intros [y [Hy Heq]]. apply Z.eqb_eq in Heq. subst. exact Hy.
  - intros H. exists x. split; [exact H|apply Z.eqb_refl].
Qed.

Lemma existsb_Zeqb_not_In (x : Z) (l : list Z) : ~ In x l -> existsb (Z.eqb x) l = false.
Proof.
  intros H. destruct (existsb (Z.eqb x) l) eqn:E; [|reflexivity].
  apply existsb_Zeqb_In in E. contradiction.
Qed.

Lemma get_user_role_superadmin (w : world) (user_id : Z) :
  In user_id (superadmins w) ->
  get_user_role user_id w = (Ok ROLE_SUPERADMIN, w).
Proof.
  intros H. unfold get_user_role, bind, get_world.
  rewrite (proj2 (existsb_Zeqb_In _ _) H). reflexivity.
Qed.

(** C6.  An identifier on the allow-list resolves to SuperAdmin whatever the
    directory holds or does; otherwise the active employee bound to the
    identifier decides, manager or employee by its role tag, and without such
    a binding the role is Unknown; when the directory cannot be read the role
    is Unknown, the failure is logged, and nothing is raised. *)
Theorem get_user_role_resolution (w : world) (user_id : Z) :
  (In user_id (superadmins w) -> eval (get_user_role user_id) w = Ok ROLE_SUPERADMIN)
  /\ (~ In user_id (superadmins w) -> store_ready w ->
      forall e,
        In e (employees (store w)) ->
        telegram_user_id e = Some user_id ->
        is_active e = 1 ->
        (forall e', In e' (employees (store w)) ->
                    telegram_user_id e' = Some user_id -> e' = e) ->
        (role e = RoleManager -> eval (get_user_role user_id) w = Ok ROLE_MANAGER)
        /\ (role e = RoleEmployee -> eval (get_user_role user_id) w = Ok ROLE_EMPLOYEE))
  /\ (~ In user_id (superadmins w) -> store_ready w ->
      (forall e, In e (employees (store w)) ->
                 telegram_user_id e = Some user_id -> is_active e <> 1) ->
      eval (get_user_role user_id) w = Ok ROLE_UNKNOWN)
  /\ (~ In user_id (superadmins w) -> store_failing w ->
      eval (get_user_role user_id) w = Ok ROLE_UNKNOWN
      /\ log (exec (get_user_role user_id) w)
         = (log w ++ [{| lvl := ERROR; origin := "get_user_role";
                         cause := Some OperationalError |}])%list)
  /\ (exists r, eval (get_user_role user_id) w = Ok r).
Proof.
  unfold store_ready, store_failing.
  split; [|split; [|split; [|split]]].
  - intros H. unfold eval. rewrite get_user_role_superadmin by exact H. reflexivity.
  - intros Hn Hr e Hin Htg Hact Huniq.
    unfold eval, get_user_role, bind, get_world, try_except, get_db.
    rewrite (existsb_Zeqb_not_In _ _ Hn), Hr. cbn.
    rewrite (find_unique_binding user_id _ e Hin Htg Hact Huniq).
    split; intros ->; reflexivity.
  - intros Hn Hr Hnone.
    unfold eval, get_user_role, bind, get_world, try_except, get_db.
    rewrite (existsb_Zeqb_not_In _ _ Hn), Hr. cbn.
    rewrite (find_no_binding user_id _ Hnone). reflexivity.
  - intros Hn Hf.
    unfold eval, exec, get_user_role, bind, get_world, try_except, get_db, logging.
    rewrite (existsb_Zeqb_not_In _ _ Hn), Hf. cbn. split; reflexivity.
  - unfold eval, get_user_role, bind, get_world, try_except, get_db, logging.
    destruct (existsb (Z.eqb user_id) (superadmins w)); [eexists; reflexivity|].
    destruct (hd false (faults w)); cbn; [eexists; reflexivity|].
    destruct (find _ _); eexists; reflexivity.
Qed.

(** In the sample company: user 10 put on the allow-list is a SuperAdmin
    although the directory binds it to the manager Boss; with the usual
    allow-list user 10 is a Manager, user 20 an Employee, user 77 Unknown; and
    user 10 is Unknown, with one log record, when the directory fails. *)
Lemma get_user_role_resolution_witness :
  eval (get_user_role 10) (Sample.with_admins [10] (Sample.world_at None no_data []))
    = Ok ROLE_SUPERADMIN
  /\ eval (get_user_role 10) (Sample.world_at None no_data []) = Ok ROLE_MANAGER
  /\ eval (get_user_role 20) (Sample.world_at None no_data []) = Ok ROLE_EMPLOYEE
  /\ eval (get_user_role 77) (Sample.world_at None no_data []) = Ok ROLE_UNKNOWN
  /\ (eval (get_user_role 10) (Sample.world_at None no_data [true]) = Ok ROLE_UNKNOWN
      /\ log (exec (get_user_role 10) (Sample.world_at None no_data [true]))
         = [{| lvl := ERROR; origin := "get_user_role"; cause := Some OperationalError |}]).
Proof.
  assert (Hout : forall u, u <> 1 -> ~ In u [1]) by (intros u Hu [H|[]]; congruence).
  split; [|split; [|split; [|split]]].
  - apply (proj1 (get_user_role_resolution
                    (Sample.with_admins [10] (Sample.world_at None no_data [])) 10)).
    left. reflexivity.
  - refine (proj1 (proj1 (proj2 (get_user_role_resolution
                                   (Sample.world_at None no_data []) 10))
                     (Hout 10 _) eq_refl Sample.boss _ eq_refl eq_refl _) eq_refl).
    + discriminate.
    + simpl. auto.
    + simpl. intros e' [<-|[<-|[<-|[]]]] H; try reflexivity; discriminate H.
  - refine (proj2 (proj1 (proj2 (get_user_role_resolution
                                   (Sample.world_at None no_data []) 20))
                     (Hout 20 _) eq_refl Sample.ann _ eq_refl eq_refl _) eq_refl).
    + discriminate.
    + simpl. auto.
    + simpl. intros e' [<-|[<-|[<-|[]]]] H; try reflexivity; discriminate H.
  - refine (proj1 (proj2 (proj2 (get_user_role_resolution
                                   (Sample.world_at None no_data []) 77)))
              (Hout 77 _) eq_refl _).
    + discriminate.
    + simpl. intros e [<-|[<-|[<-|[]]]] H; discriminate H.
  - refine (proj1 (proj2 (proj2 (proj2 (get_user_role_resolution
                                          (Sample.world_at None no_data [true]) 10))))
              (Hout 10 _) eq_refl).
    discriminate.
Defined.

(* ------------------------------------------------------------------ *)
(** ** Appending to the ledger *)

Lemma next_rowid_above (ids : list Z) (seq i : Z) : In i ids -> i < next_rowid ids seq.
Proof.
  unfold next_rowid. induction ids as [|x ids IH]; simpl; [contradiction|].
  intros [->|H]; [lia|]. specialize (IH H). lia.
Qed.

Lemma next_rowid_fresh (ids : list Z) (seq : Z) : ~ In (next_rowid ids seq) ids.
Proof. intros H. apply (next_rowid_above ids seq) in H. lia. Qed.

(** What a successful [add_accrual] does to the world. *)
Lemma add_accrual_ok (w : world) (emp : Z) (a : float) (kind_tag c : string) (by_ : Z) (k : kind) :
  store_ready w ->
  is_nan a = false ->
  kind_of_string kind_tag = Some k ->
  add_accrual (Some emp) (Some a) kind_tag c by_ w
  = (Ok tt,
     with_log (log w ++ [{| lvl := INFO; origin := "add_accrual"; cause := None |}])
       (with_store
          {| departments := departments (store w);
             employees := employees (store w);
             accruals := accruals (store w) ++
               [new_accrual (next_rowid (map acc_id (accruals (store w))) (seq_accruals (store w)))
                  emp a k c (now_iso w) by_];
             seq_departments := seq_departments (store w);
             seq_employees := seq_employees (store w);
             seq_accruals := next_rowid (map acc_id (accruals (store w))) (seq_accruals (store w)) |}
          (with_faults (tl (faults w)) w))).
Proof.
  unfold store_ready. intros Hr Ha Hk.
  unfold add_accrual, try_except, bind, get_db, get_world, commit, logging.
  rewrite Hr, (sql_real_number a Ha). cbn. rewrite Hk. reflexivity.
Qed.

(** A NaN is bound as NULL, which the amount column refuses. *)
Lemma add_accrual_nan (w : world) (emp : Z) (a : float) (kind_tag c : string) (by_ : Z) :
  store_ready w ->
  is_nan a = true ->
  add_accrual (Some emp) (Some a) kind_tag c by_ w
  = (Raise (IntegrityError "NOT NULL constraint failed: accruals.amount"),
     with_log (log w ++ [{| lvl := ERROR; origin := "add_accrual";
                            cause := Some (IntegrityError
                                             "NOT NULL constraint failed: accruals.amount") |}])
       (with_faults (tl (faults w)) w)).
Proof.
  unfold store_ready. intros Hr Ha.
  unfold add_accrual, try_except, bind, get_db, get_world, commit, logging, raise, sql_real.
  rewrite Hr, Ha. reflexivity.
Qed.

(** A raising [add_accrual] leaves the tables as they were. *)
Lemma add_accrual_raise (w : world) (employee_id : option Z) (amt : option float)
    (kind_tag c : string) (by_ : Z) (e : exn) :
  eval (add_accrual employee_id amt kind_tag c by_) w = Raise e ->
  store (exec (add_accrual employee_id amt kind_tag c by_) w) = store w.
Proof.
  unfold eval, exec, add_accrual, try_except, bind, get_db, get_world, commit, logging, raise.
  destruct (hd false (faults w)); cbn; [reflexivity|].
  destruct employee_id as [emp|]; cbn; [|reflexivity].
  destruct (match amt with Some a => sql_real a | None => None end); cbn; [|reflexivity].
  destruct (kind_of_string kind_tag); cbn; [discriminate|reflexivity].
Qed.

(** C5.  [add_accrual] returns normally exactly when the store is usable and
    the arguments satisfy the column constraints: an employee, an amount that
    is a number (a NaN is bound as NULL) and a kind of the table.  It then
    adds one row at the
    end of the accruals table, with a fresh identifier and the given employee,
    amount and kind, and changes no other row: the employee's records are the
    former ones followed by the new one, the records of every other employee
    and the other tables are the same.  When it raises, the tables are as
    before. *)
Theorem add_accrual_appends_one
    (w : world) (employee_id : option Z) (amt : option float) (kind_tag c : string) (by_ : Z) :
  let w' := exec (add_accrual employee_id amt kind_tag c by_) w in
  (forall emp a k,
     store_ready w -> employee_id = Some emp -> amt = Some a -> is_nan a = false ->
     kind_of_string kind_tag = Some k ->
     eval (add_accrual employee_id amt kind_tag c by_) w = Ok tt)
  /\ (eval (add_accrual employee_id amt kind_tag c by_) w = Ok tt ->
      exists r,
        accruals (store w') = (accruals (store w) ++ [r])%list
        /\ ~ In (acc_id r) (map acc_id (accruals (store w)))
        /\ store_ready w
        /\ employee_id = Some (acc_employee_id r)
        /\ amt = Some (amount r)
        /\ is_nan (amount r) = false
        /\ kind_of_string kind_tag = Some (acc_kind r)
        /\ records_of (acc_employee_id r) (accruals (store w'))
           = (records_of (acc_employee_id r) (accruals (store w)) ++ [r])%list
        /\ (forall other, other <> acc_employee_id r ->
              records_of other (accruals (store w')) = records_of other (accruals (store w)))
        /\ departments (store w') = departments (store w)
        /\ employees (store w') = employees (store w))
  /\ (forall e, eval (add_accrual employee_id amt kind_tag c by_) w = Raise e ->
        store w' = store w).
Proof.
  cbv zeta. split; [|split].
  - intros emp a k Hr -> -> Ha Hk. unfold eval.
    rewrite (add_accrual_ok _ _ _ _ _ _ k Hr Ha Hk). reflexivity.
  - unfold eval, exec, add_accrual, try_except, bind, get_db, get_world, commit, logging, raise,
      store_ready, sql_real.
    destruct (hd false (faults w)); cbn; [discriminate|].
    destruct employee_id as [emp|]; cbn; [|discriminate].
    destruct amt as [a|]; cbn; [|discriminate].
    destruct (is_nan a) eqn:Ha; cbn; [discriminate|].
    destruct (kind_of_string kind_tag) as [k|]; cbn; [|discriminate].
    intros _. eexists. split; [reflexivity|]. cbn.
    split; [apply next_rowid_fresh|].
    split; [reflexivity|]. split; [reflexivity|]. split; [reflexivity|].
    split; [exact Ha|]. split; [reflexivity|].
    split; [|split; [|split; reflexivity]].
    + unfold records_of. rewrite filter_app. cbn. rewrite Z.eqb_refl. reflexivity.
    + intros other Hother. unfold records_of. rewrite filter_app. cbn.
      destruct (emp =? other) eqn:E; [apply Z.eqb_eq in E; congruence|].
      apply app_nil_r.
  - intros e. apply add_accrual_raise.
Qed.

(** A bonus of 500 for Ann in the sample company: the call returns and the
    table is the former ledger followed by one row. *)
Lemma add_accrual_appends_one_witness :
  eval (add_accrual (Some 2) (Some 500%float) "bonus" "plan" 10)
       (Sample.world_at None no_data []) = Ok tt
  /\ exists r,
       accruals (store (exec (add_accrual (Some 2) (Some 500%float) "bonus" "plan" 10)
                             (Sample.world_at None no_data [])))
       = (Sample.ledger ++ [r])%list.
Proof.
  pose proof (add_accrual_appends_one (Sample.world_at None no_data [])
                (Some 2) (Some 500%float) "bonus" "plan" 10) as H.
  cbv zeta in H. destruct H as [H1 [H2 _]].
  assert (Hok := H1 2 500%float Bonus eq_refl eq_refl eq_refl eq_refl eq_refl).
  split; [exact Hok|].
  destruct (H2 Hok) as [r [Hr _]]. exists r. exact Hr.
Defined.

(* ------------------------------------------------------------------ *)
(** ** Computations that leave the tables and the conversation alone *)

Lemma frame_refl (w : world) : frame w w.
Proof. repeat split. Qed.

Lemma frame_trans (w1 w2 w3 : world) : frame w1 w2 -> frame w2 w3 -> frame w1 w3.
Proof.
  unfold frame. intros (a1 & a2 & a3 & a4 & a5 & a6) (b1 & b2 & b3 & b4 & b5 & b6).
  repeat split; congruence.
Qed.

Lemma quiet_ret {A} (a : A) : quiet (ret a).
Proof. intros w. apply frame_refl. Qed.

Lemma quiet_raise {A} (e : exn) : quiet (@raise A e).
Proof. intros w. apply frame_refl. Qed.

Lemma quiet_get_db : quiet get_db.
Proof. intros w. repeat split. Qed.

Lemma quiet_get_world : quiet get_world.
Proof. intros w. apply frame_refl. Qed.

Lemma quiet_get_data : quiet get_data.
Proof. intros w. apply frame_refl. Qed.

Lemma quiet_logging (l : level) (who : string) (e : option exn) : quiet (logging l who e).
Proof. intros w. repeat split. Qed.

Lemma quiet_answer (m : message) (k : keyboard) : quiet (answer m k).
Proof. intros w. repeat split. Qed.

Lemma quiet_bind {A B} (m : M A) (k : A -> M B) :
  quiet m -> (forall a, quiet (k a)) -> quiet (bind m k).
Proof.
  intros Hm Hk w. unfold bind. specialize (Hm w).
  destruct (m w) as [[a|e] w1]; simpl in *.
  - eapply frame_trans; [exact Hm|apply Hk].
  - exact Hm.
Qed.

Lemma quiet_try {A} (m : M A) (h : exn -> M A) :
  quiet m -> (forall e, quiet (h e)) -> quiet (try_except m h).
Proof.
  intros Hm Hh w. unfold try_except. specialize (Hm w).
  destruct (m w) as [[a|e] w1]; simpl in *.
  - exact Hm.
  - eapply frame_trans; [exact Hm|apply Hh].
Qed.

Lemma total_ret {A} (a : A) : total (ret a).
Proof. intros w. exists a. reflexivity. Qed.

Lemma total_bind {A B} (m : M A) (k : A -> M B) :
  total m -> (forall a, total (k a)) -> total (bind m k).
Proof.
  intros Hm Hk w. unfold bind. destruct (Hm w) as [a Ha].
  destruct (m w) as [[a'|e] w1]; simpl in Ha; [|discriminate].
  apply Hk.
Qed.

Lemma total_try {A} (m : M A) (h : exn -> M A) :
  (forall e, total (h e)) -> total (try_except m h).
Proof.
  intros Hh w. unfold try_except.
  destruct (m w) as [[a|e] w1]; [exists a; reflexivity|apply Hh].
Qed.

Lemma total_logging (l : level) (who : string) (e : option exn) : total (logging l who e).
Proof. intros w. exists tt. reflexivity. Qed.

Lemma total_answer (m : message) (k : keyboard) : total (answer m k).
Proof. intros w. exists tt. reflexivity. Qed.

(** Steps of a proof that a computation is quiet: split binds and handlers,
    and look through the case analyses of the code. *)
Ltac quiet_step :=
  match goal with
  | |- quiet (bind _ _) => apply quiet_bind; [|intros ?]
  | |- quiet (try_except _ _) => apply quiet_try; [|intros ?]
  | |- quiet (ret _) => apply quiet_ret
  | |- quiet (raise _) => apply quiet_raise
  | |- quiet get_db => apply quiet_get_db
  | |- quiet get_world => apply quiet_get_world
  | |- quiet get_data => apply quiet_get_data
  | |- quiet (logging _ _ _) => apply quiet_logging
  | |- quiet (answer _ _) => apply quiet_answer
  | |- quiet (match ?x with _ => _ end) => destruct x
  end.

Ltac total_step :=
  match goal with
  | |- total (bind _ _) => apply total_bind; [|intros ?]
  | |- total (try_except _ _) => apply total_try; intros ?
  | |- total (ret _) => apply total_ret
  | |- total (logging _ _ _) => apply total_logging
  | |- total (answer _ _) => apply total_answer
  | |- total (match ?x with _ => _ end) => destruct x
  end.

Lemma quiet_get_user_role (user_id : Z) : quiet (get_user_role user_id).
Proof. unfold get_user_role. repeat quiet_step. Qed.

Lemma quiet_get_employee_balance (employee_id : Z) : quiet (get_employee_balance employee_id).
Proof. unfold get_employee_balance. repeat quiet_step. Qed.

Lemma quiet_get_employee_salary (employee_id : Z) : quiet (get_employee_salary employee_id).
Proof. unfold get_employee_salary. repeat quiet_step. Qed.

Lemma quiet_get_employee_accruals (employee_id : Z) (per : option string) :
  quiet (get_employee_accruals employee_id per).
Proof. unfold get_employee_accruals. repeat quiet_step. Qed.

Lemma quiet_show_updated_card (user_id emp : Z) : quiet (show_updated_card user_id emp).
Proof.
  unfold show_updated_card.
  repeat first
    [ apply quiet_get_employee_salary | apply quiet_get_employee_balance
    | apply quiet_get_employee_accruals | apply quiet_get_user_role
    | quiet_step ].
Qed.

Lemma total_show_updated_card (user_id emp : Z) : total (show_updated_card user_id emp).
Proof. unfold show_updated_card. repeat total_step. Qed.

(** The card only reads: it returns, and the tables and the conversation are
    as before. *)
Lemma show_updated_card_run (user_id emp : Z) (w : world) :
  exists w', show_updated_card user_id emp w = (Ok tt, w') /\ frame w w'.
Proof.
  pose proof (quiet_show_updated_card user_id emp w) as Hq.
  destruct (total_show_updated_card user_id emp w) as [[] Ht].
  destruct (show_updated_card user_id emp w) as [r w'] eqn:E. simpl in *.
  subst r. exists w'. split; [reflexivity|exact Hq].
Qed.

(* ------------------------------------------------------------------ *)
(** ** Adding a department *)

Lemma is_empty_false (s : string) : s <> EmptyString -> is_empty s = false.
Proof. destruct s; [congruence|reflexivity]. Qed.

Lemma add_department_duplicate (w : world) (name emoji : string) :
  existsb (fun x => String.eqb (dept_name x) name) (departments (store w)) = true ->
  exists e,
    add_department name emoji w
    = (Raise e,
       with_log (log w ++ [{| lvl := ERROR; origin := "add_department"; cause := Some e |}])
         (with_faults (tl (faults w)) w))
    /\ (store_ready w -> e = IntegrityError "UNIQUE constraint failed: departments.name").
Proof.
  intros Hdup. unfold store_ready.
  unfold add_department, try_except, bind, get_db, logging, raise.
  destruct (hd false (faults w)); cbn.
  - eexists. split; [reflexivity|discriminate].
  - rewrite Hdup. eexists. split; [reflexivity|reflexivity].
Qed.

Lemma superadmin_main_kb_run (w : world) :
  exists kb w', superadmin_main_kb w = (Ok kb, w') /\ frame w w' /\ outbox w' = outbox w.
Proof.
  unfold superadmin_main_kb, get_departments, try_except, bind, get_db, logging, ret.
  destruct (hd false (faults w)); cbn; do 2 eexists; (split; [reflexivity|]); split;
    try reflexivity; repeat split.
Qed.

(** C7.  When a super-administrator commits the AddDepartment flow with a
    non-empty name that a department already has, the tables are unchanged (no
    second row, the same number of departments), one message reporting the
    error is sent, and the state and the data of the conversation are cleared;
    the name is not asked again. *)
Theorem duplicate_department_aborts (w : world) (user_id : Z) (txt : string) (d : department) :
  In user_id (superadmins w) ->
  In d (departments (store w)) ->
  dept_name d = PyStr.strip txt ->
  PyStr.strip txt <> EmptyString ->
  store (exec (superadmin_add_department_finish user_id txt) w) = store w
  /\ List.length (departments (store (exec (superadmin_add_department_finish user_id txt) w)))
     = List.length (departments (store w))
  /\ (exists e kb,
        outbox (exec (superadmin_add_department_finish user_id txt) w)
        = (outbox w ++ [{| text := MsgDepartmentError e; markup := kb |}])%list
        /\ (store_ready w -> e = IntegrityError "UNIQUE constraint failed: departments.name"))
  /\ state (exec (superadmin_add_department_finish user_id txt) w) = None
  /\ data (exec (superadmin_add_department_finish user_id txt) w) = no_data.
Proof.
  intros Hadmin Hin Hname Hne.
  assert (Hdup : existsb (fun x => String.eqb (dept_name x) (PyStr.strip txt))
                   (departments (store w)) = true).
  { apply existsb_exists. exists d. split; [exact Hin|]. apply String.eqb_eq. exact Hname. }
  destruct (add_department_duplicate w (PyStr.strip txt) EmptyString Hdup) as [e [Hadd He]].
  unfold exec, superadmin_add_department_finish, require_role, bind.
  rewrite (get_user_role_superadmin w user_id Hadmin). cbn.
  rewrite (is_empty_false _ Hne).
  unfold try_except, bind. rewrite Hadd.
  match goal with |- context [superadmin_main_kb ?x] =>
    destruct (superadmin_main_kb_run x) as (kb & w1 & Hkb & Hfr & Hout) end.
  rewrite Hkb. cbn.
  destruct Hfr as (F1 & F2 & F3 & _).
  repeat split.
  - exact F1.
  - rewrite F1. reflexivity.
  - exists e, kb. rewrite Hout. split; [reflexivity|exact He].
Qed.

(** The name [" Ops "] typed by user 1 while the sample company has the
    department Ops. *)
Lemma duplicate_department_aborts_witness :
  store (exec (superadmin_add_department_finish 1 " Ops ")
              (Sample.world_at (Some AddDepartment_waiting_for_name) no_data []))
  = Sample.company
  /\ state (exec (superadmin_add_department_finish 1 " Ops ")
                 (Sample.world_at (Some AddDepartment_waiting_for_name) no_data []))
     = None.
Proof.
  assert (Hne : PyStr.strip " Ops " <> EmptyString) by (vm_compute; discriminate).
  destruct (duplicate_department_aborts
              (Sample.world_at (Some AddDepartment_waiting_for_name) no_data [])
              1 " Ops " Sample.ops
              (or_introl eq_refl) (or_intror (or_introl eq_refl)) eq_refl Hne)
    as (Hstore & _ & _ & Hstate & _).
  split; [exact Hstore|exact Hstate].
Defined.

(* ------------------------------------------------------------------ *)
(** ** The manager's accrual flow: the commit step *)

(** A kind outside the closed set makes [add_accrual] raise. *)
Lemma add_accrual_unknown_kind (w : world) (employee_id : option Z) (amt : option float)
    (kind_tag c : string) (by_ : Z) :
  kind_of_string kind_tag = None ->
  exists e,
    add_accrual employee_id amt kind_tag c by_ w
    = (Raise e,
       with_log (log w ++ [{| lvl := ERROR; origin := "add_accrual"; cause := Some e |}])
         (with_faults (tl (faults w)) w)).
Proof.
  intros Hk. unfold add_accrual, try_except, bind, get_db, get_world, logging, raise.
  destruct (hd false (faults w)); cbn; [eexists; reflexivity|].
  destruct employee_id; cbn; [|eexists; reflexivity].
  destruct (match amt with Some a => sql_real a | None => None end); cbn;
    [|eexists; reflexivity].
  rewrite Hk. eexists. reflexivity.
Qed.

(** Whoever sends whatever text, the commit step of the accrual flow leaves
    the tables as they were. *)
Lemma accrual_finish_store (w : world) (user_id : Z) (txt : string) :
  store (exec (accrual_finish user_id txt) w) = store w.
Proof.
  unfold exec, accrual_finish, require_role, bind.
  pose proof (quiet_get_user_role user_id w) as Hq.
  destruct (get_user_role user_id w) as [[r|e] w1]; simpl in Hq; [|apply Hq].
  destruct Hq as (Hs & _).
  destruct (negb (existsb (user_role_eqb r) [ROLE_MANAGER])); [exact Hs|].
  cbn. unfold try_except, bind.
  destruct (add_accrual_unknown_kind w1 (d_employee_id (data w1)) (d_amount (data w1))
              "accrual" (or_default (PyStr.strip txt) "Начисление") user_id eq_refl)
    as [e He].
  rewrite He. cbn. exact Hs.
Qed.

(** C3.  A manager sends the comment that ends the accrual flow for Ann with
    the amount 50000: the handler passes the kind ["accrual"], which is not one
    of the five kinds of the table; nothing is appended, no period is assigned,
    the manager gets the error message and the conversation is cleared. *)
Example accrual_finish_appends_nothing :
  kind_of_string "accrual" = None
  /\ accruals (store (exec (accrual_finish 10 "salary for November")
                          (Sample.world_at (Some Accrual_waiting_for_comment)
                             (put_amount 50000 (put_employee_id 2 no_data)) [])))
     = Sample.ledger
  /\ outbox (exec (accrual_finish 10 "salary for November")
                  (Sample.world_at (Some Accrual_waiting_for_comment)
                     (put_amount 50000 (put_employee_id 2 no_data)) []))
     = [{| text := MsgAccrualError (IntegrityError "CHECK constraint failed: kind");
           markup := KbManagerMain |}]
  /\ state (exec (accrual_finish 10 "salary for November")
                 (Sample.world_at (Some Accrual_waiting_for_comment)
                    (put_amount 50000 (put_employee_id 2 no_data)) []))
     = None.
Proof. vm_compute. repeat split. Qed.

(* ------------------------------------------------------------------ *)
(** ** Paying the salary out *)

Lemma get_employee_balance_run (w : world) (employee_id : Z) :
  exists b w1,
    get_employee_balance employee_id w = (Ok b, w1)
    /\ frame w w1 /\ outbox w1 = outbox w
    /\ faults w1 = tl (faults w)
    /\ (store_ready w -> b = balance_query employee_id (store w) /\ log w1 = log w)
    /\ (store_failing w -> b = 0%float).
Proof.
  unfold store_ready, store_failing, get_employee_balance, try_except, bind, get_db, logging, ret.
  destruct (hd false (faults w)); cbn; do 2 eexists;
    (split; [reflexivity|]); repeat split; try reflexivity; try discriminate.
Qed.

Lemma no_faults_ready (w : world) : no_faults w -> store_ready w.
Proof.
  unfold no_faults, store_ready. destruct (faults w) as [|[] f]; simpl; congruence.
Qed.

Lemma no_faults_tl (w w1 : world) : no_faults w -> faults w1 = tl (faults w) -> no_faults w1.
Proof.
  unfold no_faults. intros H ->. destruct (faults w) as [|[] f]; simpl in *; congruence.
Qed.

Lemma fold_left_max_below (l : list Z) (a bound : Z) :
  a < bound -> (forall x, In x l -> x < bound) -> fold_left Z.max l a < bound.
Proof.
  revert a. induction l as [|x l IH]; intros a Ha Hl; simpl; [exact Ha|].
  apply IH.
  - specialize (Hl x (or_introl eq_refl)). lia.
  - intros y Hy. apply Hl. right. exact Hy.
Qed.

(** The newest row of an employee is the one just inserted. *)
Lemma max_id_after_insert (emp : Z) (rows : list accrual) (r : accrual) :
  acc_employee_id r = emp ->
  (forall x, In x (map acc_id rows) -> x < acc_id r) ->
  max_id emp (rows ++ [r]) = Some (acc_id r).
Proof.
  intros Hemp Hbelow. unfold max_id, records_of.
  rewrite filter_app. simpl. rewrite Hemp, Z.eqb_refl. rewrite map_app. simpl.
  assert (Hsub : forall x, In x (map acc_id (filter (fun r0 => acc_employee_id r0 =? emp) rows))
                           -> x < acc_id r).
  { intros x Hx. apply Hbelow. apply in_map_iff in Hx. destruct Hx as [y [<- Hy]].
    apply in_map. apply filter_In in Hy. apply Hy. }
  destruct (map acc_id (filter (fun r0 => acc_employee_id r0 =? emp) rows)) as [|i t]; simpl.
  - reflexivity.
  - rewrite fold_left_app. simpl. f_equal.
    assert (fold_left Z.max t i < acc_id r).
    { apply fold_left_max_below; [apply Hsub; left; reflexivity|].
      intros x Hx. apply Hsub. right. exact Hx. }
    lia.
Qed.

Lemma update_only_last (p : string) (emp : Z) (rows : list accrual) (r : accrual) :
  acc_employee_id r = emp ->
  (forall x, In x (map acc_id rows) -> x < acc_id r) ->
  map (fun x => if opt_Z_eqb (max_id emp (rows ++ [r])) (acc_id x) then set_period p x else x)
      (rows ++ [r])
  = (rows ++ [set_period p r])%list.
Proof.
  intros Hemp Hbelow. rewrite (max_id_after_insert emp rows r Hemp Hbelow).
  rewrite map_app. simpl. rewrite Z.eqb_refl. f_equal.
  rewrite <- (map_id rows) at 2. apply map_ext_in.
  intros a Ha. assert (acc_id a < acc_id r) by (apply Hbelow; apply in_map; exact Ha).
  destruct (acc_id r =? acc_id a) eqn:E; [apply Z.eqb_eq in E; lia|reflexivity].
Qed.

Lemma credit_total_app (employee_id : Z) (d d' : db) (r : accrual) :
  accruals d' = (accruals d ++ [r])%list ->
  credit_total employee_id d'
  = if acc_employee_id r =? employee_id
    then (credit_total employee_id d
          + (if is_credit (acc_kind r) then amount r else 0))%float
    else credit_total employee_id d.
Proof.
  intros H. unfold credit_total, credit_values. rewrite H, records_of_app.
  destruct (acc_employee_id r =? employee_id); [|reflexivity].
  rewrite map_app, fold_left_app. reflexivity.
Qed.

Lemma debit_total_app (employee_id : Z) (d d' : db) (r : accrual) :
  accruals d' = (accruals d ++ [r])%list ->
  debit_total employee_id d'
  = if acc_employee_id r =? employee_id
    then (debit_total employee_id d
          + (if is_debit (acc_kind r) then amount r else 0))%float
    else debit_total employee_id d.
Proof.
  intros H. unfold debit_total, debit_values. rewrite H, records_of_app.
  destruct (acc_employee_id r =? employee_id); [|reflexivity].
  rewrite map_app, fold_left_app. reflexivity.
Qed.

(** The totals of an employee after one more debit: the row adds its amount
    to the debits and 0.0 to the credits. *)
Lemma totals_after_debit (d d' : db) (r : accrual) :
  accruals d' = (accruals d ++ [r])%list ->
  is_debit (acc_kind r) = true ->
  debit_total (acc_employee_id r) d'
  = (debit_total (acc_employee_id r) d + amount r)%float
  /\ same_number (credit_total (acc_employee_id r) d') (credit_total (acc_employee_id r) d).
Proof.
  intros H Hk.
  rewrite (credit_total_app _ d d' r H), (debit_total_app _ d d' r H), Z.eqb_refl, Hk.
  replace (is_credit (acc_kind r)) with false
    by (destruct (acc_kind r); try reflexivity; discriminate).
  split; [reflexivity|apply add_zero_r].
Qed.

(** The same after one more credit. *)
Lemma totals_after_credit (d d' : db) (r : accrual) :
  accruals d' = (accruals d ++ [r])%list ->
  is_credit (acc_kind r) = true ->
  credit_total (acc_employee_id r) d'
  = (credit_total (acc_employee_id r) d + amount r)%float
  /\ same_number (debit_total (acc_employee_id r) d') (debit_total (acc_employee_id r) d).
Proof.
  intros H Hk.
  rewrite (credit_total_app _ d d' r H), (debit_total_app _ d d' r H), Z.eqb_refl, Hk.
  replace (is_debit (acc_kind r)) with false
    by (destruct (acc_kind r); try reflexivity; discriminate).
  split; [reflexivity|apply add_zero_r].
Qed.

(** A new row of one employee leaves the balance of any other as it was. *)
Lemma balance_of_other (d d' : db) (r : accrual) (other : Z) :
  accruals d' = (accruals d ++ [r])%list ->
  acc_employee_id r <> other ->
  balance_query other d' = balance_query other d.
Proof.
  intros H Hother. apply balance_query_rows. rewrite H.
  change (records_of other (accruals d ++ [r]) = records_of other (accruals d)).
  rewrite records_of_app.
  destruct (acc_employee_id r =? other) eqn:E; [apply Z.eqb_eq in E; contradiction|].
  reflexivity.
Qed.

(** The balance is the difference of the two totals, a total or a
    difference that is not a number counting as zero; it is a number. *)
Lemma balance_query_totals (employee_id : Z) (d : db) :
  balance_query employee_id d
  = coalesce
      (sql_real (coalesce (sql_real (credit_total employee_id d)) 0
                 - coalesce (sql_real (debit_total employee_id d)) 0))
      0.
Proof.
  unfold balance_query, balance_row. rewrite credit_sum_total, debit_sum_total. reflexivity.
Qed.

Lemma balance_query_number (employee_id : Z) (d : db) :
  is_nan (balance_query employee_id d) = false.
Proof.
  unfold balance_query, balance_row, sql_real.
  destruct (is_nan (credit_sum employee_id d - debit_sum employee_id d)) eqn:E;
    [reflexivity|exact E].
Qed.

(** C4, amended.  For a super-administrator with a pinned employee: when no
    store failure is scheduled and the balance is above zero, [give_salary]
    adds one row to the accruals table, a payout of the employee for the whole
    balance carrying the current period, and changes nothing else in the
    tables; the payout is added, in binary64 arithmetic, to the debit total of
    the employee, the credit total is the same number, and the balance of
    every other employee is as before.  When the balance is zero or below, the
    tables and the conversation are unchanged and the only reply is the
    message that there is nothing to pay.  The balance is never NaN, so one of
    the two cases holds. *)
Theorem give_salary_pays_full_balance (w : world) (user_id : Z) (txt : string) (emp : Z) :
  In user_id (superadmins w) ->
  truthy_id (d_current_employee_id (data w)) = Some emp ->
  (no_faults w -> (0 <? balance_query emp (store w))%float = true ->
   exists r,
     accruals (store (exec (give_salary user_id txt) w)) = (accruals (store w) ++ [r])%list
     /\ acc_employee_id r = emp
     /\ acc_kind r = Payout
     /\ amount r = balance_query emp (store w)
     /\ period r = Some (now_period w)
     /\ ~ In (acc_id r) (map acc_id (accruals (store w)))
     /\ departments (store (exec (give_salary user_id txt) w)) = departments (store w)
     /\ employees (store (exec (give_salary user_id txt) w)) = employees (store w)
     /\ debit_total emp (store (exec (give_salary user_id txt) w))
        = (debit_total emp (store w) + balance_query emp (store w))%float
     /\ same_number (credit_total emp (store (exec (give_salary user_id txt) w)))
                     (credit_total emp (store w))
     /\ (forall other, other <> emp ->
           balance_query other (store (exec (give_salary user_id txt) w))
           = balance_query other (store w)))
  /\ ((balance_query emp (store w) <=? 0)%float = true ->
      store (exec (give_salary user_id txt) w) = store w
      /\ outbox (exec (give_salary user_id txt) w)
         = (outbox w ++ [{| text := MsgNothingToPay; markup := KbUnchanged |}])%list
      /\ state (exec (give_salary user_id txt) w) = state w
      /\ data (exec (give_salary user_id txt) w) = data w)
  /\ ((0 <? balance_query emp (store w))%float = true
      \/ (balance_query emp (store w) <=? 0)%float = true).
Proof.
  intros Hadmin Hpin.
  unfold exec, give_salary, require_role, bind.
  rewrite (get_user_role_superadmin w user_id Hadmin). cbn.
  rewrite Hpin. unfold try_except, bind.
  destruct (get_employee_balance_run w emp)
    as (b & w1 & Hbal & Hfr1 & Hout1 & Hf1 & Hready & Hfailing).
  rewrite Hbal.
  destruct Hfr1 as (S1 & T1 & D1 & A1 & I1 & P1).
  split; [|split].
  - intros Hnf Hpos.
    destruct (Hready (no_faults_ready w Hnf)) as [-> _].
    rewrite (ltb_not_leb _ Hpos). unfold get_world.
    assert (Hnf1 : no_faults w1) by exact (no_faults_tl w w1 Hnf Hf1).
    rewrite (add_accrual_ok w1 emp (balance_query emp (store w)) "payout" _ user_id Payout
               (no_faults_ready w1 Hnf1) (ltb_not_nan _ Hpos) eq_refl).
    unfold update_last_period, bind, get_db, commit. cbn.
    assert (Hr2 : hd false (tl (faults w1)) = false).
    { apply (no_faults_ready (with_faults (tl (faults w1)) w1)).
      exact (no_faults_tl w1 (with_faults (tl (faults w1)) w1) Hnf1 eq_refl). }
    rewrite Hr2. cbn.
    match goal with |- context [show_updated_card user_id emp ?x] =>
      destruct (show_updated_card_run user_id emp x) as (w4 & Hcard & Hfr4) end.
    unfold answer. rewrite Hcard. cbn.
    destruct Hfr4 as (S4 & _). cbn in S4. rewrite S4. cbn.
    rewrite S1, P1.
    match goal with
    | |- context [new_accrual ?i emp ?a Payout ?c ?t user_id] =>
        set (r0 := new_accrual i emp a Payout c t user_id)
    end.
    assert (Hbelow : forall x, In x (map acc_id (accruals (store w))) -> x < acc_id r0).
    { intros x Hx. apply next_rowid_above. exact Hx. }
    rewrite (update_only_last (now_period w) emp (accruals (store w)) r0 eq_refl Hbelow).
    exists (set_period (now_period w) r0).
    repeat (split; [reflexivity|]).
    split; [apply next_rowid_fresh|].
    repeat (split; [reflexivity|]).
    match goal with |- debit_total emp ?d' = _ /\ _ =>
      destruct (totals_after_debit (store w) d' (set_period (now_period w) r0)
                  eq_refl eq_refl) as [Hdebit Hcredit];
      split; [exact Hdebit|]; split; [exact Hcredit|];
      intros other Hother;
      apply (balance_of_other (store w) d' (set_period (now_period w) r0) other eq_refl);
      cbn; congruence
    end.
  - intros Hnonpos.
    assert (Hle : (b <=? 0)%float = true).
    { destruct (hd false (faults w)) eqn:Hf.
      - rewrite (Hfailing Hf). reflexivity.
      - destruct (Hready Hf) as [-> _]. exact Hnonpos. }
    rewrite Hle. cbn. rewrite S1, T1, D1, Hout1. repeat split.
  - destruct (balance_query emp (store w) <=? 0)%float eqn:E; [right; reflexivity|].
    left. destruct (not_leb_zero _ E) as [H|H]; [exact H|].
    rewrite balance_query_number in H. discriminate H.
Qed.

(** In the sample company user 1 pays Ann, whose balance is 8000, and then
    Petrov, whose balance is zero. *)
Lemma give_salary_pays_full_balance_witness :
  (exists r,
     accruals (store (exec (give_salary 1 "pay") (Sample.world_at None (Sample.pinned 2) [])))
     = (Sample.ledger ++ [r])%list
     /\ acc_kind r = Payout
     /\ amount r = 8000%float)
  /\ store (exec (give_salary 1 "pay") (Sample.world_at None (Sample.pinned 3) []))
     = Sample.company.
Proof.
  split.
  - destruct (proj1 (give_salary_pays_full_balance
                       (Sample.world_at None (Sample.pinned 2) []) 1 "pay" 2
                       (or_introl eq_refl) eq_refl) eq_refl eq_refl)
      as (r & Hacc & _ & Hkind & Hamt & _).
    exists r. split; [exact Hacc|]. split; [exact Hkind|]. rewrite Hamt. reflexivity.
  - exact (proj1 (proj1 (proj2 (give_salary_pays_full_balance
                                  (Sample.world_at None (Sample.pinned 3) []) 1 "pay" 3
                                  (or_introl eq_refl) eq_refl)) eq_refl)).
Defined.

(** C4 as stated fails: the balance computed after the payout need not be
    zero.  Petrov has a bonus of 9007199254740994 and a deduction of 1; the
    balance, rounded to binary64, is 9007199254740992, which is above zero;
    [give_salary] appends a payout of that amount, and the balance computed
    afterwards is 2. *)
Lemma payout_leaves_a_remainder :
  eval (get_employee_balance 3) Sample.rounding_world = Ok 9007199254740992%float
  /\ (0 <? 9007199254740992)%float = true
  /\ map (fun r => (acc_employee_id r, amount r, acc_kind r))
       (accruals (store (exec (give_salary 1 "pay") Sample.rounding_world)))
     = (map (fun r => (acc_employee_id r, amount r, acc_kind r))
          (accruals (store Sample.rounding_world))
        ++ [(3, 9007199254740992%float, Payout)])%list
  /\ eval (get_employee_balance 3) (exec (give_salary 1 "pay") Sample.rounding_world)
     = Ok 2%float.
Proof. vm_compute. repeat split. Qed.

(* ------------------------------------------------------------------ *)
(** ** Changing the salary *)

(** [validate_amount] in terms of the number that the text denotes. *)
Lemma validate_amount_text (txt : string) :
  validate_amount txt
  = match amount_of_text txt with
    | Some a => if (0 <? a)%float then Some a else None
    | None => None
    end.
Proof. reflexivity. Qed.

Lemma validate_amount_positive (txt : string) (a : float) :
  amount_of_text txt = Some a -> (0 <? a)%float = true -> validate_amount txt = Some a.
Proof. intros H Hpos. rewrite validate_amount_text, H, Hpos. reflexivity. Qed.

(** What [validate_amount] returns is above zero. *)
Lemma validate_amount_above (txt : string) (a : float) :
  validate_amount txt = Some a -> (0 <? a)%float = true.
Proof.
  rewrite validate_amount_text. destruct (amount_of_text txt) as [x|]; [|discriminate].
  destruct (0 <? x)%float eqn:E; [|discriminate]. intros [= <-]. exact E.
Qed.

Lemma set_employee_salary_ok (w : world) (emp : Z) (a : float) :
  store_ready w ->
  set_employee_salary emp a w
  = (Ok tt,
     with_log (log w ++ [{| lvl := INFO; origin := "set_employee_salary"; cause := None |}])
       (with_store
          {| departments := departments (store w);
             employees := map (set_salary_row emp a) (employees (store w));
             accruals := accruals (store w);
             seq_departments := seq_departments (store w);
             seq_employees := seq_employees (store w);
             seq_accruals := seq_accruals (store w) |}
          (with_faults (tl (faults w)) w))).
Proof.
  unfold store_ready. intros Hr.
  unfold set_employee_salary, try_except, bind, get_db, commit, logging.
  rewrite Hr. reflexivity.
Qed.

(** C8.  At the awaiting-amount step of the SetSalary flow a text that
    denotes zero is refused: the handler answers with the request for a
    positive number, writes no salary and keeps the state and the data of the
    conversation, whether an employee is pinned or not.  A text that denotes a
    number above zero is accepted: the number is written as the salary of the
    pinned employee when the store is usable, the flow ends and the data are
    kept; without a pinned employee the handler reports it, changes no table
    and clears the conversation. *)
Theorem change_salary_finish_refuses_zero (w : world) (user_id : Z) (txt : string) :
  (forall z, amount_of_text txt = Some z -> is_zero z = true ->
     store (exec (change_salary_finish user_id txt) w) = store w
     /\ state (exec (change_salary_finish user_id txt) w) = state w
     /\ data (exec (change_salary_finish user_id txt) w) = data w
     /\ outbox (exec (change_salary_finish user_id txt) w)
        = (outbox w ++ [{| text := MsgBadAmount; markup := KbUnchanged |}])%list)
  /\ (forall a, amount_of_text txt = Some a -> (0 <? a)%float = true ->
      (forall emp,
         truthy_id (d_current_employee_id (data w)) = Some emp -> store_ready w ->
         employees (store (exec (change_salary_finish user_id txt) w))
         = map (set_salary_row emp a) (employees (store w))
         /\ departments (store (exec (change_salary_finish user_id txt) w))
            = departments (store w)
         /\ accruals (store (exec (change_salary_finish user_id txt) w))
            = accruals (store w)
         /\ state (exec (change_salary_finish user_id txt) w) = None
         /\ data (exec (change_salary_finish user_id txt) w) = data w)
      /\ (truthy_id (d_current_employee_id (data w)) = None ->
          store (exec (change_salary_finish user_id txt) w) = store w
          /\ state (exec (change_salary_finish user_id txt) w) = None
          /\ data (exec (change_salary_finish user_id txt) w) = no_data
          /\ outbox (exec (change_salary_finish user_id txt) w)
             = (outbox w
                ++ [{| text := MsgEmployeeNotSelected; markup := KbUnchanged |}])%list)).
Proof.
  split.
  - intros z Hz Hzero.
    unfold exec, change_salary_finish.
    rewrite validate_amount_text, Hz, (zero_not_above z Hzero). cbn. repeat split.
  - intros a Htxt Hpos.
    unfold exec, change_salary_finish.
    rewrite (validate_amount_positive txt a Htxt Hpos), (ltb_not_below a Hpos).
    unfold bind, get_data. cbn.
    split.
    + intros emp Hpin Hready. rewrite Hpin.
      unfold try_except, bind. rewrite (set_employee_salary_ok w emp a Hready).
      unfold answer, set_state.
      match goal with |- context [show_updated_card user_id emp ?x] =>
        destruct (show_updated_card_run user_id emp x) as (w4 & Hcard & Hfr4) end.
      rewrite Hcard. cbn.
      destruct Hfr4 as (S4 & T4 & D4 & _). cbn in S4, T4, D4.
      rewrite S4, T4, D4. repeat split.
    + intros Hpin. rewrite Hpin. cbn. repeat split.
Qed.

(** User 1, with Petrov pinned, sends ["0"]: the salary is not written and
    the step is kept.  The same user sets Petrov's salary to 100.5, typed
    with a comma. *)
Lemma change_salary_finish_refuses_zero_witness :
  (store (exec (change_salary_finish 1 "0")
            (Sample.world_at (Some SetSalary_waiting_for_amount) (Sample.pinned 3) []))
   = Sample.company
   /\ state (exec (change_salary_finish 1 "0")
               (Sample.world_at (Some SetSalary_waiting_for_amount) (Sample.pinned 3) []))
      = Some SetSalary_waiting_for_amount
   /\ outbox (exec (change_salary_finish 1 "0")
                (Sample.world_at (Some SetSalary_waiting_for_amount) (Sample.pinned 3) []))
      = [{| text := MsgBadAmount; markup := KbUnchanged |}])
  /\ (employees (store (exec (change_salary_finish 1 "100,5")
                          (Sample.world_at (Some SetSalary_waiting_for_amount)
                             (Sample.pinned 3) [])))
      = map (set_salary_row 3 100.5%float) (employees Sample.company)
      /\ state (exec (change_salary_finish 1 "100,5")
                  (Sample.world_at (Some SetSalary_waiting_for_amount) (Sample.pinned 3) []))
         = None).
Proof.
  split.
  - destruct (proj1 (change_salary_finish_refuses_zero
                       (Sample.world_at (Some SetSalary_waiting_for_amount)
                          (Sample.pinned 3) []) 1 "0")
                0%float eq_refl eq_refl)
      as (Hs & Ht & _ & Ho).
    split; [exact Hs|]. split; [exact Ht|exact Ho].
  - destruct (proj1 (proj2 (change_salary_finish_refuses_zero
                              (Sample.world_at (Some SetSalary_waiting_for_amount)
                                 (Sample.pinned 3) []) 1 "100,5")
                       100.5%float eq_refl eq_refl) 3 eq_refl eq_refl)
      as (He & _ & _ & Hs & _).
    split; [exact He|exact Hs].
Defined.

(* ------------------------------------------------------------------ *)
(** ** A rejected input leaves the step where it is *)

Lemma get_user_role_run (w : world) (user_id : Z) :
  exists r w1,
    get_user_role user_id w = (Ok r, w1)
    /\ frame w w1 /\ outbox w1 = outbox w.
Proof.
  unfold get_user_role, bind, get_world, try_except, get_db, logging, ret.
  destruct (existsb (Z.eqb user_id) (superadmins w)).
  - do 2 eexists. split; [reflexivity|]. split; [apply frame_refl|reflexivity].
  - destruct (hd false (faults w)); cbn.
    + do 2 eexists. split; [reflexivity|]. repeat split.
    + destruct (find _ _); do 2 eexists; (split; [reflexivity|]); repeat split.
Qed.


Lemma In_insert_by {A} (le : A -> A -> bool) (x a : A) (l : list A) :
  In x (insert_by le a l) <-> x = a \/ In x l.
Proof.
  induction l as [|y l IH]; simpl.
  - intuition congruence.
  - destruct (le a y); simpl; [intuition congruence|].
    rewrite IH. intuition congruence.
Qed.

Lemma In_order_by {A} (le : A -> A -> bool) (x : A) (l : list A) :
  In x (order_by le l) <-> In x l.
Proof.
  unfold order_by. induction l as [|y l IH]; simpl; [reflexivity|].
  rewrite In_insert_by, IH. intuition congruence.
Qed.


(** The role gate of a step: the world after the gate, when it lets the
    sender through, and the refusal otherwise. *)
Lemma require_role_run (allowed : list user_role) (h : handler) (user_id : Z) (txt : string)
    (w : world) :
  exists r w1,
    get_user_role user_id w = (Ok r, w1) /\ frame w w1 /\ outbox w1 = outbox w
    /\ require_role allowed h user_id txt w
       = if existsb (user_role_eqb r) allowed then h user_id txt w1
         else answer MsgNoAccess KbUnchanged w1.
Proof.
  destruct (get_user_role_run w user_id) as (r & w1 & Hrole & Hfr & Hout).
  exists r, w1. repeat (split; [assumption|]).
  unfold require_role, bind. rewrite Hrole.
  destruct (existsb (user_role_eqb r) allowed); reflexivity.
Qed.






(* ------------------------------------------------------------------ *)
(** ** The manager's accrual flow: choosing the employee *)

Lemma In_distinct (x : Z) (l seen : list Z) : In x (distinct l seen) -> In x l.
Proof.
  revert seen. induction l as [|y l IH]; intros seen; simpl; [tauto|].
  destruct (existsb (Z.eqb y) seen).
  - intros H. right. exact (IH _ H).
  - intros [->|H]; [left; reflexivity|right; exact (IH _ H)].
Qed.

Lemma get_manager_departments_run (w : world) (user_id : Z) :
  exists ds w1,
    get_manager_departments user_id w = (Ok ds, w1)
    /\ frame w w1 /\ outbox w1 = outbox w /\ faults w1 = tl (faults w)
    /\ forall d, In d ds -> In d (manager_scope user_id (store w)).
Proof.
  unfold get_manager_departments, try_except, bind, get_db, logging, ret.
  destruct (hd false (faults w)); cbn; do 2 eexists; (split; [reflexivity|]);
    repeat split; try contradiction.
  intros d Hd. apply In_distinct in Hd. exact Hd.
Qed.

Lemma get_department_employees_run (w : world) (dept : Z) :
  exists es w1,
    get_department_employees dept w = (Ok es, w1)
    /\ frame w w1 /\ outbox w1 = outbox w
    /\ forall e, In e es ->
         In e (employees (store w)) /\ department_id e = dept /\ is_active e = 1.
Proof.
  unfold get_department_employees, try_except, bind, get_db, logging, ret.
  destruct (hd false (faults w)); cbn; do 2 eexists; (split; [reflexivity|]);
    repeat split; try contradiction.
  - apply In_order_by in H. apply filter_In in H. apply H.
  - apply In_order_by in H. apply filter_In in H. destruct H as [_ H].
    apply andb_prop in H. destruct H as [H _]. apply Z.eqb_eq. exact H.
  - apply In_order_by in H. apply filter_In in H. destruct H as [_ H].
    apply andb_prop in H. destruct H as [_ H]. apply Z.eqb_eq. exact H.
Qed.

Lemma employees_of_departments_run (dept_ids : list Z) (w : world) :
  exists es w1,
    employees_of_departments dept_ids w = (Ok es, w1)
    /\ frame w w1 /\ outbox w1 = outbox w
    /\ forall e, In e es ->
         In e (employees (store w)) /\ In (department_id e) dept_ids /\ is_active e = 1.
Proof.
  revert w. induction dept_ids as [|i t IH]; intros w; simpl.
  - exists [], w. split; [reflexivity|]. split; [apply frame_refl|].
    split; [reflexivity|contradiction].
  - unfold bind.
    destruct (get_department_employees_run w i) as (es & w1 & Hes & Hfr1 & Hout1 & Hin1).
    rewrite Hes.
    destruct (IH w1) as (rest & w2 & Hrest & Hfr2 & Hout2 & Hin2).
    rewrite Hrest. exists (es ++ rest)%list, w2. split; [reflexivity|].
    split; [eapply frame_trans; eassumption|].
    split; [congruence|].
    intros e He. apply in_app_or in He. destruct He as [He|He].
    + destruct (Hin1 e He) as (H1 & H2 & H3). repeat split; auto.
    + destruct (Hin2 e He) as (H1 & H2 & H3). destruct Hfr1 as (S1 & _).
      rewrite S1 in H1. repeat split; auto.
Qed.




(* ================================================================== *)
(** * What every handler keeps *)

Lemma quiet_set_state_store (s : option fsm_state) (w : world) :
  store (snd (set_state s w)) = store w.
Proof. reflexivity. Qed.

Lemma quiet_get_departments : quiet get_departments.
Proof. unfold get_departments. repeat quiet_step. Qed.

Lemma quiet_get_manager_departments (user_id : Z) : quiet (get_manager_departments user_id).
Proof. unfold get_manager_departments. repeat quiet_step. Qed.

Lemma quiet_get_department_employees (dept : Z) : quiet (get_department_employees dept).
Proof. unfold get_department_employees. repeat quiet_step. Qed.

Lemma quiet_get_employee_by_name (name : string) (dept : option Z) :
  quiet (get_employee_by_name name dept).
Proof. unfold get_employee_by_name. repeat quiet_step. Qed.

Lemma quiet_superadmin_main_kb : quiet superadmin_main_kb.
Proof.
  unfold superadmin_main_kb.
  apply quiet_bind; [apply quiet_get_departments|intros; apply quiet_ret].
Qed.

Lemma quiet_employees_of_departments (dept_ids : list Z) :
  quiet (employees_of_departments dept_ids).
Proof.
  induction dept_ids as [|i t IH]; simpl; [apply quiet_ret|].
  apply quiet_bind; [apply quiet_get_department_employees|intros es].
  apply quiet_bind; [exact IH|intros; apply quiet_ret].
Qed.

Lemma quiet_employees_per_department (dept_ids : list Z) :
  quiet (employees_per_department dept_ids).
Proof.
  induction dept_ids as [|i t IH]; simpl; [apply quiet_ret|].
  apply quiet_bind; [apply quiet_get_department_employees|intros es].
  apply quiet_bind; [exact IH|intros; apply quiet_ret].
Qed.

Lemma quiet_employees_by_department (ds : list department) :
  quiet (employees_by_department ds).
Proof.
  induction ds as [|d t IH]; simpl; [apply quiet_ret|].
  apply quiet_bind; [apply quiet_get_department_employees|intros es].
  apply quiet_bind; [exact IH|intros; apply quiet_ret].
Qed.

Section Keeps.

Variable P : db -> db -> Prop.
Hypothesis P_refl : forall d, P d d.
Hypothesis P_trans : forall a b c, P a b -> P b c -> P a c.

(** What the five writing statements contribute. *)
Hypothesis P_add_accrual :
  forall d emp a k c at_ by_, P d (db_add_accrual d emp a k c at_ by_).
Hypothesis P_add_department :
  forall d name emoji,
    existsb (fun x => String.eqb (dept_name x) name) (departments d) = false ->
    P d (db_add_department d name emoji).
Hypothesis P_add_employee :
  forall d name dept pos, P d (db_add_employee d name None dept RoleEmployee pos).
Hypothesis P_set_salary : forall d emp s, P d (db_set_salary d emp s).
Hypothesis P_set_last_period : forall d p emp, P d (db_set_last_period d p emp).

Lemma keeps_quiet {A} (m : M A) : quiet m -> keeps P m.
Proof. intros H w. destruct (H w) as [-> _]. apply P_refl. Qed.

Lemma keeps_bind {A B} (m : M A) (k : A -> M B) :
  keeps P m -> (forall a, keeps P (k a)) -> keeps P (bind m k).
Proof.
  intros Hm Hk w. unfold bind. specialize (Hm w).
  destruct (m w) as [[a|e] w1]; simpl in *; [|exact Hm].
  eapply P_trans; [exact Hm|apply Hk].
Qed.

Lemma keeps_try {A} (m : M A) (h : exn -> M A) :
  keeps P m -> (forall e, keeps P (h e)) -> keeps P (try_except m h).
Proof.
  intros Hm Hh w. unfold try_except. specialize (Hm w).
  destruct (m w) as [[a|e] w1]; simpl in *; [exact Hm|].
  eapply P_trans; [exact Hm|apply Hh].
Qed.

Lemma keeps_same {A} (m : M A) :
  (forall w, store (snd (m w)) = store w) -> keeps P m.
Proof. intros H w. rewrite H. apply P_refl. Qed.

Lemma keeps_add_accrual employee_id amt kind_tag c by_ :
  keeps P (add_accrual employee_id amt kind_tag c by_).
Proof.
  intros w. unfold add_accrual, try_except, bind, get_db, get_world, commit, logging, raise.
  destruct (hd false (faults w)); cbn; [apply P_refl|].
  destruct employee_id as [emp|]; cbn; [|apply P_refl].
  destruct amt as [a|]; cbn; [|apply P_refl].
  unfold sql_real. destruct (is_nan a); cbn; [apply P_refl|].
  destruct (kind_of_string kind_tag) as [k|]; cbn; [|apply P_refl].
  apply P_add_accrual.
Qed.

Lemma keeps_add_department name emoji : keeps P (add_department name emoji).
Proof.
  intros w. unfold add_department, try_except, bind, get_db, commit, logging, raise, ret.
  destruct (hd false (faults w)); cbn; [apply P_refl|].
  destruct (existsb _ _) eqn:E; cbn; [apply P_refl|].
  apply P_add_department. exact E.
Qed.

Lemma keeps_add_employee name dept pos :
  keeps P (add_employee name dept "employee" pos None).
Proof.
  intros w. unfold add_employee, try_except, bind, get_db, commit, logging, raise.
  destruct (hd false (faults w)); cbn; [apply P_refl|].
  destruct name as [n|]; cbn; [|apply P_refl].
  apply P_add_employee.
Qed.

Lemma keeps_set_employee_salary emp s : keeps P (set_employee_salary emp s).
Proof.
  intros w. unfold set_employee_salary, try_except, bind, get_db, commit, logging, raise.
  destruct (hd false (faults w)); cbn; [apply P_refl|].
  apply P_set_salary.
Qed.

Lemma keeps_update_last_period p emp : keeps P (update_last_period p emp).
Proof.
  intros w. unfold update_last_period, bind, get_db, commit.
  destruct (hd false (faults w)); cbn; [apply P_refl|].
  apply P_set_last_period.
Qed.

(** One step of a proof that a handler keeps [P]: the writing operations by
    the lemmas above, the reads because they are quiet, the rest by the
    structure of the code. *)
Ltac keeps_step :=
  match goal with
  | |- keeps P (bind _ _) => apply keeps_bind; [|intros ?]
  | |- keeps P (try_except _ _) => apply keeps_try; [|intros ?]
  | |- keeps P (add_accrual _ _ _ _ _) => apply keeps_add_accrual
  | |- keeps P (add_department _ _) => apply keeps_add_department
  | |- keeps P (add_employee _ _ _ _ _) => apply keeps_add_employee
  | |- keeps P (set_employee_salary _ _) => apply keeps_set_employee_salary
  | |- keeps P (update_last_period _ _) => apply keeps_update_last_period
  | |- keeps P (get_user_role _) => apply keeps_quiet, quiet_get_user_role
  | |- keeps P get_departments => apply keeps_quiet, quiet_get_departments
  | |- keeps P superadmin_main_kb => apply keeps_quiet, quiet_superadmin_main_kb
  | |- keeps P (get_manager_departments _) =>
      apply keeps_quiet, quiet_get_manager_departments
  | |- keeps P (get_department_employees _) =>
      apply keeps_quiet, quiet_get_department_employees
  | |- keeps P (employees_of_departments _) =>
      apply keeps_quiet, quiet_employees_of_departments
  | |- keeps P (employees_per_department _) =>
      apply keeps_quiet, quiet_employees_per_department
  | |- keeps P (employees_by_department _) =>
      apply keeps_quiet, quiet_employees_by_department
  | |- keeps P (get_employee_balance _) => apply keeps_quiet, quiet_get_employee_balance
  | |- keeps P (get_employee_salary _) => apply keeps_quiet, quiet_get_employee_salary
  | |- keeps P (get_employee_accruals _ _) =>
      apply keeps_quiet, quiet_get_employee_accruals
  | |- keeps P (get_employee_by_name _ _) =>
      apply keeps_quiet, quiet_get_employee_by_name
  | |- keeps P (show_updated_card _ _) => apply keeps_quiet, quiet_show_updated_card
  | |- keeps P (match ?x with _ => _ end) => destruct x
  | |- keeps P _ => apply keeps_same; intros; reflexivity
  end.

(** Every handler takes the tables to tables related by [P]. *)
Lemma keeps_run (a : action) (user_id : Z) (txt : string) : keeps P (run a user_id txt).
Proof.
  destruct a; cbn [run];
    unfold superadmin_add_department_start, superadmin_add_department_finish,
      add_employee_start, add_employee_enter_position, add_employee_choose_department,
      add_employee_finish_superadmin, superadmin_all_employees, manager_my_employees,
      superadmin_view_department, back_to_main, accrual_start, accrual_choose_employee,
      accrual_enter_amount, accrual_finish, employee_balance, show_employee_card,
      back_to_employee_list, give_advance, give_salary, change_salary_start,
      change_salary_finish, add_bonus_start, add_bonus_comment, add_bonus_finish,
      add_deduction_start, add_deduction_comment, add_deduction_finish,
      adjustment_finish, require_role;
    repeat keeps_step.
Qed.

End Keeps.

(* ------------------------------------------------------------------ *)
(** ** The ledger is append-only *)

Lemma ledger_extends_refl (d : db) : ledger_extends d d.
Proof. exists []. symmetry. apply app_nil_r. Qed.

Lemma ledger_extends_trans (a b c : db) :
  ledger_extends a b -> ledger_extends b c -> ledger_extends a c.
Proof.
  intros [x Hx] [y Hy]. exists (x ++ y)%list. rewrite Hy, Hx. symmetry. apply app_assoc.
Qed.

Lemma ledger_extends_same (d d' : db) : accruals d' = accruals d -> ledger_extends d d'.
Proof. intros H. exists []. rewrite H. symmetry. apply app_nil_r. Qed.

Lemma fixed_columns_set_last_period (d : db) (p : string) (emp : Z) :
  map fixed_columns (accruals (db_set_last_period d p emp))
  = map fixed_columns (accruals d).
Proof.
  cbn [db_set_last_period accruals]. rewrite map_map. apply map_ext.
  intros r. destruct (opt_Z_eqb _ _); reflexivity.
Qed.

(** X1.  Whatever handler runs, for whatever sender, text and store failures,
    the accruals table afterwards holds the former rows in their places, with
    the same identifier, employee, amount, kind, comment, creation time and
    creator, followed by the rows that were added: no handler deletes a row or
    changes anything in it but the period. *)
Theorem ledger_is_append_only (a : action) (user_id : Z) (txt : string) (w : world) :
  ledger_extends (store w) (store (exec (run a user_id txt) w)).
Proof.
  apply (keeps_run ledger_extends ledger_extends_refl ledger_extends_trans).
  - intros d emp x k c at_ by_. eexists. cbn [db_add_accrual accruals].
    rewrite map_app. reflexivity.
  - intros d name emoji _. apply ledger_extends_same. reflexivity.
  - intros d name dept pos. apply ledger_extends_same. reflexivity.
  - intros d emp s. apply ledger_extends_same. reflexivity.
  - intros d p emp. exists []. rewrite fixed_columns_set_last_period.
    symmetry. apply app_nil_r.
Qed.

(* ------------------------------------------------------------------ *)
(** ** Nobody is bound, promoted or moved by a handler *)

Lemma find_app_miss {A} (p : A -> bool) (l : list A) (x : A) :
  p x = false -> find p (l ++ [x]) = find p l.
Proof.
  intros Hx. induction l as [|y l IH]; simpl; [rewrite Hx; reflexivity|].
  destruct (p y); [reflexivity|exact IH].
Qed.

Lemma find_map_same {A} (p : A -> bool) (f : A -> A) (l : list A) :
  (forall x, p (f x) = p x) -> find p (map f l) = option_map f (find p l).
Proof.
  intros Hp. induction l as [|y l IH]; simpl; [reflexivity|].
  rewrite Hp. destruct (p y); [reflexivity|exact IH].
Qed.

Lemma filter_map_same {A} (p : A -> bool) (f : A -> A) (l : list A) :
  (forall x, p (f x) = p x) -> filter p (map f l) = map f (filter p l).
Proof.
  intros Hp. induction l as [|y l IH]; simpl; [reflexivity|].
  rewrite Hp. destruct (p y); simpl; rewrite IH; reflexivity.
Qed.

Lemma same_roles_refl (d : db) : same_roles d d.
Proof. intros u. split; reflexivity. Qed.

Lemma same_roles_trans (a b c : db) : same_roles a b -> same_roles b c -> same_roles a c.
Proof.
  intros H1 H2 u. destruct (H1 u) as [A1 A2]. destruct (H2 u) as [B1 B2].
  split; congruence.
Qed.

Lemma same_roles_same_employees (d d' : db) :
  employees d' = employees d -> same_roles d d'.
Proof. intros H u. unfold bound_role, manager_scope. rewrite H. split; reflexivity. Qed.

Lemma set_salary_row_columns (emp : Z) (s : float) (r : employee) :
  telegram_user_id (set_salary_row emp s r) = telegram_user_id r
  /\ is_active (set_salary_row emp s r) = is_active r
  /\ role (set_salary_row emp s r) = role r
  /\ department_id (set_salary_row emp s r) = department_id r
  /\ emp_id (set_salary_row emp s r) = emp_id r
  /\ full_name (set_salary_row emp s r) = full_name r
  /\ position (set_salary_row emp s r) = position r.
Proof. unfold set_salary_row. destruct (emp_id r =? emp); repeat split. Qed.

Lemma same_roles_each (d : db) :
  (forall name dept pos, same_roles d (db_add_employee d name None dept RoleEmployee pos))
  /\ (forall emp s, same_roles d (db_set_salary d emp s)).
Proof.
  split.
  - intros name dept pos u. unfold bound_role, manager_scope.
    cbn [db_add_employee employees]. split.
    + rewrite find_app_miss by reflexivity. reflexivity.
    + rewrite filter_app. cbn. rewrite app_nil_r. reflexivity.
  - intros emp s u. unfold bound_role, manager_scope. cbn [db_set_salary employees].
    split.
    + rewrite find_map_same.
      * destruct (find _ (employees d)) as [r|]; [|reflexivity].
        cbn. f_equal. apply set_salary_row_columns.
      * intros x. destruct (set_salary_row_columns emp s x) as (-> & -> & _). reflexivity.
    + rewrite filter_map_same.
      * rewrite map_map. apply map_ext. intros x. apply set_salary_row_columns.
      * intros x. destruct (set_salary_row_columns emp s x) as (-> & -> & -> & _).
        reflexivity.
Qed.

Lemma get_user_role_of_tables (w : world) (user_id : Z) :
  store_ready w ->
  eval (get_user_role user_id) w
  = Ok (if existsb (Z.eqb user_id) (superadmins w) then ROLE_SUPERADMIN
        else match bound_role user_id (store w) with
             | Some RoleManager => ROLE_MANAGER
             | Some RoleEmployee => ROLE_EMPLOYEE
             | None => ROLE_UNKNOWN
             end).
Proof.
  unfold store_ready. intros Hr.
  unfold eval, get_user_role, bind, get_world, try_except, get_db, bound_role.
  destruct (existsb (Z.eqb user_id) (superadmins w)); [reflexivity|].
  rewrite Hr. cbn. destruct (find _ _) as [r|]; [|reflexivity].
  cbn. destruct (role r); reflexivity.
Qed.

Lemma get_manager_departments_of_tables (w : world) (user_id : Z) :
  store_ready w ->
  eval (get_manager_departments user_id) w
  = Ok (distinct (manager_scope user_id (store w)) []).
Proof.
  unfold store_ready. intros Hr.
  unfold eval, get_manager_departments, bind, try_except, get_db, ret, manager_scope.
  rewrite Hr. reflexivity.
Qed.

(** X2.  Whatever handler runs, every identifier resolves to the same role
    and every manager administers the same departments with the tables after
    it as with the tables before it (read without store failure, under the
    same settings): the handlers never bind a Telegram identifier, never make
    a manager and never move or deactivate a bound employee. *)
Theorem handlers_never_change_roles
    (a : action) (user_id : Z) (txt : string) (w : world) (other : Z) :
  eval (get_user_role other)
       (with_faults [] (with_store (store (exec (run a user_id txt) w)) w))
  = eval (get_user_role other) (with_faults [] w)
  /\ eval (get_manager_departments other)
          (with_faults [] (with_store (store (exec (run a user_id txt) w)) w))
     = eval (get_manager_departments other) (with_faults [] w).
Proof.
  assert (H : same_roles (store w) (store (exec (run a user_id txt) w))).
  { apply (keeps_run same_roles same_roles_refl same_roles_trans).
    - intros. apply same_roles_same_employees. reflexivity.
    - intros. apply same_roles_same_employees. reflexivity.
    - intros d name dept pos. apply same_roles_each.
    - intros d emp s. apply same_roles_each.
    - intros. apply same_roles_same_employees. reflexivity. }
  destruct (H other) as [Hrole Hscope].
  rewrite !get_user_role_of_tables, !get_manager_departments_of_tables by reflexivity.
  cbn [store superadmins with_faults with_store]. rewrite Hrole, Hscope. split; reflexivity.
Qed.

(* ------------------------------------------------------------------ *)
(** ** Keys stay unique *)

Lemma NoDup_snoc {A} (l : list A) (x : A) : NoDup l -> ~ In x l -> NoDup (l ++ [x]).
Proof.
  intros Hl Hx. induction Hl as [|y l Hy Hl IH]; simpl.
  - constructor; [intros []|constructor].
  - constructor.
    + intros Hin. apply in_app_or in Hin. destruct Hin as [Hin|[->|[]]].
      * contradiction.
      * apply Hx. left. reflexivity.
    + apply IH. intros Hin. apply Hx. right. exact Hin.
Qed.

Lemma next_rowid_covers (ids : list Z) (seq i : Z) :
  In i (ids ++ [next_rowid ids seq]) -> i <= next_rowid ids seq.
Proof.
  intros H. apply in_app_or in H. destruct H as [H|[<-|[]]]; [|lia].
  apply (next_rowid_above ids seq) in H. lia.
Qed.

Lemma not_In_names (name : string) (ds : list department) :
  existsb (fun x => String.eqb (dept_name x) name) ds = false ->
  ~ In name (map dept_name ds).
Proof.
  intros H Hin. apply in_map_iff in Hin. destruct Hin as (x & Hx & Hin).
  assert (existsb (fun x => String.eqb (dept_name x) name) ds = true).
  { apply existsb_exists. exists x. split; [exact Hin|]. apply String.eqb_eq. exact Hx. }
  congruence.
Qed.

Lemma acc_id_set_last_period (d : db) (p : string) (emp : Z) :
  map acc_id (accruals (db_set_last_period d p emp)) = map acc_id (accruals d).
Proof.
  cbn [db_set_last_period accruals]. rewrite map_map. apply map_ext.
  intros r. destruct (opt_Z_eqb _ _); reflexivity.
Qed.

Lemma emp_id_set_salary (d : db) (emp : Z) (s : float) :
  map emp_id (employees (db_set_salary d emp s)) = map emp_id (employees d).
Proof.
  cbn [db_set_salary employees]. rewrite map_map. apply map_ext.
  intros r. apply set_salary_row_columns.
Qed.

(** X3.  When the keys of the three tables are unique and not above the
    AUTOINCREMENT counters and the department names are unique, they are so
    after any handler: every insert takes a fresh key, a department is only
    added under a new name, and the updates leave the keys alone. *)
Theorem handlers_keep_keys (a : action) (user_id : Z) (txt : string) (w : world) :
  keys_ok (store w) -> keys_ok (store (exec (run a user_id txt) w)).
Proof.
  apply (keeps_run (fun d d' => keys_ok d -> keys_ok d')); unfold keys_ok.
  - auto.
  - auto.
  - intros d emp x k c at_ by_ (H1 & H2 & H3 & H4 & H5 & H6 & H7).
    cbn [db_add_accrual departments employees accruals seq_departments seq_employees
           seq_accruals].
    repeat (split; [assumption|]). rewrite map_app. cbn [map new_accrual acc_id].
    split; [apply NoDup_snoc; [exact H4|apply next_rowid_fresh]|].
    split; [exact H5|]. split; [exact H6|]. apply next_rowid_covers.
  - intros d name emoji Hnew (H1 & H2 & H3 & H4 & H5 & H6 & H7).
    cbn [db_add_department departments employees accruals seq_departments seq_employees
           seq_accruals].
    rewrite !map_app. cbn [map dept_id dept_name].
    split; [apply NoDup_snoc; [exact H1|apply next_rowid_fresh]|].
    split; [apply NoDup_snoc; [exact H2|apply not_In_names; exact Hnew]|].
    repeat (split; [assumption|]).
    split; [apply next_rowid_covers|]. split; assumption.
  - intros d name dept pos (H1 & H2 & H3 & H4 & H5 & H6 & H7).
    cbn [db_add_employee departments employees accruals seq_departments seq_employees
           seq_accruals].
    rewrite !map_app. cbn [map emp_id].
    repeat (split; [assumption|]).
    split; [apply NoDup_snoc; [exact H3|apply next_rowid_fresh]|].
    split; [exact H4|]. split; [exact H5|]. split; [apply next_rowid_covers|exact H7].
  - intros d emp s (H1 & H2 & H3 & H4 & H5 & H6 & H7).
    rewrite emp_id_set_salary.
    cbn [db_set_salary departments accruals seq_departments seq_employees seq_accruals].
    repeat split; assumption.
  - intros d p emp (H1 & H2 & H3 & H4 & H5 & H6 & H7).
    rewrite acc_id_set_last_period.
    cbn [db_set_last_period departments employees seq_departments seq_employees
           seq_accruals].
    repeat split; assumption.
Qed.

Lemma keys_ok_company : keys_ok Sample.company.
Proof.
  unfold keys_ok. cbn.
  repeat split;
    try (repeat constructor; cbn; intuition (try discriminate; try lia));
    intros i Hi; cbn in Hi; intuition lia.
Qed.

(** The sample company after the advance that user 1 gives to Ann. *)
Lemma handlers_keep_keys_witness :
  keys_ok (store (exec (give_advance 1 "advance") (Sample.world_at None (Sample.pinned 2) []))).
Proof.
  exact (handlers_keep_keys AGiveAdvance 1 "advance"
           (Sample.world_at None (Sample.pinned 2) []) keys_ok_company).
Defined.

(* ------------------------------------------------------------------ *)
(** ** The directory only grows *)

Lemma directory_extends_refl (d : db) : directory_extends d d.
Proof. split; exists []; symmetry; apply app_nil_r. Qed.

Lemma directory_extends_trans (a b c : db) :
  directory_extends a b -> directory_extends b c -> directory_extends a c.
Proof.
  intros [[x Hx] [y Hy]] [[x' Hx'] [y' Hy']]. split.
  - exists (x ++ x')%list. rewrite Hx', Hx. symmetry. apply app_assoc.
  - exists (y ++ y')%list. rewrite Hy', Hy. symmetry. apply app_assoc.
Qed.

Lemma directory_extends_same (d d' : db) :
  departments d' = departments d -> employees d' = employees d -> directory_extends d d'.
Proof. intros H1 H2. split; exists []; rewrite ?H1, ?H2; symmetry; apply app_nil_r. Qed.

(** X4.  Whatever handler runs, the departments afterwards are the former
    ones, unchanged and in place, followed by new ones, and likewise the
    employees, of whom only the salary may differ: no handler removes, renames,
    moves or deactivates an employee or a department. *)
Theorem directory_only_grows (a : action) (user_id : Z) (txt : string) (w : world) :
  directory_extends (store w) (store (exec (run a user_id txt) w)).
Proof.
  apply (keeps_run directory_extends directory_extends_refl directory_extends_trans).
  - intros. apply directory_extends_same; reflexivity.
  - intros d name emoji _. split.
    + eexists. reflexivity.
    + exists []. symmetry. apply app_nil_r.
  - intros d name dept pos. split.
    + exists []. symmetry. apply app_nil_r.
    + eexists. cbn [db_add_employee employees]. rewrite map_app. reflexivity.
  - intros d emp s. split.
    + exists []. symmetry. apply app_nil_r.
    + exists []. cbn [db_set_salary employees]. rewrite map_map, app_nil_r.
      apply map_ext. intros r. unfold employee_fixed_columns.
      destruct (set_salary_row_columns emp s r) as (-> & -> & -> & -> & -> & -> & ->).
      reflexivity.
  - intros. apply directory_extends_same; reflexivity.
Qed.

(* ------------------------------------------------------------------ *)
(** ** Advances, bonuses and deductions *)

Arguments update_last_period : simpl never.

Lemma grows_bind {A B} (m : M A) (k : A -> M B) :
  grows m -> (forall a, grows (k a)) -> grows (bind m k).
Proof.
  intros Hm Hk w. unfold bind. destruct (Hm w) as [r1 H1].
  destruct (m w) as [[a|e] w1]; simpl in *; [|exists r1; exact H1].
  destruct (Hk a w1) as [r2 H2]. exists (r1 ++ r2)%list.
  rewrite H2, H1. symmetry. apply app_assoc.
Qed.

Lemma grows_try {A} (m : M A) (h : exn -> M A) :
  grows m -> (forall e, grows (h e)) -> grows (try_except m h).
Proof.
  intros Hm Hh w. unfold try_except. destruct (Hm w) as [r1 H1].
  destruct (m w) as [[a|e] w1]; simpl in *; [exists r1; exact H1|].
  destruct (Hh e w1) as [r2 H2]. exists (r1 ++ r2)%list.
  rewrite H2, H1. symmetry. apply app_assoc.
Qed.

Lemma grows_same {A} (m : M A) : (forall w, outbox (snd (m w)) = outbox w) -> grows m.
Proof. intros H w. exists []. rewrite H. symmetry. apply app_nil_r. Qed.

Lemma grows_answer (m : message) (k : keyboard) : grows (answer m k).
Proof. intros w. eexists. reflexivity. Qed.

Ltac grows_step :=
  match goal with
  | |- grows (bind _ _) => apply grows_bind; [|intros ?]
  | |- grows (try_except _ _) => apply grows_try; [|intros ?]
  | |- grows (answer _ _) => apply grows_answer
  | |- grows (match ?x with _ => _ end) => destruct x
  | |- grows _ => apply grows_same; intros; reflexivity
  end.

Lemma grows_show_updated_card (user_id emp : Z) : grows (show_updated_card user_id emp).
Proof.
  unfold show_updated_card, get_employee_salary, get_employee_balance,
    get_employee_accruals, get_user_role.
  repeat grows_step.
Qed.

Lemma balance_set_last_period (d : db) (p : string) (emp other : Z) :
  balance_query other (db_set_last_period d p emp) = balance_query other d.
Proof.
  unfold balance_query, balance_row, credit_sum, debit_sum, credit_values, debit_values,
    records_of.
  cbn [db_set_last_period accruals].
  rewrite filter_map_same by (intros x; destruct (opt_Z_eqb _ _); reflexivity).
  rewrite !map_map.
  rewrite (map_ext (fun x => if is_credit (acc_kind (if opt_Z_eqb (max_id emp (accruals d)) (acc_id x)
                                                      then set_period p x else x))
                             then amount (if opt_Z_eqb (max_id emp (accruals d)) (acc_id x)
                                          then set_period p x else x)
                             else 0%float)
                   (fun x => if is_credit (acc_kind x) then amount x else 0%float))
    by (intros x; destruct (opt_Z_eqb _ _); reflexivity).
  rewrite (map_ext (fun x => if is_debit (acc_kind (if opt_Z_eqb (max_id emp (accruals d)) (acc_id x)
                                                     then set_period p x else x))
                             then amount (if opt_Z_eqb (max_id emp (accruals d)) (acc_id x)
                                          then set_period p x else x)
                             else 0%float)
                   (fun x => if is_debit (acc_kind x) then amount x else 0%float))
    by (intros x; destruct (opt_Z_eqb _ _); reflexivity).
  reflexivity.
Qed.

(** The outcome of the pair of transactions that every commit uses: the
    insert, then the period of the newest row of the employee. *)
Lemma insert_then_period (d : db) (emp : Z) (a : float) (k : kind) (c at_ p : string) (by_ : Z) :
  accruals (db_set_last_period (db_add_accrual d emp a k c at_ by_) p emp)
  = (accruals d ++
       [set_period p (new_accrual (next_rowid (map acc_id (accruals d)) (seq_accruals d))
                        emp a k c at_ by_)])%list.
Proof.
  cbn [db_set_last_period db_add_accrual accruals].
  apply update_only_last; [reflexivity|].
  intros x Hx. apply next_rowid_above. exact Hx.
Qed.

Lemma update_last_period_ok (w : world) (p : string) (emp : Z) :
  store_ready w ->
  update_last_period p emp w
  = (Ok tt, with_store (db_set_last_period (store w) p emp) (with_faults (tl (faults w)) w)).
Proof.
  unfold store_ready. intros Hr. unfold update_last_period, bind, get_db, commit.
  rewrite Hr. reflexivity.
Qed.

Lemma update_last_period_failing (w : world) (p : string) (emp : Z) :
  store_failing w ->
  update_last_period p emp w = (Raise OperationalError, with_faults (tl (faults w)) w).
Proof.
  unfold store_failing. intros Hr. unfold update_last_period, bind, get_db, commit.
  rewrite Hr. reflexivity.
Qed.

Lemma add_accrual_ok_db (w : world) (emp : Z) (a : float) (kind_tag c : string) (by_ : Z)
    (k : kind) :
  store_ready w ->
  is_nan a = false ->
  kind_of_string kind_tag = Some k ->
  add_accrual (Some emp) (Some a) kind_tag c by_ w
  = (Ok tt,
     with_log (log w ++ [{| lvl := INFO; origin := "add_accrual"; cause := None |}])
       (with_store (db_add_accrual (store w) emp a k c (now_iso w) by_)
          (with_faults (tl (faults w)) w))).
Proof. apply add_accrual_ok. Qed.

Lemma no_faults_second (w : world) : no_faults w -> hd false (tl (faults w)) = false.
Proof.
  intros H. apply (no_faults_ready (with_faults (tl (faults w)) w)).
  exact (no_faults_tl w (with_faults (tl (faults w)) w) H eq_refl).
Qed.

(** X5.  [give_advance] for a super-administrator with a pinned employee,
    when no store failure is scheduled: one row is added, an advance of 20000
    for that employee with the comment and the current period, created by the
    sender; 20000 is added, in binary64 arithmetic, to the debit total of the
    employee, the credit total is the same number, and the balance of every
    other employee is as before; the conversation keeps its state and data;
    the first reply confirms the advance.  Without a pinned employee nothing changes and the reply says that
    no employee is selected. *)
Theorem give_advance_records_advance (w : world) (user_id : Z) (txt : string) :
  In user_id (superadmins w) ->
  (forall emp,
     truthy_id (d_current_employee_id (data w)) = Some emp -> no_faults w ->
     accruals (store (exec (give_advance user_id txt) w))
     = (accruals (store w) ++
          [set_period (now_period w)
             (new_accrual (next_rowid (map acc_id (accruals (store w)))
                             (seq_accruals (store w)))
                emp 20000 Advance "Аванс" (now_iso w) user_id)])%list
     /\ debit_total emp (store (exec (give_advance user_id txt) w))
        = (debit_total emp (store w) + 20000)%float
     /\ same_number (credit_total emp (store (exec (give_advance user_id txt) w)))
                     (credit_total emp (store w))
     /\ (forall other, other <> emp ->
           balance_query other (store (exec (give_advance user_id txt) w))
           = balance_query other (store w))
     /\ state (exec (give_advance user_id txt) w) = state w
     /\ data (exec (give_advance user_id txt) w) = data w
     /\ exists rest,
          outbox (exec (give_advance user_id txt) w)
          = (outbox w ++ {| text := MsgAdvanceGiven; markup := KbUnchanged |} :: rest)%list)
  /\ (truthy_id (d_current_employee_id (data w)) = None ->
      store (exec (give_advance user_id txt) w) = store w
      /\ state (exec (give_advance user_id txt) w) = state w
      /\ data (exec (give_advance user_id txt) w) = data w
      /\ outbox (exec (give_advance user_id txt) w)
         = (outbox w ++ [{| text := MsgEmployeeNotSelected; markup := KbUnchanged |}])%list).
Proof.
  intros Hadmin.
  unfold exec, give_advance, require_role, bind.
  rewrite (get_user_role_superadmin w user_id Hadmin). cbn.
  split.
  - intros emp Hpin Hnf. rewrite Hpin. unfold try_except, bind, get_world.
    rewrite (add_accrual_ok_db w emp 20000 "advance" "Аванс" user_id Advance
               (no_faults_ready w Hnf) eq_refl eq_refl).
    cbv beta iota.
    rewrite update_last_period_ok by (exact (no_faults_second w Hnf)).
    cbv beta iota. unfold answer.
    match goal with |- context [show_updated_card user_id emp ?x] =>
      destruct (show_updated_card_run user_id emp x) as (w4 & Hcard & Hfr4);
      destruct (grows_show_updated_card user_id emp x) as (rest & Hrest) end.
    rewrite Hcard in *. cbn [fst snd] in *.
    destruct Hfr4 as (S4 & T4 & D4 & _). cbn in S4, T4, D4, Hrest.
    rewrite S4, T4, D4, Hrest.
    split; [apply insert_then_period|].
    destruct (totals_after_debit (store w) _ _
                (insert_then_period (store w) emp 20000 Advance "Аванс" (now_iso w)
                   (now_period w) user_id) eq_refl) as [Hdebit Hcredit].
    split; [exact Hdebit|]. split; [exact Hcredit|].
    split.
    + intros other Hother.
      apply (balance_of_other (store w) _ _ other
               (insert_then_period (store w) emp 20000 Advance "Аванс" (now_iso w)
                  (now_period w) user_id)).
      cbn. congruence.
    + repeat split. exists rest. rewrite <- app_assoc. reflexivity.
  - intros Hpin. rewrite Hpin. cbn. repeat split.
Qed.

(** User 1 gives Ann, whose debits are 2000, an advance: they become
    22000. *)
Lemma give_advance_records_advance_witness :
  debit_total 2 (store (exec (give_advance 1 "advance")
                          (Sample.world_at None (Sample.pinned 2) [])))
  = 22000%float.
Proof.
  destruct (proj1 (give_advance_records_advance
                     (Sample.world_at None (Sample.pinned 2) []) 1 "advance"
                     (or_introl eq_refl)) 2 eq_refl eq_refl)
    as (_ & Hb & _).
  exact Hb.
Defined.

Lemma adjustment_finish_commits
    (amount_key : fsm_data -> option float) (kind_tag default : string) (done : float -> message)
    (k : kind) (w : world) (user_id : Z) (txt : string) (emp : Z) (a : float) :
  kind_of_string kind_tag = Some k ->
  truthy_id (d_current_employee_id (data w)) = Some emp ->
  truthy_amount (amount_key (data w)) = Some a ->
  is_nan a = false ->
  no_faults w ->
  accruals (store (exec (adjustment_finish amount_key kind_tag default done user_id txt) w))
  = (accruals (store w) ++
       [set_period (now_period w)
          (new_accrual (next_rowid (map acc_id (accruals (store w))) (seq_accruals (store w)))
             emp a k (or_default (PyStr.strip txt) default) (now_iso w) user_id)])%list
  /\ state (exec (adjustment_finish amount_key kind_tag default done user_id txt) w) = None
  /\ data (exec (adjustment_finish amount_key kind_tag default done user_id txt) w) = data w
  /\ exists rest,
       outbox (exec (adjustment_finish amount_key kind_tag default done user_id txt) w)
       = (outbox w ++ {| text := done a; markup := KbUnchanged |} :: rest)%list.
Proof.
  intros Hk Hpin Hamt Ha Hnf.
  unfold exec, adjustment_finish, bind, get_data. cbn.
  rewrite Hpin, Hamt. unfold try_except, bind, get_world.
  rewrite (add_accrual_ok_db w emp a kind_tag _ user_id k (no_faults_ready w Hnf) Ha Hk).
  cbv beta iota.
  rewrite update_last_period_ok by (exact (no_faults_second w Hnf)).
  cbv beta iota. unfold answer, set_state.
  match goal with |- context [show_updated_card user_id emp ?x] =>
    destruct (show_updated_card_run user_id emp x) as (w4 & Hcard & Hfr4);
    destruct (grows_show_updated_card user_id emp x) as (rest & Hrest) end.
  rewrite Hcard in *. cbn [fst snd] in *.
  destruct Hfr4 as (S4 & T4 & D4 & _). cbn in S4, T4, D4, Hrest.
  rewrite S4, T4, D4, Hrest.
  split; [apply insert_then_period|].
  repeat split. exists rest. rewrite <- app_assoc. reflexivity.
Qed.

(** X6.  [add_bonus_finish] with a pinned employee and a stored bonus amount,
    when no store failure is scheduled: one bonus row of that amount is added
    for the pinned employee, with the current period and with the stripped
    text as comment, or the default comment when the text is blank; the
    amount is added, in binary64 arithmetic, to the credit total of the
    employee, the debit total is the same number, and no other balance moves;
    the state is dropped and the data, with the pinned selection, are kept.
    The handler asks for no role.  The stored amount is a number: a NaN would
    be refused by the insert. *)
Theorem add_bonus_finish_raises_balance
    (w : world) (user_id : Z) (txt : string) (emp : Z) (a : float) :
  truthy_id (d_current_employee_id (data w)) = Some emp ->
  truthy_amount (d_bonus_amount (data w)) = Some a ->
  is_nan a = false ->
  no_faults w ->
  accruals (store (exec (add_bonus_finish user_id txt) w))
  = (accruals (store w) ++
       [set_period (now_period w)
          (new_accrual (next_rowid (map acc_id (accruals (store w))) (seq_accruals (store w)))
             emp a Bonus (or_default (PyStr.strip txt) "Премия") (now_iso w) user_id)])%list
  /\ credit_total emp (store (exec (add_bonus_finish user_id txt) w))
     = (credit_total emp (store w) + a)%float
  /\ same_number (debit_total emp (store (exec (add_bonus_finish user_id txt) w)))
                  (debit_total emp (store w))
  /\ (forall other, other <> emp ->
        balance_query other (store (exec (add_bonus_finish user_id txt) w))
        = balance_query other (store w))
  /\ state (exec (add_bonus_finish user_id txt) w) = None
  /\ data (exec (add_bonus_finish user_id txt) w) = data w
  /\ exists rest,
       outbox (exec (add_bonus_finish user_id txt) w)
       = (outbox w ++ {| text := MsgBonusAdded a; markup := KbUnchanged |} :: rest)%list.
Proof.
  intros Hpin Hamt Ha Hnf. unfold add_bonus_finish.
  destruct (adjustment_finish_commits d_bonus_amount "bonus" "Премия" MsgBonusAdded Bonus
              w user_id txt emp a eq_refl Hpin Hamt Ha Hnf) as (Hacc & Hs & Hd & Ho).
  destruct (totals_after_credit (store w) _ _ Hacc eq_refl) as [Hcredit Hdebit].
  split; [exact Hacc|]. split; [exact Hcredit|]. split; [exact Hdebit|].
  split; [|split; [exact Hs|split; [exact Hd|exact Ho]]].
  intros other Hother.
  apply (balance_of_other (store w) _ _ other Hacc). cbn. congruence.
Qed.

(** Ann, pinned, with the bonus amount 500 and a blank comment: her credits
    go from 10000 to 10500. *)
Lemma add_bonus_finish_raises_balance_witness :
  credit_total 2
    (store (exec (add_bonus_finish 10 "  ")
                 (Sample.world_at (Some AddBonus_waiting_for_comment)
                    (put_bonus_amount 500 (Sample.pinned 2)) [])))
  = 10500%float
  /\ state (exec (add_bonus_finish 10 "  ")
                 (Sample.world_at (Some AddBonus_waiting_for_comment)
                    (put_bonus_amount 500 (Sample.pinned 2)) []))
     = None.
Proof.
  destruct (add_bonus_finish_raises_balance
              (Sample.world_at (Some AddBonus_waiting_for_comment)
                 (put_bonus_amount 500 (Sample.pinned 2)) [])
              10 "  " 2 500%float eq_refl eq_refl eq_refl eq_refl)
    as (_ & Hb & _ & _ & Hs & _).
  split; [exact Hb|exact Hs].
Defined.

(** X7.  [add_deduction_finish] with a pinned employee and a stored deduction
    amount, when no store failure is scheduled: one deduction row of that
    amount is added for the pinned employee, with the current period and the
    stripped text or the default comment; the amount is added, in binary64
    arithmetic, to the debit total of the employee, whatever the credits are,
    the credit total is the same number, and no other balance moves; the
    state is dropped and the data are kept.  The stored amount is a number: a
    NaN would be refused by the insert. *)
Theorem add_deduction_finish_lowers_balance
    (w : world) (user_id : Z) (txt : string) (emp : Z) (a : float) :
  truthy_id (d_current_employee_id (data w)) = Some emp ->
  truthy_amount (d_deduction_amount (data w)) = Some a ->
  is_nan a = false ->
  no_faults w ->
  accruals (store (exec (add_deduction_finish user_id txt) w))
  = (accruals (store w) ++
       [set_period (now_period w)
          (new_accrual (next_rowid (map acc_id (accruals (store w))) (seq_accruals (store w)))
             emp a Deduction (or_default (PyStr.strip txt) "Вычет") (now_iso w) user_id)])%list
  /\ debit_total emp (store (exec (add_deduction_finish user_id txt) w))
     = (debit_total emp (store w) + a)%float
  /\ same_number (credit_total emp (store (exec (add_deduction_finish user_id txt) w)))
                  (credit_total emp (store w))
  /\ (forall other, other <> emp ->
        balance_query other (store (exec (add_deduction_finish user_id txt) w))
        = balance_query other (store w))
  /\ state (exec (add_deduction_finish user_id txt) w) = None
  /\ data (exec (add_deduction_finish user_id txt) w) = data w
  /\ exists rest,
       outbox (exec (add_deduction_finish user_id txt) w)
       = (outbox w ++ {| text := MsgDeductionAdded a; markup := KbUnchanged |} :: rest)%list.
Proof.
  intros Hpin Hamt Ha Hnf. unfold add_deduction_finish.
  destruct (adjustment_finish_commits d_deduction_amount "deduction" "Вычет"
              MsgDeductionAdded Deduction
              w user_id txt emp a eq_refl Hpin Hamt Ha Hnf) as (Hacc & Hs & Hd & Ho).
  destruct (totals_after_debit (store w) _ _ Hacc eq_refl) as [Hdebit Hcredit].
  split; [exact Hacc|]. split; [exact Hdebit|]. split; [exact Hcredit|].
  split; [|split; [exact Hs|split; [exact Hd|exact Ho]]].
  intros other Hother.
  apply (balance_of_other (store w) _ _ other Hacc). cbn. congruence.
Qed.

(** Petrov, pinned, with the deduction amount 300: his debits go from 0 to
    300. *)
Lemma add_deduction_finish_lowers_balance_witness :
  debit_total 3
    (store (exec (add_deduction_finish 10 "late")
                 (Sample.world_at (Some AddDeduction_waiting_for_comment)
                    (put_deduction_amount 300 (Sample.pinned 3)) [])))
  = 300%float.
Proof.
  destruct (add_deduction_finish_lowers_balance
              (Sample.world_at (Some AddDeduction_waiting_for_comment)
                 (put_deduction_amount 300 (Sample.pinned 3)) [])
              10 "late" 3 300%float eq_refl eq_refl eq_refl eq_refl)
    as (_ & Hb & _).
  exact Hb.
Defined.

(** X8.  When the pinned employee or the stored amount is missing (absent or
    zero), the commit of a bonus or of a deduction writes nothing, answers
    with the data error and clears the conversation, state and data. *)
Theorem adjustment_without_data_aborts (w : world) (user_id : Z) (txt : string) :
  (truthy_id (d_current_employee_id (data w)) = None
   \/ truthy_amount (d_bonus_amount (data w)) = None ->
   store (exec (add_bonus_finish user_id txt) w) = store w
   /\ state (exec (add_bonus_finish user_id txt) w) = None
   /\ data (exec (add_bonus_finish user_id txt) w) = no_data
   /\ outbox (exec (add_bonus_finish user_id txt) w)
      = (outbox w ++ [{| text := MsgDataError; markup := KbUnchanged |}])%list)
  /\ (truthy_id (d_current_employee_id (data w)) = None
      \/ truthy_amount (d_deduction_amount (data w)) = None ->
      store (exec (add_deduction_finish user_id txt) w) = store w
      /\ state (exec (add_deduction_finish user_id txt) w) = None
      /\ data (exec (add_deduction_finish user_id txt) w) = no_data
      /\ outbox (exec (add_deduction_finish user_id txt) w)
         = (outbox w ++ [{| text := MsgDataError; markup := KbUnchanged |}])%list).
Proof.
  split; intros H;
    unfold exec, add_bonus_finish, add_deduction_finish, adjustment_finish, bind, get_data;
    cbn;
    destruct H as [-> | ->];
    try (destruct (truthy_id (d_current_employee_id (data w))));
    cbn; repeat split.
Qed.

(** The comment of a bonus arrives while no employee is pinned. *)
Lemma adjustment_without_data_aborts_witness :
  outbox (exec (add_bonus_finish 10 "plan")
               (Sample.world_at (Some AddBonus_waiting_for_comment)
                  (put_bonus_amount 500 no_data) []))
  = [{| text := MsgDataError; markup := KbUnchanged |}].
Proof.
  destruct (proj1 (adjustment_without_data_aborts
                     (Sample.world_at (Some AddBonus_waiting_for_comment)
                        (put_bonus_amount 500 no_data) []) 10 "plan")
              (or_introl eq_refl)) as (_ & _ & _ & Ho).
  exact Ho.
Defined.

(** X9.  The insert and the period are two transactions.  When the first
    goes through and the store fails at the second, [give_advance] leaves the
    advance of 20000 in the table without a period, and the only reply is the
    error message. *)
Theorem give_advance_failure_after_insert
    (w : world) (user_id : Z) (txt : string) (emp : Z) (later : list bool) :
  In user_id (superadmins w) ->
  truthy_id (d_current_employee_id (data w)) = Some emp ->
  faults w = false :: true :: later ->
  accruals (store (exec (give_advance user_id txt) w))
  = (accruals (store w) ++
       [new_accrual (next_rowid (map acc_id (accruals (store w))) (seq_accruals (store w)))
          emp 20000 Advance "Аванс" (now_iso w) user_id])%list
  /\ outbox (exec (give_advance user_id txt) w)
     = (outbox w ++ [{| text := MsgAdvanceError OperationalError;
                        markup := KbUnchanged |}])%list.
Proof.
  intros Hadmin Hpin Hf.
  unfold exec, give_advance, require_role, bind.
  rewrite (get_user_role_superadmin w user_id Hadmin). cbn.
  rewrite Hpin. unfold try_except, bind, get_world.
  assert (Hr : store_ready w) by (unfold store_ready; rewrite Hf; reflexivity).
  rewrite (add_accrual_ok_db w emp 20000 "advance" "Аванс" user_id Advance Hr eq_refl eq_refl).
  cbv beta iota.
  rewrite update_last_period_failing
    by (unfold store_failing; cbn; rewrite Hf; reflexivity).
  cbn. split; reflexivity.
Qed.

(** Ann's advance with the second transaction failing. *)
Lemma give_advance_failure_after_insert_witness :
  List.length (accruals (store (exec (give_advance 1 "advance")
                                  (Sample.world_at None (Sample.pinned 2) [false; true]))))
  = 3%nat
  /\ outbox (exec (give_advance 1 "advance")
                  (Sample.world_at None (Sample.pinned 2) [false; true]))
     = [{| text := MsgAdvanceError OperationalError; markup := KbUnchanged |}].
Proof.
  destruct (give_advance_failure_after_insert
              (Sample.world_at None (Sample.pinned 2) [false; true]) 1 "advance" 2 []
              (or_introl eq_refl) eq_refl eq_refl) as (Ha & Ho).
  split; [rewrite Ha; reflexivity|exact Ho].
Defined.

(* ------------------------------------------------------------------ *)
(** ** The salary on the card *)

Lemma find_id_map_set_salary (emp : Z) (s : float) (rows : list employee) :
  find (fun r => emp_id r =? emp) (map (set_salary_row emp s) rows)
  = option_map (set_salary_row emp s) (find (fun r => emp_id r =? emp) rows).
Proof.
  apply find_map_same. intros x.
  destruct (set_salary_row_columns emp s x) as (_ & _ & _ & _ & -> & _). reflexivity.
Qed.

Lemma find_id_present (emp : Z) (rows : list employee) :
  In emp (map emp_id rows) ->
  exists r, find (fun r => emp_id r =? emp) rows = Some r /\ emp_id r = emp.
Proof.
  intros H. apply in_map_iff in H. destruct H as (x & Hx & Hin).
  destruct (find (fun r => emp_id r =? emp) rows) as [r|] eqn:E.
  - exists r. split; [reflexivity|]. apply find_some in E. apply Z.eqb_eq. apply E.
  - exfalso. pose proof (find_none _ _ E x Hin) as H. cbn in H.
    rewrite Hx, Z.eqb_refl in H. discriminate.
Qed.

Lemma set_salary_absent (emp : Z) (s : float) (rows : list employee) :
  ~ In emp (map emp_id rows) -> map (set_salary_row emp s) rows = rows.
Proof.
  intros H. rewrite <- (map_id rows) at 2. apply map_ext_in. intros r Hr.
  unfold set_salary_row. destruct (emp_id r =? emp) eqn:E; [|reflexivity].
  exfalso. apply H. apply Z.eqb_eq in E. rewrite <- E. apply in_map. exact Hr.
Qed.

Lemma balance_set_salary (d : db) (emp : Z) (s : float) (other : Z) :
  balance_query other (db_set_salary d emp s) = balance_query other d.
Proof. reflexivity. Qed.

Lemma get_employee_salary_ready (w : world) (emp : Z) :
  store_ready w ->
  eval (get_employee_salary emp) w
  = Ok (match find (fun r => emp_id r =? emp) (employees (store w)) with
        | Some row => match salary row with
                      | Some s => if is_zero s then 0%float else s
                      | None => 0%float
                      end
        | None => 0%float
        end).
Proof.
  unfold store_ready. intros Hr.
  unfold eval, get_employee_salary, try_except, bind, get_db, ret. rewrite Hr. cbn.
  destruct (find _ _) as [row|]; [|reflexivity].
  destruct (salary row) as [s|]; [|reflexivity].
  destruct (is_zero s); reflexivity.
Qed.

(** X10.  With no store failure scheduled, [set_employee_salary] returns
    normally; if an employee has the identifier, [get_employee_salary] then
    returns the salary that was set (0 for a NaN, which is stored as NULL),
    and if none has it the employees table is unchanged and the salary read
    is 0.  The salary never enters a balance: every balance is the same
    before and after. *)
Theorem salary_set_then_get (w : world) (emp : Z) (s : float) :
  no_faults w ->
  eval (set_employee_salary emp s) w = Ok tt
  /\ (In emp (map emp_id (employees (store w))) ->
      exists v, eval (get_employee_salary emp) (exec (set_employee_salary emp s) w) = Ok v
                /\ (is_nan s = false -> same_number v s)
                /\ (is_nan s = true -> v = 0%float))
  /\ (~ In emp (map emp_id (employees (store w))) ->
      employees (store (exec (set_employee_salary emp s) w)) = employees (store w)
      /\ eval (get_employee_salary emp) (exec (set_employee_salary emp s) w) = Ok 0%float)
  /\ (forall other,
        balance_query other (store (exec (set_employee_salary emp s) w))
        = balance_query other (store w)).
Proof.
  intros Hnf. unfold exec, eval at 1.
  rewrite (set_employee_salary_ok w emp s (no_faults_ready w Hnf)). cbn [fst snd].
  split; [reflexivity|].
  split; [|split].
  - intros Hin. rewrite get_employee_salary_ready by (exact (no_faults_second w Hnf)).
    cbn [store with_log with_store employees].
    rewrite find_id_map_set_salary.
    destruct (find_id_present emp _ Hin) as (r & -> & Hr). cbn [option_map].
    unfold set_salary_row at 1. rewrite Hr, Z.eqb_refl. cbn [salary].
    unfold sql_real. destruct (is_nan s) eqn:En.
    + exists 0%float. split; [reflexivity|]. split; [discriminate|reflexivity].
    + destruct (is_zero s) eqn:E.
      * exists 0%float. split; [reflexivity|]. split; [|discriminate].
        intros _. right. split; [reflexivity|exact E].
      * exists s. split; [reflexivity|]. split; [|discriminate].
        intros _. apply same_number_refl.
  - intros Hout. cbn [store with_log with_store employees].
    split; [apply set_salary_absent; exact Hout|].
    rewrite get_employee_salary_ready by (exact (no_faults_second w Hnf)).
    cbn [store with_log with_store employees].
    rewrite set_salary_absent by exact Hout.
    destruct (find (fun r => emp_id r =? emp) (employees (store w))) as [r|] eqn:E;
      [|reflexivity].
    exfalso. apply Hout. apply find_some in E. destruct E as [Hin Hid].
    apply Z.eqb_eq in Hid. rewrite <- Hid. apply in_map. exact Hin.
  - intros other. reflexivity.
Qed.

(** Petrov's salary set to 45000.5 and read back. *)
Lemma salary_set_then_get_witness :
  exists v,
    eval (get_employee_salary 3)
         (exec (set_employee_salary 3 45000.5%float) (Sample.world_at None no_data []))
    = Ok v
    /\ same_number v 45000.5%float.
Proof.
  destruct (proj1 (proj2 (salary_set_then_get (Sample.world_at None no_data []) 3
                            45000.5%float eq_refl)))
    as (v & Hv & Hsame & _).
  - cbn. auto.
  - exists v. split; [exact Hv|]. apply Hsame. reflexivity.
Defined.

(* ------------------------------------------------------------------ *)
(** ** Listings *)

Lemma Permutation_insert_by {A} (le : A -> A -> bool) (x : A) (l : list A) :
  Permutation (insert_by le x l) (x :: l).
Proof.
  induction l as [|y l IH]; simpl; [reflexivity|].
  destruct (le x y); [reflexivity|].
  etransitivity; [apply perm_skip; exact IH|apply perm_swap].
Qed.

Lemma Permutation_order_by {A} (le : A -> A -> bool) (l : list A) :
  Permutation (order_by le l) l.
Proof.
  unfold order_by. induction l as [|x l IH]; simpl; [reflexivity|].
  etransitivity; [apply Permutation_insert_by|apply perm_skip; exact IH].
Qed.

Lemma sorted_insert_by {A} (le : A -> A -> bool) (x : A) (l : list A) :
  (forall a b, le a b = true \/ le b a = true) ->
  sorted_by le l -> sorted_by le (insert_by le x l).
Proof.
  intros Htot Hl. induction Hl as [|y|y z l Hyz Hl IH]; simpl.
  - constructor.
  - destruct (le x y) eqn:E.
    + constructor; [exact E|constructor].
    + constructor; [|constructor]. destruct (Htot x y); congruence.
  - destruct (le x y) eqn:E.
    + constructor; [exact E|]. constructor; assumption.
    + simpl in IH. destruct (le x z) eqn:E2.
      * constructor; [destruct (Htot x y); congruence|exact IH].
      * constructor; [exact Hyz|exact IH].
Qed.

Lemma sorted_order_by {A} (le : A -> A -> bool) (l : list A) :
  (forall a b, le a b = true \/ le b a = true) -> sorted_by le (order_by le l).
Proof.
  intros Htot. unfold order_by. induction l as [|x l IH]; simpl; [constructor|].
  apply sorted_insert_by; assumption.
Qed.

Lemma sorted_firstn {A} (le : A -> A -> bool) (n : nat) (l : list A) :
  sorted_by le l -> sorted_by le (firstn n l).
Proof.
  intros Hl. revert n. induction Hl as [|y|y z l Hyz Hl IH]; intros n.
  - destruct n; constructor.
  - destruct n as [|[|n]]; constructor.
  - destruct n as [|[|n]]; simpl; try constructor.
    + exact Hyz.
    + exact (IH (S n)).
Qed.

Lemma In_firstn {A} (n : nat) (l : list A) (x : A) : In x (firstn n l) -> In x l.
Proof.
  intros H. rewrite <- (firstn_skipn n l). apply in_or_app. left. exact H.
Qed.

Lemma Zleb_total (a b : Z) : (a <=? b) = true \/ (b <=? a) = true.
Proof. destruct (Z.leb_spec a b); [left; reflexivity|right; apply Z.leb_le; lia]. Qed.

(** X11.  When the store can be read, [get_departments] returns every row of
    the departments table once, in ascending order of identifier, and
    [get_department_employees] returns once each the active employees of the
    department, in ascending order of name. *)
Theorem listings_are_sorted (w : world) (dept : Z) :
  store_ready w ->
  (exists ds,
     eval get_departments w = Ok ds
     /\ Permutation ds (departments (store w))
     /\ sorted_by (fun a b => dept_id a <=? dept_id b) ds)
  /\ (exists es,
        eval (get_department_employees dept) w = Ok es
        /\ Permutation es
             (filter (fun r => (department_id r =? dept) && (is_active r =? 1))
                     (employees (store w)))
        /\ (forall e, In e es <->
                      In e (employees (store w)) /\ department_id e = dept /\ is_active e = 1)
        /\ sorted_by (fun a b => String.leb (full_name a) (full_name b)) es).
Proof.
  unfold store_ready. intros Hr. split.
  - eexists. unfold eval, get_departments, try_except, bind, get_db, ret. rewrite Hr.
    cbn. split; [reflexivity|]. split; [apply Permutation_order_by|].
    apply sorted_order_by. intros a b. apply Zleb_total.
  - eexists. unfold eval, get_department_employees, try_except, bind, get_db, ret.
    rewrite Hr. cbn. split; [reflexivity|]. split; [apply Permutation_order_by|].
    split.
    + intros e. rewrite In_order_by, filter_In, andb_true_iff, !Z.eqb_eq. tauto.
    + apply sorted_order_by. intros a b. apply String.leb_total.
Qed.

(** The employees of department 1 of the sample company: Ann, then Boss. *)
Lemma listings_are_sorted_witness :
  exists es,
    eval (get_department_employees 1) (Sample.world_at None no_data []) = Ok es
    /\ sorted_by (fun a b => String.leb (full_name a) (full_name b)) es.
Proof.
  destruct (proj2 (listings_are_sorted (Sample.world_at None no_data []) 1 eq_refl))
    as (es & He & _ & _ & Hs).
  exists es. split; [exact He|exact Hs].
Defined.

(** X12.  When the store can be read, [get_employee_accruals] returns rows of
    the table that belong to the employee, newest first.  Without a period,
    or with the empty string as period, at most twenty rows come back, and all
    of the employee's rows when there are no more than twenty; with a period,
    exactly the employee's rows of that period come back, however many. *)
Theorem history_is_bounded (w : world) (employee_id : Z) (per : option string) :
  store_ready w ->
  exists rows,
    eval (get_employee_accruals employee_id per) w = Ok rows
    /\ (forall r, In r rows ->
          In r (accruals (store w)) /\ acc_employee_id r = employee_id)
    /\ sorted_by (fun a b => String.leb (created_at b) (created_at a)) rows
    /\ (per = None \/ per = Some EmptyString ->
        (List.length rows <= 20)%nat
        /\ ((List.length (records_of employee_id (accruals (store w))) <= 20)%nat ->
            Permutation rows (records_of employee_id (accruals (store w)))))
    /\ (forall p, per = Some p -> p <> EmptyString ->
          Permutation rows
            (filter (fun r => (acc_employee_id r =? employee_id)
                              && opt_string_eqb (period r) p)
                    (accruals (store w)))).
Proof.
  unfold store_ready. intros Hr.
  assert (Htot : forall a b : accrual,
             String.leb (created_at b) (created_at a) = true
             \/ String.leb (created_at a) (created_at b) = true)
    by (intros a b; apply String.leb_total).
  assert (Hcap : exists rows,
             rows = firstn 20 (order_by (fun a b => String.leb (created_at b) (created_at a))
                                 (records_of employee_id (accruals (store w))))
             /\ (forall r, In r rows ->
                   In r (accruals (store w)) /\ acc_employee_id r = employee_id)
             /\ sorted_by (fun a b => String.leb (created_at b) (created_at a)) rows
             /\ (List.length rows <= 20)%nat
             /\ ((List.length (records_of employee_id (accruals (store w))) <= 20)%nat ->
                 Permutation rows (records_of employee_id (accruals (store w))))).
  { eexists. split; [reflexivity|]. split; [|split; [|split]].
    - intros r Hin. apply In_firstn in Hin. apply In_order_by in Hin.
      unfold records_of in Hin. apply filter_In in Hin. destruct Hin as [H1 H2].
      split; [exact H1|apply Z.eqb_eq; exact H2].
    - apply sorted_firstn. apply sorted_order_by. exact Htot.
    - apply firstn_le_length.
    - intros Hle. rewrite firstn_all2; [apply Permutation_order_by|].
      rewrite (Permutation_length (Permutation_order_by _ _)). exact Hle. }
  destruct Hcap as (capped & Hcapped & C1 & C2 & C3 & C4).
  unfold eval, get_employee_accruals, try_except, bind, get_db, ret. rewrite Hr. cbn.
  destruct per as [[|c p]|]; cbn.
  - exists capped. rewrite Hcapped at 1. split; [reflexivity|].
    split; [exact C1|]. split; [exact C2|]. split; [intros _; split; assumption|].
    intros p [= <-] Hp. congruence.
  - eexists. split; [reflexivity|]. split; [|split; [|split]].
    + intros r Hin. apply In_order_by in Hin. apply filter_In in Hin.
      destruct Hin as [H1 H2]. apply andb_prop in H2. destruct H2 as [H2 _].
      split; [exact H1|apply Z.eqb_eq; exact H2].
    + apply sorted_order_by. exact Htot.
    + intros [H|H]; discriminate H.
    + intros q [= <-] _. apply Permutation_order_by.
  - exists capped. rewrite Hcapped at 1. split; [reflexivity|].
    split; [exact C1|]. split; [exact C2|]. split; [intros _; split; assumption|].
    intros p H. discriminate H.
Qed.

(** Ann's history in the sample company: her two rows. *)
Lemma history_is_bounded_witness :
  exists rows,
    eval (get_employee_accruals 2 None) (Sample.world_at None no_data []) = Ok rows
    /\ Permutation rows Sample.ledger.
Proof.
  destruct (history_is_bounded (Sample.world_at None no_data []) 2 None eq_refl)
    as (rows & He & _ & _ & Hcap & _).
  exists rows. split; [exact He|].
  apply (proj2 (Hcap (or_introl eq_refl))). apply Nat.leb_le. reflexivity.
Defined.

(* ------------------------------------------------------------------ *)
(** ** Buttons are read back as they were written *)

Lemma space2_lead (c c1 : ascii) : PyStr.is_lead c = false -> PyStr.space2 c c1 = false.
Proof.
  unfold PyStr.is_lead, PyStr.space2. intros H. apply orb_false_iff in H.
  destruct H as [-> _]. reflexivity.
Qed.

Lemma space3_lead (c c1 c2 : ascii) :
  PyStr.is_lead c = false -> PyStr.space3 c c1 c2 = false.
Proof.
  unfold PyStr.is_lead, PyStr.space3. intros H. apply orb_false_iff in H.
  destruct H as [_ H].
  destruct (PyStr.code c =? 225) eqn:E1; [apply Z.eqb_eq in E1; rewrite E1 in H; discriminate|].
  destruct (PyStr.code c =? 226) eqn:E2; [apply Z.eqb_eq in E2; rewrite E2 in H; discriminate|].
  destruct (PyStr.code c =? 227) eqn:E3; [apply Z.eqb_eq in E3; rewrite E3 in H; discriminate|].
  reflexivity.
Qed.

Lemma starts_text_parts (c : ascii) :
  PyStr.starts_text c = true -> PyStr.is_space c = false /\ PyStr.is_lead c = false.
Proof.
  unfold PyStr.starts_text. intros H. apply andb_prop in H. destruct H as [H1 H2].
  apply negb_true_iff in H1, H2. split; assumption.
Qed.

(** A text whose first byte begins no white space is not cut on the left. *)
Lemma lstrip_head_kept (c : ascii) (r : string) :
  PyStr.starts_text c = true -> PyStr.lstrip (String c r) = String c r.
Proof.
  intros Hc. apply starts_text_parts in Hc. destruct Hc as [Hs Hl].
  cbn [PyStr.lstrip]. rewrite Hs.
  destruct r as [|c1 r1]; [reflexivity|]. rewrite (space2_lead c c1 Hl).
  destruct r1 as [|c2 r2]; [reflexivity|]. rewrite (space3_lead c c1 c2 Hl). reflexivity.
Qed.

Lemma rstrip_cons (c : ascii) (r : string) :
  PyStr.rstrip (String c r)
  = if PyStr.is_blank (String c r) then EmptyString else String c (PyStr.rstrip r).
Proof. reflexivity. Qed.

Lemma rstrip_cons_keep (c : ascii) (r : string) :
  PyStr.starts_text c = true -> PyStr.rstrip (String c r) = String c (PyStr.rstrip r).
Proof.
  intros Hc. rewrite rstrip_cons. unfold PyStr.is_blank.
  rewrite lstrip_head_kept by exact Hc. reflexivity.
Qed.

Lemma rstrip_all_kept (s : string) :
  Forall (fun c => PyStr.starts_text c = true) (list_ascii_of_string s) ->
  PyStr.rstrip s = s.
Proof.
  induction s as [|c r IH]; intros H; [reflexivity|].
  cbn in H. inversion H as [|? ? Hc Hr]; subst.
  rewrite rstrip_cons_keep by exact Hc. rewrite IH by exact Hr. reflexivity.
Qed.

Lemma strip_all_kept (s : string) :
  Forall (fun c => PyStr.starts_text c = true) (list_ascii_of_string s) ->
  PyStr.strip s = s.
Proof.
  intros H. unfold PyStr.strip. destruct s as [|c r]; [reflexivity|].
  cbn in H. pose proof (Forall_inv H) as Hc.
  rewrite lstrip_head_kept by exact Hc. apply rstrip_all_kept. exact H.
Qed.

Lemma before_first_cons (sep c : ascii) (r : string) :
  PyStr.before_first sep (String c r)
  = if Ascii.eqb c sep then EmptyString else String c (PyStr.before_first sep r).
Proof. reflexivity. Qed.

(** The text before the first colon survives the stripping of what
    follows. *)
Lemma before_first_rstrip (ds rest : string) :
  Forall (fun c => PyStr.starts_text c = true /\ Ascii.eqb c ":" = false)
         (list_ascii_of_string ds) ->
  PyStr.before_first ":" (PyStr.rstrip (ds ++ String ":" rest)) = ds.
Proof.
  induction ds as [|c r IH]; intros H.
  - cbn [append]. rewrite rstrip_cons_keep by reflexivity. apply before_first_cons.
  - cbn in H. inversion H as [|? ? [Hc1 Hc2] Hr]; subst.
    cbn [append]. rewrite rstrip_cons_keep by exact Hc1.
    rewrite before_first_cons, Hc2. rewrite IH by exact Hr. reflexivity.
Qed.

Lemma code_nat (c : ascii) : PyStr.code c = Z.of_nat (nat_of_ascii c).
Proof. unfold PyStr.code, nat_of_ascii. symmetry. apply N_nat_Z. Qed.

Lemma digit_or_minus_plain (c : ascii) :
  digit_or_minus c -> PyStr.starts_text c = true /\ Ascii.eqb c ":" = false.
Proof.
  intros [H| ->]; [|split; reflexivity].
  unfold PyStr.is_digit in H.
  apply andb_prop in H. destruct H as [H1 H2].
  apply Nat.leb_le in H1. apply Nat.leb_le in H2.
  split.
  - unfold PyStr.starts_text, PyStr.is_space, PyStr.is_lead. rewrite code_nat.
    cbv zeta.
    repeat match goal with
           | |- context [(?a <=? ?b)] =>
               let E := fresh "E" in
               destruct (a <=? b) eqn:E;
               [apply Z.leb_le in E|apply Z.leb_gt in E]
           | |- context [(?a =? ?b)] =>
               let E := fresh "E" in
               destruct (a =? b) eqn:E;
               [apply Z.eqb_eq in E|apply Z.eqb_neq in E]
           end; cbn; try reflexivity; lia.
  - destruct (Ascii.eqb c ":") eqn:E; [|reflexivity].
    apply Ascii.eqb_eq in E. subst c. cbn in H2. lia.
Qed.

Lemma string_of_uint_digits (d : Decimal.uint) :
  Forall digit_or_minus (list_ascii_of_string (NilEmpty.string_of_uint d)).
Proof.
  induction d; cbn; constructor; try assumption; left; reflexivity.
Qed.

(** [digitpart] reads the digits that [string_of_uint] writes. *)
Lemma digitpart_string_of_uint (d : Decimal.uint) :
  forall (b : bool) (acc : positive) (n : nat),
    exists m,
      PyStr.digitpart (NilEmpty.string_of_uint d) true (Z.pos acc) n
      = Some (Z.pos (Pos.of_uint_acc d acc), m).
Proof.
  induction d; intros b acc n; cbn [NilEmpty.string_of_uint PyStr.digitpart Pos.of_uint_acc];
    try (eexists; reflexivity).
  all: match goal with
       | |- context [PyStr.is_digit ?c] => change (PyStr.is_digit c) with true
       end;
       match goal with
       | |- context [PyStr.digit_val ?c] =>
           let v := eval vm_compute in (PyStr.digit_val c) in
           change (PyStr.digit_val c) with v
       end;
       cbv iota;
       match goal with
       | |- context [PyStr.digitpart _ true ?v ?k] =>
           match goal with
           | |- context [Pos.of_uint_acc _ ?p] =>
               replace v with (Z.pos p) by lia;
               match goal with IH : forall _ : bool, _ |- _ => apply (IH true p k) end
           end
       end.
Qed.

Lemma digitpart_string_of_uint_zero (d : Decimal.uint) :
  forall (b : bool) (n : nat),
    d <> Decimal.Nil \/ b = true ->
    exists m,
      PyStr.digitpart (NilEmpty.string_of_uint d) b 0 n
      = Some (Z.of_N (Pos.of_uint d), m).
Proof.
  induction d; intros b n Hd;
    cbn [NilEmpty.string_of_uint PyStr.digitpart Pos.of_uint].
  - destruct Hd as [Hd| ->]; [congruence|]. eexists. reflexivity.
  - cbn -[PyStr.digitpart Pos.of_uint]. apply (IHd true (S n)). right. reflexivity.
  - cbn -[PyStr.digitpart Pos.of_uint_acc]. apply (digitpart_string_of_uint d true 1%positive).
  - cbn -[PyStr.digitpart Pos.of_uint_acc]. apply (digitpart_string_of_uint d true 2%positive).
  - cbn -[PyStr.digitpart Pos.of_uint_acc]. apply (digitpart_string_of_uint d true 3%positive).
  - cbn -[PyStr.digitpart Pos.of_uint_acc]. apply (digitpart_string_of_uint d true 4%positive).
  - cbn -[PyStr.digitpart Pos.of_uint_acc]. apply (digitpart_string_of_uint d true 5%positive).
  - cbn -[PyStr.digitpart Pos.of_uint_acc]. apply (digitpart_string_of_uint d true 6%positive).
  - cbn -[PyStr.digitpart Pos.of_uint_acc]. apply (digitpart_string_of_uint d true 7%positive).
  - cbn -[PyStr.digitpart Pos.of_uint_acc]. apply (digitpart_string_of_uint d true 8%positive).
  - cbn -[PyStr.digitpart Pos.of_uint_acc]. apply (digitpart_string_of_uint d true 9%positive).
Qed.

Lemma Forall_digit_plain (s : string) :
  Forall digit_or_minus (list_ascii_of_string s) ->
  Forall (fun c => PyStr.starts_text c = true /\ Ascii.eqb c ":" = false)
         (list_ascii_of_string s).
Proof.
  intros H. eapply Forall_impl; [|exact H]. intros c. apply digit_or_minus_plain.
Qed.

Lemma Forall_digit_nonspace (s : string) :
  Forall digit_or_minus (list_ascii_of_string s) ->
  Forall (fun c => PyStr.starts_text c = true) (list_ascii_of_string s).
Proof.
  intros H. eapply Forall_impl; [|exact H]. intros c Hc.
  apply (digit_or_minus_plain c Hc).
Qed.

Lemma string_of_int_chars (z : Z) :
  Forall digit_or_minus (list_ascii_of_string (NilZero.string_of_int (Z.to_int z))).
Proof.
  destruct z as [|p|p]; cbn [Z.to_int NilZero.string_of_int].
  - cbn. constructor; [left; reflexivity|constructor].
  - unfold NilZero.string_of_uint.
    destruct (Pos.to_uint p) eqn:E; try (rewrite <- E; apply string_of_uint_digits).
    cbn. constructor; [left; reflexivity|constructor].
  - cbn [list_ascii_of_string]. constructor; [right; reflexivity|].
    unfold NilZero.string_of_uint.
    destruct (Pos.to_uint p) eqn:E; try (rewrite <- E; apply string_of_uint_digits).
    cbn. constructor; [left; reflexivity|constructor].
Qed.

Lemma string_of_uint_head (d : Decimal.uint) :
  d <> Decimal.Nil ->
  exists c r, NilEmpty.string_of_uint d = String c r /\ PyStr.is_digit c = true.
Proof. destruct d; intros H; try congruence; cbn; do 2 eexists; split; reflexivity. Qed.

Lemma split_sign_digit (c : ascii) (r : string) :
  PyStr.is_digit c = true -> PyStr.split_sign (String c r) = (false, String c r).
Proof.
  intros H. unfold PyStr.split_sign.
  destruct c as [[] [] [] [] [] [] [] []]; try reflexivity; discriminate H.
Qed.

(** [int()] reads a printed integer back. *)
Lemma py_int_string_of_int (z : Z) :
  PyStr.py_int (NilZero.string_of_int (Z.to_int z)) = Some z.
Proof.
  unfold PyStr.py_int.
  rewrite strip_all_kept by (apply Forall_digit_nonspace, string_of_int_chars).
  destruct z as [|p|p]; cbn [Z.to_int NilZero.string_of_int].
  - reflexivity.
  - unfold NilZero.string_of_uint.
    pose proof (DecimalPos.Unsigned.to_uint_nonnil p) as Hnn.
    assert (Heq : match Pos.to_uint p with
                  | Decimal.Nil => "0"
                  | _ => NilEmpty.string_of_uint (Pos.to_uint p)
                  end = NilEmpty.string_of_uint (Pos.to_uint p))
      by (destruct (Pos.to_uint p); congruence).
    rewrite Heq.
    destruct (string_of_uint_head _ Hnn) as (c & r & Hs & Hc).
    rewrite Hs, (split_sign_digit c r Hc), <- Hs.
    destruct (digitpart_string_of_uint_zero (Pos.to_uint p) false 0 (or_introl Hnn))
      as [m Hm].
    rewrite Hm, DecimalPos.Unsigned.of_to. reflexivity.
  - unfold NilZero.string_of_uint.
    pose proof (DecimalPos.Unsigned.to_uint_nonnil p) as Hnn.
    assert (Heq : match Pos.to_uint p with
                  | Decimal.Nil => "0"
                  | _ => NilEmpty.string_of_uint (Pos.to_uint p)
                  end = NilEmpty.string_of_uint (Pos.to_uint p))
      by (destruct (Pos.to_uint p); congruence).
    rewrite Heq. cbn [PyStr.split_sign].
    destruct (digitpart_string_of_uint_zero (Pos.to_uint p) false 0 (or_introl Hnn))
      as [m Hm].
    rewrite Hm, DecimalPos.Unsigned.of_to. reflexivity.
Qed.

Lemma string_of_int_nonempty (z : Z) :
  exists c r, NilZero.string_of_int (Z.to_int z) = String c r.
Proof.
  destruct z as [|p|p]; cbn [Z.to_int NilZero.string_of_int].
  - do 2 eexists. reflexivity.
  - unfold NilZero.string_of_uint. destruct (Pos.to_uint p); cbn; do 2 eexists; reflexivity.
  - do 2 eexists. reflexivity.
Qed.

(** The identifier is read back from the button of an employee, whatever the
    name on it. *)
Lemma employee_label_parses (e : employee) :
  PyStr.py_int (PyStr.before_first ":" (PyStr.strip (employee_label e))) = Some (emp_id e).
Proof.
  unfold employee_label, PyStr.strip.
  pose proof (string_of_int_chars (emp_id e)) as Hchars.
  destruct (string_of_int_nonempty (emp_id e)) as (c & r & Hs).
  assert (Hc : PyStr.starts_text c = true).
  { rewrite Hs in Hchars. cbn in Hchars. apply Forall_inv in Hchars.
    apply (digit_or_minus_plain c Hchars). }
  assert (Hl : PyStr.lstrip (NilZero.string_of_int (Z.to_int (emp_id e))
                             ++ ": " ++ full_name e)
               = (NilZero.string_of_int (Z.to_int (emp_id e)) ++ ": " ++ full_name e)%string).
  { rewrite Hs. cbn [append]. apply lstrip_head_kept. exact Hc. }
  rewrite Hl.
  change (": " ++ full_name e)%string with (String ":" (String " " (full_name e))).
  rewrite before_first_rstrip by (apply Forall_digit_plain; exact Hchars).
  apply py_int_string_of_int.
Qed.

(** X13.  The identifier of an employee is read back from the button that
    [accrual_start] makes for the employee, whatever the name: when a manager
    presses the button, [accrual_choose_employee] stores that identifier and
    asks for the amount. *)
Theorem accrual_button_selects_employee (w : world) (user_id : Z) (e : employee) :
  PyStr.py_int (PyStr.before_first ":" (PyStr.strip (employee_label e))) = Some (emp_id e)
  /\ (eval (get_user_role user_id) w = Ok ROLE_MANAGER ->
      data (exec (accrual_choose_employee user_id (employee_label e)) w)
      = put_employee_id (emp_id e) (data w)
      /\ state (exec (accrual_choose_employee user_id (employee_label e)) w)
         = Some Accrual_waiting_for_amount).
Proof.
  split; [apply employee_label_parses|].
  intros Hr. unfold accrual_choose_employee.
  match goal with |- context [require_role ?a ?h] =>
    destruct (require_role_run a h user_id (employee_label e) w)
      as (r' & w1 & Hrole & (S1 & T1 & D1 & _) & Hout & Hgate) end.
  unfold eval in Hr. rewrite Hrole in Hr. cbn in Hr. injection Hr as ->.
  unfold exec. rewrite Hgate. cbn. rewrite employee_label_parses. cbn.
  rewrite D1. split; reflexivity.
Qed.

(** The manager of the sample company presses Ann's button. *)
Lemma accrual_button_selects_employee_witness :
  d_employee_id (data (exec (accrual_choose_employee 10 (employee_label Sample.ann))
                            (Sample.world_at (Some Accrual_waiting_for_employee) no_data [])))
  = Some 2.
Proof.
  destruct (proj2 (accrual_button_selects_employee
                     (Sample.world_at (Some Accrual_waiting_for_employee) no_data [])
                     10 Sample.ann) eq_refl) as [Hd _].
  rewrite Hd. reflexivity.
Defined.

Lemma lstrip_length_below (n : nat) (s : string) :
  (String.length s <= n)%nat ->
  PyStr.lstrip s = s \/ (String.length (PyStr.lstrip s) < String.length s)%nat.
Proof.
  revert s. induction n as [|n IH]; intros s Hn.
  - destruct s; [left; reflexivity|cbn in Hn; lia].
  - destruct s as [|c r]; [left; reflexivity|].
    cbn [String.length] in Hn. cbn [PyStr.lstrip].
    destruct (PyStr.is_space c).
    { right. cbn [String.length]. destruct (IH r ltac:(lia)) as [-> | H]; lia. }
    destruct r as [|c1 r1]; [left; reflexivity|].
    cbn [String.length] in Hn.
    destruct (PyStr.space2 c c1).
    { right. cbn [String.length]. destruct (IH r1 ltac:(lia)) as [-> | H]; lia. }
    destruct r1 as [|c2 r2]; [left; reflexivity|].
    cbn [String.length] in Hn.
    destruct (PyStr.space3 c c1 c2); [|left; reflexivity].
    right. cbn [String.length]. destruct (IH r2 ltac:(lia)) as [-> | H]; lia.
Qed.

Lemma lstrip_length (s : string) :
  PyStr.lstrip s = s \/ (String.length (PyStr.lstrip s) < String.length s)%nat.
Proof. apply (lstrip_length_below (String.length s)). lia. Qed.

Lemma rstrip_length (s : string) :
  (String.length (PyStr.rstrip s) <= String.length s)%nat.
Proof.
  induction s as [|c r IH]; [reflexivity|].
  rewrite rstrip_cons. destruct (PyStr.is_blank (String c r)); cbn [String.length]; lia.
Qed.

(** A text that [strip] leaves alone has no white space at either end. *)
Lemma strip_fixed_parts (s : string) :
  PyStr.strip s = s -> PyStr.lstrip s = s /\ PyStr.rstrip s = s.
Proof.
  unfold PyStr.strip. intros H.
  assert (Hl : PyStr.lstrip s = s).
  { destruct (lstrip_length s) as [Hl|Hl]; [exact Hl|].
    pose proof (rstrip_length (PyStr.lstrip s)) as Hr. rewrite H in Hr. lia. }
  split; [exact Hl|]. rewrite Hl in H. exact H.
Qed.

(** A text that [rstrip] leaves alone and that is not empty is not blank. *)
Lemma rstrip_fixed_not_blank (name : string) :
  PyStr.rstrip name = name -> name <> EmptyString -> PyStr.is_blank name = false.
Proof.
  destruct name as [|c r]; [congruence|]. intros H _.
  rewrite rstrip_cons in H. destruct (PyStr.is_blank (String c r)); [discriminate|reflexivity].
Qed.

(** Bytes that begin no white space of two or three bytes, put before a text
    that is not blank, give a text that is not blank. *)
Lemma not_blank_app (pre name : string) :
  Forall (fun c => PyStr.is_lead c = false) (list_ascii_of_string pre) ->
  PyStr.is_blank name = false ->
  PyStr.is_blank (pre ++ name) = false.
Proof.
  intros Hpre Hn. induction pre as [|c r IH]; [exact Hn|].
  cbn in Hpre. inversion Hpre as [|? ? Hc Hr]; subst.
  specialize (IH Hr). unfold PyStr.is_blank in *.
  cbn [append PyStr.lstrip].
  destruct (PyStr.is_space c); [exact IH|].
  destruct (r ++ name)%string as [|c1 r1]; [reflexivity|].
  rewrite (space2_lead c c1 Hc).
  destruct r1 as [|c2 r2]; [reflexivity|].
  rewrite (space3_lead c c1 c2 Hc). reflexivity.
Qed.

Lemma rstrip_app_fixed (pre name : string) :
  Forall (fun c => PyStr.is_lead c = false) (list_ascii_of_string pre) ->
  PyStr.rstrip name = name -> name <> EmptyString ->
  PyStr.rstrip (pre ++ name) = (pre ++ name)%string.
Proof.
  intros Hpre Hn Hne. induction pre as [|c r IH]; [exact Hn|].
  cbn [append]. rewrite rstrip_cons.
  change (String c (r ++ name)) with (String c r ++ name)%string.
  rewrite (not_blank_app (String c r) name Hpre (rstrip_fixed_not_blank name Hn Hne)).
  cbn in Hpre. inversion Hpre as [|? ? Hc Hr]; subst.
  rewrite (IH Hr). reflexivity.
Qed.

(** A label that starts with a glyph is left alone by [strip] when the name
    at its end is not blank. *)
Lemma strip_label_fixed (c : ascii) (r name : string) :
  PyStr.starts_text c = true ->
  Forall (fun c => PyStr.is_lead c = false) (list_ascii_of_string r) ->
  PyStr.strip name = name -> name <> EmptyString ->
  PyStr.strip (String c (r ++ name)) = String c (r ++ name).
Proof.
  intros Hc Hr Hn Hne. unfold PyStr.strip. rewrite lstrip_head_kept by exact Hc.
  apply (rstrip_app_fixed (String c r) name); [| |exact Hne].
  - cbn. constructor; [apply (starts_text_parts c Hc)|exact Hr].
  - apply strip_fixed_parts. exact Hn.
Qed.

Lemma strip_space_name (name : string) :
  PyStr.strip name = name -> PyStr.strip (String " " name) = name.
Proof.
  intros H. unfold PyStr.strip in *.
  change (PyStr.lstrip (String " " name)) with (PyStr.lstrip name). exact H.
Qed.

(** The name of an employee is read back from the badge button: the lookup
    strips the badge and the space. *)
Lemma badge_label_cleans (e : employee) :
  PyStr.replace "👤" EmptyString (full_name e) = full_name e ->
  PyStr.replace "👔" EmptyString (full_name e) = full_name e ->
  PyStr.strip (full_name e) = full_name e ->
  PyStr.strip (PyStr.replace "👔" EmptyString
                 (PyStr.replace "👤" EmptyString (badge_label e)))
  = full_name e.
Proof.
  unfold PyStr.replace, badge_label. intros H1 H2 H3.
  destruct (role e); cbn -[PyStr.strip]; rewrite ?H1, ?H2;
    cbn -[PyStr.strip]; rewrite ?H1, ?H2; apply strip_space_name; exact H3.
Qed.

(* ------------------------------------------------------------------ *)
(** ** Runs without store failure *)

Lemma no_faults_nth (w : world) :
  no_faults w -> forall n, hd false (Nat.iter n (@tl bool) (faults w)) = false.
Proof.
  unfold no_faults. intros H n.
  assert (G : forall l, existsb (fun b => b) l = false ->
                        existsb (fun b => b) (Nat.iter n (@tl bool) l) = false).
  { induction n as [|n IH]; intros l Hl; [exact Hl|].
    specialize (IH l Hl). change (Nat.iter (S n) (@tl bool) l) with (tl (Nat.iter n (@tl bool) l)).
    destruct (Nat.iter n (@tl bool) l) as [|[] t]; simpl in *; try discriminate; auto. }
  specialize (G _ H). destruct (Nat.iter n (@tl bool) (faults w)) as [|[] t]; simpl in *;
    try discriminate; auto.
Qed.

(** Side conditions [store_ready] of the worlds met along a run. *)
Ltac ready H :=
  unfold store_ready; cbn [faults with_faults with_log with_store with_state with_data
                             with_outbox];
  first [ exact (H 0%nat) | exact (H 1%nat) | exact (H 2%nat) | exact (H 3%nat)
        | exact (H 4%nat) | exact (H 5%nat) | exact (H 6%nat) | exact (H 7%nat) ].

Lemma get_user_role_step (w : world) (user_id : Z) :
  store_ready w ->
  ~ In user_id (superadmins w) ->
  get_user_role user_id w
  = (Ok (match bound_role user_id (store w) with
         | Some RoleManager => ROLE_MANAGER
         | Some RoleEmployee => ROLE_EMPLOYEE
         | None => ROLE_UNKNOWN
         end),
     with_faults (tl (faults w)) w).
Proof.
  unfold store_ready. intros Hr Hn.
  unfold get_user_role, bind, get_world, try_except, get_db, bound_role.
  rewrite (existsb_Zeqb_not_In _ _ Hn), Hr. cbn.
  destruct (find _ _) as [r|]; [|reflexivity]. cbn. destruct (role r); reflexivity.
Qed.

Lemma get_departments_step (w : world) :
  store_ready w ->
  get_departments w
  = (Ok (order_by (fun a b => dept_id a <=? dept_id b) (departments (store w))),
     with_faults (tl (faults w)) w).
Proof.
  unfold store_ready. intros Hr. unfold get_departments, try_except, bind, get_db, ret.
  rewrite Hr. reflexivity.
Qed.

Lemma get_manager_departments_step (w : world) (user_id : Z) :
  store_ready w ->
  get_manager_departments user_id w
  = (Ok (distinct (manager_scope user_id (store w)) []), with_faults (tl (faults w)) w).
Proof.
  unfold store_ready. intros Hr.
  unfold get_manager_departments, try_except, bind, get_db, ret, manager_scope.
  rewrite Hr. reflexivity.
Qed.

Lemma get_department_employees_step (w : world) (dept : Z) :
  store_ready w ->
  get_department_employees dept w
  = (Ok (order_by (fun a b => String.leb (full_name a) (full_name b))
           (filter (fun r => (department_id r =? dept) && (is_active r =? 1))
                   (employees (store w)))),
     with_faults (tl (faults w)) w).
Proof.
  unfold store_ready. intros Hr.
  unfold get_department_employees, try_except, bind, get_db, ret. rewrite Hr. reflexivity.
Qed.

Lemma get_employee_balance_step (w : world) (emp : Z) :
  store_ready w ->
  get_employee_balance emp w
  = (Ok (balance_query emp (store w)), with_faults (tl (faults w)) w).
Proof.
  unfold store_ready. intros Hr.
  unfold get_employee_balance, try_except, bind, get_db, ret. rewrite Hr. reflexivity.
Qed.

Lemma get_employee_salary_step (w : world) (emp : Z) :
  store_ready w ->
  exists s, get_employee_salary emp w = (Ok s, with_faults (tl (faults w)) w).
Proof.
  unfold store_ready. intros Hr.
  unfold get_employee_salary, try_except, bind, get_db, ret. rewrite Hr. cbn.
  destruct (find _ _) as [row|]; [|eexists; reflexivity].
  destruct (salary row) as [s|]; [|eexists; reflexivity].
  destruct (is_zero s); eexists; reflexivity.
Qed.

Lemma get_employee_accruals_step (w : world) (emp : Z) (per : option string) :
  store_ready w ->
  exists rows, get_employee_accruals emp per w = (Ok rows, with_faults (tl (faults w)) w).
Proof.
  unfold store_ready. intros Hr.
  unfold get_employee_accruals, try_except, bind, get_db, ret. rewrite Hr. cbn.
  destruct per as [[|c p]|]; eexists; reflexivity.
Qed.

Lemma find_ext_eq {A} (p q : A -> bool) (l : list A) :
  (forall x, p x = q x) -> find p l = find q l.
Proof.
  intros H. induction l as [|x l IH]; simpl; [reflexivity|].
  rewrite H, IH. reflexivity.
Qed.

(** The query of [get_employee_by_name] for a cleaned name and a scope. *)
Lemma get_employee_by_name_step (w : world) (name : string) (scope : option Z) :
  store_ready w ->
  get_employee_by_name name scope w
  = (Ok (find (fun r =>
                 String.eqb (full_name r)
                   (PyStr.strip (PyStr.replace "👔" EmptyString
                                   (PyStr.replace "👤" EmptyString name)))
                 && match truthy_id scope with
                    | Some d => department_id r =? d
                    | None => true
                    end
                 && (is_active r =? 1))
              (employees (store w))),
     with_faults (tl (faults w)) w).
Proof.
  unfold store_ready. intros Hr.
  unfold get_employee_by_name, try_except, bind, get_db, ret. rewrite Hr.
  cbv beta iota.
  destruct scope as [d|]; cbn [truthy_id]; [destruct (d =? 0)|];
    (f_equal; f_equal; apply find_ext_eq; intros r; rewrite ?andb_true_r; reflexivity).
Qed.

Lemma find_the_one {A} (p : A -> bool) (l : list A) (x : A) :
  In x l -> p x = true -> (forall y, In y l -> p y = true -> y = x) ->
  find p l = Some x.
Proof.
  intros Hin Hp Huniq. destruct (find p l) as [y|] eqn:E.
  - apply find_some in E. destruct E as [Hy Hpy]. rewrite (Huniq y Hy Hpy). reflexivity.
  - pose proof (find_none _ _ E x Hin). congruence.
Qed.

(** The world after the role of the sender has been read, when no store
    failure is scheduled. *)
Lemma get_user_role_clean (w : world) (user_id : Z) (r : user_role) :
  no_faults w ->
  eval (get_user_role user_id) w = Ok r ->
  exists w1,
    get_user_role user_id w = (Ok r, w1)
    /\ no_faults w1 /\ frame w w1 /\ outbox w1 = outbox w /\ log w1 = log w.
Proof.
  intros Hnf Hr.
  destruct (in_dec Z.eq_dec user_id (superadmins w)) as [Hin|Hout].
  - unfold eval in Hr. rewrite (get_user_role_superadmin w user_id Hin) in *.
    cbn in Hr. injection Hr as <-.
    exists w. split; [reflexivity|]. split; [exact Hnf|].
    split; [apply frame_refl|]. split; reflexivity.
  - unfold eval in Hr.
    rewrite (get_user_role_step w user_id (no_faults_ready w Hnf) Hout) in *.
    cbn in Hr. injection Hr as <-.
    eexists. split; [reflexivity|].
    split; [exact (no_faults_tl w (with_faults (tl (faults w)) w) Hnf eq_refl)|].
    repeat split.
Qed.

(** X14.  When a super-administrator or a manager presses the badge button of
    an employee, no store failure being scheduled, [show_employee_card] finds
    the active employee with that name, within the pinned department if one is
    pinned and in the whole company otherwise; if the name carries no badge
    glyph and no outer white space and no other such employee bears it, the
    employee becomes the pinned one and the card shows that employee with the
    balance of the ledger; the tables and the state stay as they are. *)
Theorem card_button_pins_employee
    (w : world) (user_id : Z) (r : user_role) (e : employee) :
  no_faults w ->
  eval (get_user_role user_id) w = Ok r ->
  is_staff r = true ->
  In e (employees (store w)) ->
  is_active e = 1 ->
  (forall d, truthy_id (d_current_department_id (data w)) = Some d -> department_id e = d) ->
  PyStr.replace "👤" EmptyString (full_name e) = full_name e ->
  PyStr.replace "👔" EmptyString (full_name e) = full_name e ->
  PyStr.strip (full_name e) = full_name e ->
  (forall e',
     In e' (employees (store w)) -> is_active e' = 1 -> full_name e' = full_name e ->
     (forall d, truthy_id (d_current_department_id (data w)) = Some d ->
                department_id e' = d) ->
     e' = e) ->
  data (exec (show_employee_card user_id (badge_label e)) w)
  = put_current_employee_id (emp_id e) (data w)
  /\ store (exec (show_employee_card user_id (badge_label e)) w) = store w
  /\ state (exec (show_employee_card user_id (badge_label e)) w) = state w
  /\ exists c,
       outbox (exec (show_employee_card user_id (badge_label e)) w)
       = (outbox w ++ [{| text := MsgCard c; markup := KbCard r |}])%list
       /\ card_employee c = e
       /\ card_balance c = balance_query (emp_id e) (store w).
Proof.
  intros Hnf Hrole Hstaff Hin Hact Hscope Hc1 Hc2 Hc3 Huniq.
  destruct (get_user_role_clean w user_id r Hnf Hrole)
    as (w1 & Hrun & Hnf1 & (S1 & T1 & D1 & _) & O1 & _).
  pose proof (no_faults_nth w1 Hnf1) as H.
  unfold exec, show_employee_card, bind. rewrite Hrun. cbv beta iota.
  rewrite Hstaff. cbn [negb]. unfold get_data. cbv beta iota.
  rewrite get_employee_by_name_step by ready H. cbv beta iota.
  rewrite (badge_label_cleans e Hc1 Hc2 Hc3).
  rewrite (find_the_one _ _ e).
  - cbv beta iota. unfold update_data. cbv beta iota.
    match goal with |- context [get_employee_salary ?i ?x] =>
      destruct (get_employee_salary_step x i) as [s Hs]; [ready H|] end.
    rewrite Hs. cbv beta iota.
    rewrite get_employee_balance_step by ready H. cbv beta iota.
    match goal with |- context [get_employee_accruals ?i ?p ?x] =>
      destruct (get_employee_accruals_step x i p) as [rows Hrows]; [ready H|] end.
    rewrite Hrows. cbv beta iota. unfold answer.
    cbn [fst snd data store state outbox with_faults with_data with_outbox].
    rewrite S1, T1, D1, O1. repeat split.
    eexists. split; [reflexivity|]. split; reflexivity.
  - rewrite S1. exact Hin.
  - rewrite String.eqb_refl, Hact. cbn. rewrite D1.
    destruct (truthy_id (d_current_department_id (data w))) as [d|] eqn:E; [|reflexivity].
    rewrite (Hscope d eq_refl). rewrite Z.eqb_refl. reflexivity.
  - intros y Hy Hp. rewrite S1 in Hy.
    apply andb_prop in Hp. destruct Hp as [Hp Ha]. apply andb_prop in Hp.
    destruct Hp as [Hn Hd]. apply String.eqb_eq in Hn. apply Z.eqb_eq in Ha.
    apply (Huniq y Hy Ha Hn). intros d Hd'. rewrite D1, Hd' in Hd.
    apply Z.eqb_eq. exact Hd.
Qed.

(** The manager of the sample company, with no pinned department, presses
    the button of Petrov, who works in another department. *)
Lemma card_button_pins_employee_witness :
  d_current_employee_id
    (data (exec (show_employee_card 10 (badge_label Sample.petrov))
                (Sample.world_at None no_data [])))
  = Some 3.
Proof.
  destruct (card_button_pins_employee (Sample.world_at None no_data []) 10 ROLE_MANAGER
              Sample.petrov eq_refl eq_refl eq_refl
              (or_intror (or_intror (or_introl eq_refl))) eq_refl) as (Hd & _).
  - intros d Hd. discriminate Hd.
  - reflexivity.
  - reflexivity.
  - reflexivity.
  - cbn. intros e' [<-|[<-|[<-|[]]]] _ Hn _; try reflexivity; discriminate Hn.
  - rewrite Hd. reflexivity.
Defined.

(* ------------------------------------------------------------------ *)
(** ** Department buttons *)

Lemma department_label_glyph (d : department) :
  department_label d = (department_glyph d ++ " " ++ dept_name d)%string.
Proof.
  unfold department_label, department_glyph.
  destruct (dept_emoji d) as [[|c e]|]; reflexivity.
Qed.

Lemma strip_glyph_label (c1 c2 c3 c4 : ascii) (name : string) :
  PyStr.starts_text c1 = true ->
  PyStr.strip name = name -> name <> EmptyString ->
  PyStr.is_lead c2 = false -> PyStr.is_lead c3 = false -> PyStr.is_lead c4 = false ->
  PyStr.strip (String c1 (String c2 (String c3 (String c4 (String " " name)))))
  = String c1 (String c2 (String c3 (String c4 (String " " name)))).
Proof.
  intros Hc Hn Hne H2 H3 H4.
  refine (strip_label_fixed c1 (String c2 (String c3 (String c4 (String " " EmptyString))))
            name Hc _ Hn Hne).
  cbn. repeat constructor; assumption.
Qed.

(** The name of a department is read back from its button, when the glyph is
    one of the known ones and the name carries no such glyph and no outer
    white space. *)
Lemma department_label_cleans (g name : string) :
  In g department_emojis ->
  (forall e, In e department_emojis -> PyStr.replace e EmptyString name = name) ->
  PyStr.strip name = name ->
  department_name_of_text (g ++ " " ++ name) = name.
Proof.
  intros Hg Hclean Hstrip.
  destruct name as [|n0 nr] eqn:En.
  - cbn in Hg.
    destruct Hg as [<-|[<-|[<-|[<-|[<-|[<-|[<-|[]]]]]]]]; reflexivity.
  - rewrite <- En in *.
    assert (Hne : name <> EmptyString) by (rewrite En; discriminate).
    clear En n0 nr.
    pose proof (Hclean _ (or_introl eq_refl)) as H1.
    pose proof (Hclean _ (or_intror (or_introl eq_refl))) as H2.
    pose proof (Hclean _ (or_intror (or_intror (or_introl eq_refl)))) as H3.
    pose proof (Hclean _ (or_intror (or_intror (or_intror (or_introl eq_refl))))) as H4.
    pose proof (Hclean _ (or_intror (or_intror (or_intror (or_intror (or_introl eq_refl))))))
      as H5.
    pose proof (Hclean _ (or_intror (or_intror (or_intror (or_intror (or_intror
                  (or_introl eq_refl))))))) as H6.
    pose proof (Hclean _ (or_intror (or_intror (or_intror (or_intror (or_intror
                  (or_intror (or_introl eq_refl)))))))) as H7.
    unfold PyStr.replace in H1, H2, H3, H4, H5, H6, H7.
    unfold department_name_of_text, department_emojis, PyStr.replace.
    cbn in Hg.
    destruct Hg as [<-|[<-|[<-|[<-|[<-|[<-|[<-|[]]]]]]]];
      cbn -[PyStr.strip];
      repeat (rewrite ?H1, ?H2, ?H3, ?H4, ?H5, ?H6, ?H7;
              rewrite ?(strip_glyph_label "240"%char _ _ _ name eq_refl Hstrip Hne)
                by reflexivity;
              rewrite ?(strip_space_name name Hstrip), ?Hstrip;
              cbn -[PyStr.strip]);
      reflexivity.
Qed.

Lemma NoDup_map_inj {A B} (f : A -> B) (l : list A) (x y : A) :
  NoDup (map f l) -> In x l -> In y l -> f x = f y -> x = y.
Proof.
  induction l as [|z l IH]; intros Hnd Hx Hy Hf; [contradiction|].
  cbn in Hnd. inversion Hnd as [|? ? Hz Hl]; subst.
  destruct Hx as [->|Hx], Hy as [->|Hy].
  - reflexivity.
  - exfalso. apply Hz. rewrite Hf. apply in_map. exact Hy.
  - exfalso. apply Hz. rewrite <- Hf. apply in_map. exact Hx.
  - apply IH; assumption.
Qed.

Lemma find_department_by_name (ds : list department) (d : department) :
  In d ds -> NoDup (map dept_name ds) ->
  find (fun x => String.eqb (dept_name x) (dept_name d))
       (order_by (fun a b => dept_id a <=? dept_id b) ds)
  = Some d.
Proof.
  intros Hin Hnd. apply find_the_one.
  - apply In_order_by. exact Hin.
  - apply String.eqb_refl.
  - intros y Hy Hp. apply In_order_by in Hy. apply String.eqb_eq in Hp.
    exact (NoDup_map_inj dept_name ds y d Hnd Hy Hin Hp).
Qed.

Lemma add_employee_ok (w : world) (name : string) (dept : Z) (pos : option string) :
  store_ready w ->
  add_employee (Some name) dept "employee" pos None w
  = (Ok tt,
     with_log (log w ++ [{| lvl := INFO; origin := "add_employee"; cause := None |}])
       (with_store (db_add_employee (store w) name None dept RoleEmployee pos)
          (with_faults (tl (faults w)) w))).
Proof.
  unfold store_ready. intros Hr.
  unfold add_employee, try_except, bind, get_db, commit, logging. rewrite Hr. reflexivity.
Qed.

(** X15.  When a super-administrator who is adding an employee presses the
    button of a department, no store failure being scheduled, the department
    names being unique and the button showing a known glyph and a name free of
    glyphs and outer white space, [add_employee_finish_superadmin] adds one
    active employee to that very department, with the collected name and
    position, the role tag employee, no Telegram binding and the salary 0, and
    clears the conversation. *)
Theorem department_button_places_employee
    (w : world) (user_id : Z) (d : department) (name : string) :
  In user_id (superadmins w) ->
  no_faults w ->
  In d (departments (store w)) ->
  NoDup (map dept_name (departments (store w))) ->
  dept_id d <> 0 ->
  In (department_glyph d) department_emojis ->
  (forall e, In e department_emojis ->
             PyStr.replace e EmptyString (dept_name d) = dept_name d) ->
  PyStr.strip (dept_name d) = dept_name d ->
  d_full_name (data w) = Some name ->
  department_name_of_text (department_label d) = dept_name d
  /\ store (exec (add_employee_finish_superadmin user_id (department_label d)) w)
     = db_add_employee (store w) name None (dept_id d) RoleEmployee (d_position (data w))
  /\ state (exec (add_employee_finish_superadmin user_id (department_label d)) w) = None
  /\ data (exec (add_employee_finish_superadmin user_id (department_label d)) w) = no_data.
Proof.
  intros Hadmin Hnf Hin Hnd Hid Hg Hclean Hstrip Hname.
  assert (Hlabel : department_name_of_text (department_label d) = dept_name d).
  { rewrite department_label_glyph. apply department_label_cleans; assumption. }
  split; [exact Hlabel|].
  pose proof (no_faults_nth w Hnf) as H.
  unfold exec, add_employee_finish_superadmin, require_role, bind.
  rewrite (get_user_role_superadmin w user_id Hadmin). cbn [existsb user_role_eqb orb negb].
  cbv beta iota. unfold get_data. cbv beta iota.
  rewrite get_departments_step by ready H. cbv beta iota.
  rewrite Hlabel, (find_department_by_name _ d Hin Hnd).
  cbn [option_map truthy_id].
  destruct (dept_id d =? 0) eqn:E; [apply Z.eqb_eq in E; contradiction|].
  unfold try_except, bind. rewrite Hname.
  rewrite add_employee_ok by ready H. cbv beta iota.
  unfold clear, superadmin_main_kb, bind. cbv beta iota.
  rewrite get_departments_step by ready H. cbv beta iota.
  cbn. repeat split.
Qed.

(** User 1 places a new employee through the button of department Ops. *)
Lemma department_button_places_employee_witness :
  map department_id
      (employees (store (exec (add_employee_finish_superadmin 1 (department_label Sample.ops))
                              (Sample.world_at (Some AddEmployee_waiting_for_department)
                                 (put_position "clerk" (put_full_name "Nina" no_data)) []))))
  = [1; 1; 2; 2].
Proof.
  destruct (department_button_places_employee
              (Sample.world_at (Some AddEmployee_waiting_for_department)
                 (put_position "clerk" (put_full_name "Nina" no_data)) [])
              1 Sample.ops "Nina" (or_introl eq_refl) eq_refl
              (or_intror (or_introl eq_refl))) as (_ & Hs & _).
  - cbn. repeat constructor; cbn; intuition discriminate.
  - discriminate.
  - cbn. tauto.
  - cbn. intros e [<-|[<-|[<-|[<-|[<-|[<-|[<-|[]]]]]]]]; reflexivity.
  - reflexivity.
  - reflexivity.
  - rewrite Hs. reflexivity.
Defined.

(* ------------------------------------------------------------------ *)
(** ** The role gate *)

(** X16.  For every handler behind [require_role]: a sender whose role is not
    one of the handler's roles gets the refusal as the only reply, and the
    tables, the state and the data of the conversation are as before. *)
Theorem gate_refuses
    (a : action) (allowed : list user_role) (w : world) (user_id : Z) (txt : string)
    (r : user_role) :
  gate a = Some allowed ->
  eval (get_user_role user_id) w = Ok r ->
  existsb (user_role_eqb r) allowed = false ->
  store (exec (run a user_id txt) w) = store w
  /\ state (exec (run a user_id txt) w) = state w
  /\ data (exec (run a user_id txt) w) = data w
  /\ outbox (exec (run a user_id txt) w)
     = (outbox w ++ [{| text := MsgNoAccess; markup := KbUnchanged |}])%list.
Proof.
  intros Hgate Hrole Hnot.
  destruct a; cbn [gate] in Hgate; try discriminate; injection Hgate as <-;
    cbn [run];
    unfold superadmin_add_department_start, superadmin_add_department_finish,
      add_employee_start, add_employee_enter_position, add_employee_choose_department,
      add_employee_finish_superadmin, superadmin_all_employees, manager_my_employees,
      superadmin_view_department, accrual_start, accrual_choose_employee,
      accrual_enter_amount, accrual_finish, employee_balance, give_advance, give_salary;
    match goal with |- context [require_role ?al ?h] =>
      destruct (require_role_run al h user_id txt w)
        as (r' & w1 & Hrun & (S1 & T1 & D1 & _) & Hout & Hg) end;
    unfold eval in Hrole; rewrite Hrun in Hrole; cbn in Hrole; injection Hrole as ->;
    unfold exec; rewrite Hg, Hnot; cbn; rewrite S1, T1, D1, Hout; repeat split.
Qed.

(** The employee of the sample company (user 20) asks for the advance
    button. *)
Lemma gate_refuses_witness :
  outbox (exec (give_advance 20 "advance") (Sample.world_at None (Sample.pinned 2) []))
  = [{| text := MsgNoAccess; markup := KbUnchanged |}].
Proof.
  destruct (gate_refuses AGiveAdvance [ROLE_SUPERADMIN]
              (Sample.world_at None (Sample.pinned 2) []) 20 "advance" ROLE_EMPLOYEE
              eq_refl eq_refl eq_refl) as (_ & _ & _ & Ho).
  exact Ho.
Defined.

(** X17.  While the directory cannot be read, every handler behind
    [require_role] refuses every sender who is not on the allow-list of
    super-administrators, manager or employee alike, and changes nothing; the
    failure is logged. *)
Theorem gate_closed_while_store_fails
    (a : action) (allowed : list user_role) (w : world) (user_id : Z) (txt : string) :
  gate a = Some allowed ->
  ~ In user_id (superadmins w) ->
  store_failing w ->
  store (exec (run a user_id txt) w) = store w
  /\ state (exec (run a user_id txt) w) = state w
  /\ data (exec (run a user_id txt) w) = data w
  /\ outbox (exec (run a user_id txt) w)
     = (outbox w ++ [{| text := MsgNoAccess; markup := KbUnchanged |}])%list
  /\ log (exec (run a user_id txt) w)
     = (log w ++ [{| lvl := ERROR; origin := "get_user_role";
                     cause := Some OperationalError |}])%list.
Proof.
  unfold store_failing. intros Hgate Hout Hfail.
  assert (Hrun : get_user_role user_id w
                 = (Ok ROLE_UNKNOWN,
                    with_log (log w ++ [{| lvl := ERROR; origin := "get_user_role";
                                           cause := Some OperationalError |}])
                      (with_faults (tl (faults w)) w))).
  { unfold get_user_role, bind, get_world, try_except, get_db, logging.
    rewrite (existsb_Zeqb_not_In _ _ Hout), Hfail. reflexivity. }
  destruct a; cbn [gate] in Hgate; try discriminate; injection Hgate as <-;
    cbn [run];
    unfold superadmin_add_department_start, superadmin_add_department_finish,
      add_employee_start, add_employee_enter_position, add_employee_choose_department,
      add_employee_finish_superadmin, superadmin_all_employees, manager_my_employees,
      superadmin_view_department, accrual_start, accrual_choose_employee,
      accrual_enter_amount, accrual_finish, employee_balance, give_advance, give_salary,
      exec, require_role, bind;
    rewrite Hrun; cbn; repeat split.
Qed.

(** The manager of the sample company opens the accrual flow while the store
    fails. *)
Lemma gate_closed_while_store_fails_witness :
  outbox (exec (accrual_start 10 "accrue") (Sample.world_at None no_data [true]))
  = [{| text := MsgNoAccess; markup := KbUnchanged |}].
Proof.
  destruct (gate_closed_while_store_fails AAccrualStart [ROLE_MANAGER]
              (Sample.world_at None no_data [true]) 10 "accrue" eq_refl) as (_ & _ & _ & Ho & _).
  - intros [H|[]]. discriminate H.
  - reflexivity.
  - exact Ho.
Defined.

(** X18.  The handlers that check the role themselves: for a sender who is
    neither super-administrator nor manager, the employee button and the three
    card buttons that start the salary, bonus and deduction flows send no
    reply at all and leave the tables and the conversation as they are. *)
Theorem card_buttons_silent_for_others
    (a : action) (w : world) (user_id : Z) (txt : string) (r : user_role) :
  In a [AShowEmployeeCard; AChangeSalaryStart; AAddBonusStart; AAddDeductionStart] ->
  eval (get_user_role user_id) w = Ok r ->
  is_staff r = false ->
  store (exec (run a user_id txt) w) = store w
  /\ state (exec (run a user_id txt) w) = state w
  /\ data (exec (run a user_id txt) w) = data w
  /\ outbox (exec (run a user_id txt) w) = outbox w.
Proof.
  intros Ha Hrole Hstaff.
  destruct (get_user_role_run w user_id) as (r' & w1 & Hrun & (S1 & T1 & D1 & _) & Hout).
  unfold eval in Hrole. rewrite Hrun in Hrole. cbn in Hrole. injection Hrole as ->.
  cbn in Ha. destruct Ha as [<-|[<-|[<-|[<-|[]]]]]; cbn [run];
    unfold exec, show_employee_card, change_salary_start, add_bonus_start,
      add_deduction_start, bind;
    rewrite Hrun, Hstaff; cbn; auto.
Qed.

(** The employee of the sample company (user 20) sends the text of the bonus
    button. *)
Lemma card_buttons_silent_for_others_witness :
  outbox (exec (add_bonus_start 20 "bonus") (Sample.world_at None (Sample.pinned 2) [])) = []
  /\ state (exec (add_bonus_start 20 "bonus") (Sample.world_at None (Sample.pinned 2) []))
     = None.
Proof.
  destruct (card_buttons_silent_for_others AAddBonusStart
              (Sample.world_at None (Sample.pinned 2) [])
              20 "bonus" ROLE_EMPLOYEE
              (or_intror (or_intror (or_introl eq_refl))) eq_refl eq_refl)
    as (_ & Hs & _ & Ho).
  split; [exact Ho|exact Hs].
Defined.

(* ------------------------------------------------------------------ *)
(** ** The employee's own balance *)

(** X19.  [employee_balance] for a sender who is bound to an active employee
    row with the role tag employee and is not a super-administrator, no store
    failure being scheduled: the only reply shows that row with the balance of
    its own identifier; nothing is written and the conversation is as
    before. *)
Theorem employee_sees_own_balance (w : world) (user_id : Z) (txt : string) (row : employee) :
  ~ In user_id (superadmins w) ->
  no_faults w ->
  find (fun r => opt_Z_eqb (telegram_user_id r) user_id && (is_active r =? 1))
       (employees (store w)) = Some row ->
  role row = RoleEmployee ->
  outbox (exec (employee_balance user_id txt) w)
  = (outbox w ++ [{| text := MsgOwnBalance row (balance_query (emp_id row) (store w));
                     markup := KbEmployeeMain |}])%list
  /\ store (exec (employee_balance user_id txt) w) = store w
  /\ state (exec (employee_balance user_id txt) w) = state w
  /\ data (exec (employee_balance user_id txt) w) = data w.
Proof.
  intros Hout Hnf Hfind Hrole.
  pose proof (no_faults_nth w Hnf) as H.
  unfold exec, employee_balance, require_role, bind.
  rewrite get_user_role_step by (try ready H; exact Hout).
  unfold bound_role. rewrite Hfind. cbn [option_map]. rewrite Hrole.
  cbn [existsb user_role_eqb orb negb]. cbv beta iota.
  unfold try_except, bind, get_db. cbv beta iota.
  cbn [faults with_faults store].
  rewrite (H 1%nat : hd false (tl (faults w)) = false). cbv beta iota.
  rewrite Hfind.
  rewrite get_employee_balance_step by ready H.
  cbn. repeat split.
Qed.

(** Ann (user 20) asks for her balance in the sample company: 8000. *)
Lemma employee_sees_own_balance_witness :
  exists b,
    outbox (exec (employee_balance 20 "balance") (Sample.world_at None no_data []))
    = [{| text := MsgOwnBalance Sample.ann b; markup := KbEmployeeMain |}]
    /\ b = 8000%float.
Proof.
  destruct (employee_sees_own_balance (Sample.world_at None no_data []) 20 "balance"
              Sample.ann) as (Ho & _).
  - intros [H|[]]. discriminate H.
  - reflexivity.
  - reflexivity.
  - reflexivity.
  - eexists. split; [exact Ho|]. reflexivity.
Defined.

(* ------------------------------------------------------------------ *)
(** ** Adding to the directory *)

Lemma add_department_ok (w : world) (name emoji : string) :
  store_ready w ->
  existsb (fun x => String.eqb (dept_name x) name) (departments (store w)) = false ->
  add_department name emoji w
  = (Ok (next_rowid (map dept_id (departments (store w))) (seq_departments (store w))),
     with_log (log w ++ [{| lvl := INFO; origin := "add_department"; cause := None |}])
       (with_store (db_add_department (store w) name emoji)
          (with_faults (tl (faults w)) w))).
Proof.
  unfold store_ready. intros Hr Hnew.
  unfold add_department, try_except, bind, get_db, commit, logging, ret.
  rewrite Hr. cbv beta iota. rewrite Hnew. reflexivity.
Qed.

Lemma existsb_app_last {A} (p : A -> bool) (l : list A) (x : A) :
  p x = true -> existsb p (l ++ [x]) = true.
Proof.
  intros H. rewrite existsb_app. cbn. rewrite H. apply orb_true_iff. right. reflexivity.
Qed.

(** X20.  A super-administrator commits the AddDepartment flow with a name
    that no department has yet, no store failure being scheduled: one
    department with a fresh identifier, the stripped name and an empty glyph
    is added, the conversation is cleared, and the main keyboard sent with the
    confirmation lists the new department.  Sending the same text once more
    changes nothing in the tables and is answered with the uniqueness
    error. *)
Theorem new_department_is_listed_once (w : world) (user_id : Z) (txt : string) :
  In user_id (superadmins w) ->
  no_faults w ->
  PyStr.strip txt <> EmptyString ->
  existsb (fun x => String.eqb (dept_name x) (PyStr.strip txt)) (departments (store w))
  = false ->
  store (exec (superadmin_add_department_finish user_id txt) w)
  = db_add_department (store w) (PyStr.strip txt) EmptyString
  /\ state (exec (superadmin_add_department_finish user_id txt) w) = None
  /\ data (exec (superadmin_add_department_finish user_id txt) w) = no_data
  /\ (exists ds,
        outbox (exec (superadmin_add_department_finish user_id txt) w)
        = (outbox w ++ [{| text := MsgDepartmentAdded (PyStr.strip txt);
                           markup := KbSuperadminMain ds |}])%list
        /\ exists d, In d ds /\ dept_name d = PyStr.strip txt)
  /\ store (exec (superadmin_add_department_finish user_id txt)
                 (exec (superadmin_add_department_finish user_id txt) w))
     = store (exec (superadmin_add_department_finish user_id txt) w)
  /\ exists kb,
       outbox (exec (superadmin_add_department_finish user_id txt)
                    (exec (superadmin_add_department_finish user_id txt) w))
       = (outbox (exec (superadmin_add_department_finish user_id txt) w)
          ++ [{| text := MsgDepartmentError
                           (IntegrityError "UNIQUE constraint failed: departments.name");
                 markup := kb |}])%list.
Proof.
  intros Hadmin Hnf Hne Hnew.
  pose proof (no_faults_nth w Hnf) as H.
  assert (Hfirst :
            superadmin_add_department_finish user_id txt w
            = (Ok tt,
               with_outbox
                 (outbox w ++
                    [{| text := MsgDepartmentAdded (PyStr.strip txt);
                        markup := KbSuperadminMain
                                    (order_by (fun a b => dept_id a <=? dept_id b)
                                       (departments (db_add_department (store w)
                                                       (PyStr.strip txt) EmptyString))) |}])
                 (with_faults (tl (tl (faults w)))
                    (with_data no_data
                       (with_state None
                          (with_log (log w ++ [{| lvl := INFO; origin := "add_department";
                                                  cause := None |}])
                             (with_store (db_add_department (store w) (PyStr.strip txt)
                                            EmptyString)
                                (with_faults (tl (faults w)) w)))))))).
  { unfold superadmin_add_department_finish, require_role, bind.
    rewrite (get_user_role_superadmin w user_id Hadmin).
    cbn [existsb user_role_eqb orb negb]. cbv beta iota.
    rewrite (is_empty_false _ Hne). unfold try_except, bind.
    rewrite add_department_ok by (try ready H; exact Hnew). cbv beta iota.
    unfold clear, superadmin_main_kb, bind. cbv beta iota.
    rewrite get_departments_step by ready H. reflexivity. }
  unfold exec at 1 2 3 4. rewrite Hfirst. cbn [snd store state data outbox with_outbox
    with_faults with_data with_state with_log with_store].
  split; [reflexivity|]. split; [reflexivity|]. split; [reflexivity|].
  split.
  { eexists. split; [reflexivity|].
    eexists. split; [apply In_order_by; cbn [db_add_department departments];
                     apply in_or_app; right; left; reflexivity|reflexivity]. }
  unfold exec. rewrite Hfirst. cbn [snd].
  match goal with |- context [superadmin_add_department_finish user_id txt ?x] =>
    set (w' := x) end.
  assert (Hdup : existsb (fun x => String.eqb (dept_name x) (PyStr.strip txt))
                   (departments (store w')) = true).
  { cbn. apply existsb_app_last. apply String.eqb_refl. }
  assert (Hready : store_ready w') by (subst w'; ready H).
  destruct (add_department_duplicate w' (PyStr.strip txt) EmptyString Hdup)
    as (e & Hadd & He).
  rewrite (He Hready) in Hadd.
  unfold superadmin_add_department_finish, require_role, bind.
  rewrite (get_user_role_superadmin w' user_id Hadmin).
  cbn [existsb user_role_eqb orb negb]. cbv beta iota.
  rewrite (is_empty_false _ Hne). unfold try_except, bind. rewrite Hadd.
  match goal with |- context [superadmin_main_kb ?x] =>
    destruct (superadmin_main_kb_run x) as (kb & w2 & Hkb & (S2 & _) & O2) end.
  rewrite Hkb. cbn. rewrite S2, O2. split; [reflexivity|].
  exists kb. reflexivity.
Qed.

(** User 1 adds the department Depot to the sample company; the text
    begins with a no-break space (U+00A0) and ends with a space. *)
Lemma new_department_is_listed_once_witness :
  map dept_name
      (departments (store (exec (superadmin_add_department_finish 1 " Depot ")
                                (Sample.world_at (Some AddDepartment_waiting_for_name)
                                   no_data []))))
  = ["Sales"; "Ops"; "Depot"].
Proof.
  assert (Hne : PyStr.strip " Depot " <> EmptyString) by (vm_compute; discriminate).
  destruct (new_department_is_listed_once
              (Sample.world_at (Some AddDepartment_waiting_for_name) no_data [])
              1 " Depot " (or_introl eq_refl) eq_refl Hne eq_refl) as (Hs & _).
  rewrite Hs. reflexivity.
Defined.

(** X21.  A manager adds an employee in two steps, name and position, no
    store failure being scheduled: after the second step the employees table
    has one more row, an active employee of the first department that the
    manager administers, with the stripped name and position, the role tag
    employee, no Telegram binding and the salary 0; the conversation is
    cleared; and the list of that department then contains the new
    employee. *)
Theorem manager_adds_to_own_department
    (w : world) (user_id : Z) (name_txt pos_txt : string) (d0 : Z) (rest : list Z) :
  ~ In user_id (superadmins w) ->
  bound_role user_id (store w) = Some RoleManager ->
  distinct (manager_scope user_id (store w)) [] = d0 :: rest ->
  no_faults w ->
  PyStr.strip name_txt <> EmptyString ->
  PyStr.strip pos_txt <> EmptyString ->
  store (exec (add_employee_choose_department user_id pos_txt)
              (exec (add_employee_enter_position user_id name_txt) w))
  = db_add_employee (store w) (PyStr.strip name_txt) None d0 RoleEmployee
      (Some (PyStr.strip pos_txt))
  /\ state (exec (add_employee_choose_department user_id pos_txt)
                 (exec (add_employee_enter_position user_id name_txt) w)) = None
  /\ data (exec (add_employee_choose_department user_id pos_txt)
                (exec (add_employee_enter_position user_id name_txt) w)) = no_data
  /\ exists es new,
       eval (get_department_employees d0)
            (with_faults []
               (exec (add_employee_choose_department user_id pos_txt)
                     (exec (add_employee_enter_position user_id name_txt) w)))
       = Ok es
       /\ In new es
       /\ full_name new = PyStr.strip name_txt
       /\ telegram_user_id new = None
       /\ role new = RoleEmployee.
Proof.
  intros Hout Hrole Hscope Hnf Hn Hp.
  pose proof (no_faults_nth w Hnf) as H.
  assert (Hfirst :
            exec (add_employee_enter_position user_id name_txt) w
            = with_outbox (outbox w ++ [{| text := MsgAskPosition; markup := KbUnchanged |}])
                (with_state (Some AddEmployee_waiting_for_position)
                   (with_data (put_full_name (PyStr.strip name_txt) (data w))
                      (with_faults (tl (faults w)) w)))).
  { unfold exec, add_employee_enter_position, require_role, bind.
    rewrite get_user_role_step by (try ready H; exact Hout). rewrite Hrole.
    cbn [existsb user_role_eqb orb negb]. cbv beta iota.
    rewrite (is_empty_false _ Hn). reflexivity. }
  rewrite Hfirst.
  match goal with |- context [exec _ ?x] => set (w1 := x) end.
  assert (Out1 : ~ In user_id (superadmins w1)) by exact Hout.
  assert (Hsecond :
            store (exec (add_employee_choose_department user_id pos_txt) w1)
            = db_add_employee (store w) (PyStr.strip name_txt) None d0 RoleEmployee
                (Some (PyStr.strip pos_txt))
            /\ state (exec (add_employee_choose_department user_id pos_txt) w1) = None
            /\ data (exec (add_employee_choose_department user_id pos_txt) w1) = no_data).
  { unfold exec, add_employee_choose_department, require_role, bind.
    rewrite get_user_role_step by (try (subst w1; ready H); exact Out1).
    change (store w1) with (store w). rewrite Hrole.
    cbn [existsb user_role_eqb orb negb]. cbv beta iota.
    rewrite get_user_role_step by (try (subst w1; ready H); exact Out1).
    cbn [store with_faults]. change (store w1) with (store w). rewrite Hrole.
    cbv beta iota. rewrite (is_empty_false _ Hp).
    unfold update_data, get_data. cbv beta iota.
    cbn [user_role_eqb].
    rewrite get_manager_departments_step by (subst w1; ready H).
    cbn [store with_faults with_data]. change (store w1) with (store w).
    rewrite Hscope. cbv beta iota.
    unfold try_except, bind.
    cbn [data with_data with_faults d_full_name put_position].
    change (d_full_name (data w1)) with (Some (PyStr.strip name_txt)).
    rewrite add_employee_ok by (subst w1; ready H).
    cbn. repeat split. }
  destruct Hsecond as (Hs & Ht & Hd).
  split; [exact Hs|]. split; [exact Ht|]. split; [exact Hd|].
  unfold eval. rewrite get_department_employees_step by reflexivity.
  cbn [fst store with_faults]. rewrite Hs.
  eexists. eexists. split; [reflexivity|].
  split.
  { apply In_order_by. apply filter_In. split.
    - cbn [db_add_employee employees]. apply in_or_app. right. left. reflexivity.
    - cbn. rewrite Z.eqb_refl. reflexivity. }
  repeat split.
Qed.

(** The manager of the sample company adds Olga, a cashier; the name is
    sent with a no-break space (U+00A0) after it. *)
Lemma manager_adds_to_own_department_witness :
  map full_name
      (employees
         (store (exec (add_employee_choose_department 10 "cashier")
                      (exec (add_employee_enter_position 10 " Olga ")
                            (Sample.world_at (Some AddEmployee_waiting_for_full_name)
                               no_data [])))))
  = ["Boss"; "Ann"; "Petrov"; "Olga"].
Proof.
  assert (Hn : PyStr.strip " Olga " <> EmptyString) by (vm_compute; discriminate).
  assert (Hp : PyStr.strip "cashier" <> EmptyString) by (vm_compute; discriminate).
  assert (Hout : ~ In 10 (superadmins
                            (Sample.world_at (Some AddEmployee_waiting_for_full_name)
                               no_data [])))
    by (intros [H|[]]; discriminate H).
  destruct (manager_adds_to_own_department
              (Sample.world_at (Some AddEmployee_waiting_for_full_name) no_data [])
              10 " Olga " "cashier" 1 [] Hout eq_refl eq_refl eq_refl Hn Hp) as (Hs & _).
  rewrite Hs. reflexivity.
Defined.

(* ------------------------------------------------------------------ *)
(** ** Amounts stay positive *)

Lemma preserves_bind (I : world -> Prop) {A B} (m : M A) (k : A -> M B) :
  preserves I m -> (forall a, preserves I (k a)) -> preserves I (bind m k).
Proof.
  intros Hm Hk w Hw. unfold bind. specialize (Hm w Hw).
  destruct (m w) as [[a|e] w1]; simpl in *; [|exact Hm].
  apply Hk. exact Hm.
Qed.

Lemma preserves_try (I : world -> Prop) {A} (m : M A) (h : exn -> M A) :
  preserves I m -> (forall e, preserves I (h e)) -> preserves I (try_except m h).
Proof.
  intros Hm Hh w Hw. unfold try_except. specialize (Hm w Hw).
  destruct (m w) as [[a|e] w1]; simpl in *; [exact Hm|].
  apply Hh. exact Hm.
Qed.

(** What follows the reading of the data may rely on the amounts that it
    holds. *)
Lemma preserves_get_data {B} (k : fsm_data -> M B) :
  (forall d, data_positive d -> preserves amounts_positive (k d)) ->
  preserves amounts_positive (bind get_data k).
Proof.
  intros Hk w Hw. unfold bind, get_data. apply Hk; [exact (proj2 Hw)|exact Hw].
Qed.

Lemma preserves_same {A} (m : M A) :
  (forall w, map amount (accruals (store (snd (m w)))) = map amount (accruals (store w))
             /\ data (snd (m w)) = data w) ->
  preserves amounts_positive m.
Proof.
  intros H w [Hl Hd]. destruct (H w) as [El Ed]. split; [rewrite El|rewrite Ed]; assumption.
Qed.

Lemma preserves_quiet {A} (m : M A) : quiet m -> preserves amounts_positive m.
Proof.
  intros H. apply preserves_same. intros w. destruct (H w) as (-> & _ & -> & _).
  split; reflexivity.
Qed.

Lemma preserves_clear : preserves amounts_positive clear.
Proof.
  intros w [Hl _]. split; [exact Hl|].
  repeat split; intros a Ha; discriminate Ha.
Qed.

Lemma preserves_put_amount (a : float) :
  (0 <? a)%float = true -> preserves amounts_positive (update_data (put_amount a)).
Proof.
  intros Ha w (Hl & H1 & H2 & H3). split; [exact Hl|].
  repeat split; cbn; [intros x Hx; injection Hx as <-; exact Ha|exact H2|exact H3].
Qed.

Lemma preserves_put_bonus_amount (a : float) :
  (0 <? a)%float = true -> preserves amounts_positive (update_data (put_bonus_amount a)).
Proof.
  intros Ha w (Hl & H1 & H2 & H3). split; [exact Hl|].
  repeat split; cbn; [exact H1|intros x Hx; injection Hx as <-; exact Ha|exact H3].
Qed.

Lemma preserves_put_deduction_amount (a : float) :
  (0 <? a)%float = true -> preserves amounts_positive (update_data (put_deduction_amount a)).
Proof.
  intros Ha w (Hl & H1 & H2 & H3). split; [exact Hl|].
  repeat split; cbn; [exact H1|exact H2|intros x Hx; injection Hx as <-; exact Ha].
Qed.

Lemma preserves_put_other (f : fsm_data -> fsm_data) :
  (forall d, d_amount (f d) = d_amount d /\ d_bonus_amount (f d) = d_bonus_amount d
             /\ d_deduction_amount (f d) = d_deduction_amount d) ->
  preserves amounts_positive (update_data f).
Proof.
  intros Hf w (Hl & H1 & H2 & H3). split; [exact Hl|].
  destruct (Hf (data w)) as (E1 & E2 & E3).
  repeat split; cbn; [rewrite E1|rewrite E2|rewrite E3]; assumption.
Qed.

(** The insert takes the amount as it is given: a positive one keeps the
    ledger positive. *)
Lemma preserves_add_accrual employee_id amt kind_tag c by_ :
  (forall a, amt = Some a -> is_nan a = false -> (0 <? a)%float = true) ->
  preserves amounts_positive (add_accrual employee_id amt kind_tag c by_).
Proof.
  intros Ha w [Hl Hd].
  unfold add_accrual, try_except, bind, get_db, get_world, commit, logging, raise.
  destruct (hd false (faults w)); cbn; [split; assumption|].
  destruct employee_id as [emp|]; cbn; [|split; assumption].
  destruct amt as [a|]; cbn; [|split; assumption].
  unfold sql_real. destruct (is_nan a) eqn:Hnan; cbn; [split; assumption|].
  destruct (kind_of_string kind_tag) as [k|]; cbn; [|split; assumption].
  split; [cbn|exact Hd].
  rewrite map_app. apply Forall_app. split; [exact Hl|].
  constructor; [|constructor]. cbn. apply Ha; [reflexivity|exact Hnan].
Qed.

Lemma preserves_add_department name emoji :
  preserves amounts_positive (add_department name emoji).
Proof.
  apply preserves_same. intros w.
  unfold add_department, try_except, bind, get_db, commit, logging, raise, ret.
  destruct (hd false (faults w)); cbn; [split; reflexivity|].
  destruct (existsb _ _); cbn; split; reflexivity.
Qed.

Lemma preserves_add_employee name dept role_tag pos tg :
  preserves amounts_positive (add_employee name dept role_tag pos tg).
Proof.
  apply preserves_same. intros w.
  unfold add_employee, try_except, bind, get_db, commit, logging, raise.
  destruct (hd false (faults w)); cbn; [split; reflexivity|].
  destruct name as [n|]; cbn; [|split; reflexivity].
  destruct (emp_role_of_string role_tag) as [r|]; cbn; [|split; reflexivity].
  destruct tg as [t|]; cbn; [|split; reflexivity].
  destruct (existsb _ _); cbn; split; reflexivity.
Qed.

Lemma preserves_set_employee_salary emp s :
  preserves amounts_positive (set_employee_salary emp s).
Proof.
  apply preserves_same. intros w.
  unfold set_employee_salary, try_except, bind, get_db, commit, logging, raise.
  destruct (hd false (faults w)); cbn; split; reflexivity.
Qed.

Lemma preserves_update_last_period p emp :
  preserves amounts_positive (update_last_period p emp).
Proof.
  apply preserves_same. intros w.
  unfold update_last_period, bind, get_db, commit.
  destruct (hd false (faults w)); cbn; [split; reflexivity|].
  split; [|reflexivity].
  rewrite map_map. apply map_ext. intros r.
  destruct (opt_Z_eqb _ _); reflexivity.
Qed.

Lemma truthy_amount_positive (d : fsm_data) (key : fsm_data -> option float) (a : float) :
  (forall x, key d = Some x -> (0 <? x)%float = true) ->
  truthy_amount (key d) = Some a -> (0 <? a)%float = true.
Proof.
  intros H. unfold truthy_amount. destruct (key d) as [v|]; [|discriminate].
  destruct (is_zero v); [discriminate|]. intros E. injection E as <-. apply H. reflexivity.
Qed.

(** The amount of an insert is positive for one of the reasons that the
    handlers give: it was validated, it is a balance found positive, it is
    the fixed advance, or it comes from the data. *)
Ltac amount_is_positive :=
  let x := fresh "x" in
  let Hx := fresh "Hx" in
  let Hnan := fresh "Hnan" in
  intros x Hx Hnan;
  first
    [ injection Hx as <-; reflexivity
    | injection Hx as <-;
      match goal with
      | H : (?b <=? 0)%float = false |- _ =>
          destruct (not_leb_zero b H); [assumption|congruence]
      end
    | injection Hx as <-;
      match goal with
      | H : validate_amount _ = Some ?a |- _ =>
          exact (validate_amount_above _ _ H)
      end
    | injection Hx as <-;
      match goal with
      | Hd : data_positive ?d, H : truthy_amount (?key ?d) = Some _ |- _ =>
          apply (truthy_amount_positive d key); [|exact H];
          first [exact (proj1 Hd) | exact (proj1 (proj2 Hd)) | exact (proj2 (proj2 Hd))]
      end
    | match goal with
      | Hd : data_positive ?d |- _ =>
          first [exact (proj1 Hd x Hx) | exact (proj1 (proj2 Hd) x Hx)
                | exact (proj2 (proj2 Hd) x Hx)]
      end ].

Ltac amount_is_positive_now :=
  match goal with
  | H : validate_amount _ = Some ?a |- _ => exact (validate_amount_above _ _ H)
  end.

Ltac positive_step :=
  match goal with
  | |- preserves _ (bind get_data _) => apply preserves_get_data; intros ? ?
  | |- preserves _ (bind _ _) => apply preserves_bind; [|intros ?]
  | |- preserves _ (try_except _ _) => apply preserves_try; [|intros ?]
  | |- preserves _ (add_accrual _ _ _ _ _) =>
      apply preserves_add_accrual; amount_is_positive
  | |- preserves _ (add_department _ _) => apply preserves_add_department
  | |- preserves _ (add_employee _ _ _ _ _) => apply preserves_add_employee
  | |- preserves _ (set_employee_salary _ _) => apply preserves_set_employee_salary
  | |- preserves _ (update_last_period _ _) => apply preserves_update_last_period
  | |- preserves _ clear => apply preserves_clear
  | |- preserves _ (update_data (put_amount _)) =>
      apply preserves_put_amount; amount_is_positive_now
  | |- preserves _ (update_data (put_bonus_amount _)) =>
      apply preserves_put_bonus_amount; amount_is_positive_now
  | |- preserves _ (update_data (put_deduction_amount _)) =>
      apply preserves_put_deduction_amount; amount_is_positive_now
  | |- preserves _ (update_data _) =>
      apply preserves_put_other; intros; repeat split; reflexivity
  | |- preserves _ (get_user_role _) => apply preserves_quiet, quiet_get_user_role
  | |- preserves _ get_departments => apply preserves_quiet, quiet_get_departments
  | |- preserves _ superadmin_main_kb => apply preserves_quiet, quiet_superadmin_main_kb
  | |- preserves _ (get_manager_departments _) =>
      apply preserves_quiet, quiet_get_manager_departments
  | |- preserves _ (get_department_employees _) =>
      apply preserves_quiet, quiet_get_department_employees
  | |- preserves _ (employees_of_departments _) =>
      apply preserves_quiet, quiet_employees_of_departments
  | |- preserves _ (employees_per_department _) =>
      apply preserves_quiet, quiet_employees_per_department
  | |- preserves _ (employees_by_department _) =>
      apply preserves_quiet, quiet_employees_by_department
  | |- preserves _ (get_employee_balance _) =>
      apply preserves_quiet, quiet_get_employee_balance
  | |- preserves _ (get_employee_salary _) => apply preserves_quiet, quiet_get_employee_salary
  | |- preserves _ (get_employee_accruals _ _) =>
      apply preserves_quiet, quiet_get_employee_accruals
  | |- preserves _ (get_employee_by_name _ _) =>
      apply preserves_quiet, quiet_get_employee_by_name
  | |- preserves _ (show_updated_card _ _) =>
      apply preserves_quiet, quiet_show_updated_card
  | |- preserves _ (match ?x with _ => _ end) => destruct x eqn:?
  | |- preserves _ _ => apply preserves_same; intros; split; reflexivity
  end.

(** X22.  Positive amounts are an invariant of the handlers: when every row
    of the ledger has a positive amount and every amount held by the
    conversation is positive, the same is true after any handler has run, on
    any text, for any user and under any schedule of store failures. *)
Theorem handlers_keep_amounts_positive
    (a : action) (user_id : Z) (txt : string) (w : world) :
  amounts_positive w -> amounts_positive (exec (run a user_id txt) w).
Proof.
  revert w. change (preserves amounts_positive (run a user_id txt)).
  destruct a; cbn [run];
    unfold superadmin_add_department_start, superadmin_add_department_finish,
      add_employee_start, add_employee_enter_position, add_employee_choose_department,
      add_employee_finish_superadmin, superadmin_all_employees, manager_my_employees,
      superadmin_view_department, back_to_main, accrual_start, accrual_choose_employee,
      accrual_enter_amount, accrual_finish, employee_balance, show_employee_card,
      back_to_employee_list, give_advance, give_salary, change_salary_start,
      change_salary_finish, add_bonus_start, add_bonus_comment, add_bonus_finish,
      add_deduction_start, add_deduction_comment, add_deduction_finish,
      adjustment_finish, require_role;
    repeat positive_step.
Qed.

(** The ledger of the sample company is positive; so it is after the advance
    given to employee 2. *)
Lemma handlers_keep_amounts_positive_witness :
  amounts_positive (exec (run AGiveAdvance 1 "advance")
                         (Sample.world_at None (Sample.pinned 2) [])).
Proof.
  apply (handlers_keep_amounts_positive AGiveAdvance 1 "advance"
           (Sample.world_at None (Sample.pinned 2) [])).
  split.
  - cbn. repeat constructor.
  - repeat split; intros a Ha; discriminate Ha.
Defined.

(* ------------------------------------------------------------------ *)
(** ** The initial import *)

Lemma keys_ok_add_department (d : db) (name emoji : string) :
  existsb (fun x => String.eqb (dept_name x) name) (departments d) = false ->
  keys_ok d -> keys_ok (db_add_department d name emoji).
Proof.
  intros Hnew (H1 & H2 & H3 & H4 & H5 & H6 & H7). unfold keys_ok.
  cbn [db_add_department departments employees accruals seq_departments seq_employees
         seq_accruals].
  rewrite !map_app. cbn [map dept_id dept_name].
  split; [apply NoDup_snoc; [exact H1|apply next_rowid_fresh]|].
  split; [apply NoDup_snoc; [exact H2|apply not_In_names; exact Hnew]|].
  repeat (split; [assumption|]).
  split; [apply next_rowid_covers|]. split; assumption.
Qed.

Lemma keys_ok_add_employee (d : db) name tg dept r pos :
  keys_ok d -> keys_ok (db_add_employee d name tg dept r pos).
Proof.
  intros (H1 & H2 & H3 & H4 & H5 & H6 & H7). unfold keys_ok.
  cbn [db_add_employee departments employees accruals seq_departments seq_employees
         seq_accruals].
  rewrite !map_app. cbn [map emp_id].
  repeat (split; [assumption|]).
  split; [apply NoDup_snoc; [exact H3|apply next_rowid_fresh]|].
  split; [exact H4|]. split; [exact H5|]. split; [apply next_rowid_covers|exact H7].
Qed.

Lemma keys_ok_insert_employees r dept rows (d : db) :
  keys_ok d -> keys_ok (insert_employees r dept rows d).
Proof.
  unfold insert_employees. revert d.
  induction rows as [|row rows IH]; intros d H; cbn [fold_left]; [exact H|].
  apply IH. apply keys_ok_add_employee. exact H.
Qed.

Lemma keys_ok_insert_departments rows (d d' : db) ids ids' :
  insert_departments rows d ids = Ok (d', ids') -> keys_ok d -> keys_ok d'.
Proof.
  revert d ids. induction rows as [|[name emoji] rows IH]; intros d ids; cbn [insert_departments].
  - intros E. injection E as <- _. auto.
  - unfold insert_department. destruct (existsb _ _) eqn:Hnew; [discriminate|].
    intros E Hk. apply (IH _ _ E). apply keys_ok_add_department; assumption.
Qed.

Lemma keys_ok_import_employees ids (d : db) : keys_ok d -> keys_ok (import_employees ids d).
Proof.
  intros H. unfold import_employees. cbv zeta.
  repeat apply keys_ok_insert_employees. exact H.
Qed.

Lemma staffed_refl depts (d : db) : staffed depts 0 d d.
Proof.
  repeat (split; [reflexivity|]). exists []. rewrite app_nil_r.
  repeat split. constructor.
Qed.

Lemma staffed_trans depts n m (a b c : db) :
  staffed depts n a b -> staffed depts m b c -> staffed depts (n + m) a c.
Proof.
  intros (A1 & A2 & A3 & A4 & na & Ae & Al & Af) (B1 & B2 & B3 & B4 & nb & Be & Bl & Bf).
  split; [congruence|]. split; [congruence|]. split; [congruence|]. split; [congruence|].
  exists (na ++ nb)%list. split; [rewrite Be, Ae, app_assoc; reflexivity|].
  split; [rewrite length_app; congruence|].
  apply Forall_app. split; assumption.
Qed.

Lemma staffed_insert_employees depts r dept rows (d : db) :
  In dept depts -> staffed depts (List.length rows) d (insert_employees r dept rows d).
Proof.
  intros Hin. unfold insert_employees. revert d.
  induction rows as [|row rows IH]; intros d; cbn [fold_left List.length].
  - apply staffed_refl.
  - change (S (List.length rows)) with (1 + List.length rows)%nat.
    eapply staffed_trans; [|apply IH].
    repeat (split; [reflexivity|]). eexists. split; [reflexivity|].
    split; [reflexivity|]. constructor; [|constructor]. cbn. auto.
Qed.

(** The departments of an empty table: all six names are new, and each key
    that the second part looks up is the key of one of them. *)
Lemma insert_departments_fresh (d : db) :
  departments d = [] ->
  exists d' ids,
    insert_departments import_departments d [] = Ok (d', ids)
    /\ map dept_name (departments d') = map fst import_departments
    /\ map dept_emoji (departments d') = map (fun x => Some (snd x)) import_departments
    /\ employees d' = employees d
    /\ accruals d' = accruals d
    /\ Forall (fun name => In (dict_get name ids) (map dept_id (departments d')))
         (map fst import_departments).
Proof.
  destruct d as [ds es acs sd se sa]. cbn [departments]. intros ->.
  eexists. eexists. split; [cbv -[next_rowid]; reflexivity|].
  cbv -[next_rowid]. repeat (split; [reflexivity|]).
  repeat (apply Forall_cons; [auto 10|]). apply Forall_nil.
Qed.

Lemma staffed_step depts n r dept rows (a b : db) :
  In dept depts ->
  staffed depts n a b ->
  staffed depts (n + List.length rows) a (insert_employees r dept rows b).
Proof.
  intros Hin H. eapply staffed_trans; [exact H|]. apply staffed_insert_employees. exact Hin.
Qed.

Lemma staffed_import_employees depts ids (d : db) :
  Forall (fun name => In (dict_get name ids) depts) (map fst import_departments) ->
  staffed depts 55 d (import_employees ids d).
Proof.
  intros H. rewrite Forall_forall in H.
  assert (Hin : forall name, In name (map fst import_departments) ->
                             In (dict_get name ids) depts) by exact H.
  change 55%nat
    with (0 + List.length employees_vykup + 1 + List.length employees_sales
          + List.length employees_warehouse + List.length employees_pr + 1
          + List.length employees_razbor + List.length employees_buh)%nat.
  unfold import_employees. cbv zeta.
  repeat (apply staffed_step; [apply Hin; cbn; auto 10|]).
  apply staffed_refl.
Qed.

Lemma import_employees_tables ids (d : db) :
  departments (import_employees ids d) = departments d
  /\ accruals (import_employees ids d) = accruals d.
Proof.
  destruct (staffed_import_employees
              (map (fun name => dict_get name ids) (map fst import_departments)) ids d)
    as (Hd & Ha & _).
  - apply Forall_forall. intros name Hin.
    apply (in_map (fun name => dict_get name ids)). exact Hin.
  - split; assumption.
Qed.

Lemma nonempty_count {A} (l : list A) : l <> [] -> (0 <? Z.of_nat (List.length l)) = true.
Proof. destruct l; [congruence|]. intros _. cbn [List.length]. apply Z.ltb_lt. lia. Qed.

(** The import leaves a directory that has a department alone. *)
Lemma import_skips (w : world) :
  departments (store w) <> [] -> store (exec import_company_structure w) = store w.
Proof.
  intros H. unfold exec, import_company_structure, bind, get_db, logging.
  destruct (hd false (faults w)); [reflexivity|].
  cbn [store with_faults]. rewrite (nonempty_count _ H). reflexivity.
Qed.

Lemma import_fails (w : world) :
  store_failing w -> store (exec import_company_structure w) = store w.
Proof.
  unfold store_failing. intros H.
  unfold exec, import_company_structure, bind, get_db. rewrite H. reflexivity.
Qed.

(** On a directory without departments the import commits both parts. *)
Lemma import_commits (w : world) :
  store_ready w ->
  departments (store w) = [] ->
  exists d' ids,
    insert_departments import_departments (store w) [] = Ok (d', ids)
    /\ store (exec import_company_structure w) = import_employees ids d'.
Proof.
  unfold store_ready. intros Hr He.
  destruct (insert_departments_fresh (store w) He) as (d' & ids & Hins & _).
  exists d', ids. split; [exact Hins|].
  unfold exec, import_company_structure, bind, get_db, logging, commit. rewrite Hr.
  cbn [store with_faults]. rewrite He. cbn [List.length Z.of_nat Z.ltb Z.compare].
  cbn [store with_log with_faults]. rewrite Hins. reflexivity.
Qed.

Lemma store_ready_or_failing (w : world) : store_ready w \/ store_failing w.
Proof. unfold store_ready, store_failing. destruct (hd false (faults w)); auto. Qed.

(** X23.  The import runs once: when the store can be used, a second run of
    [import_company_structure] right after the first leaves the tables as the
    first run left them, whatever they held before. *)
Theorem import_runs_once (w : world) :
  store_ready w ->
  store (exec import_company_structure (exec import_company_structure w))
  = store (exec import_company_structure w).
Proof.
  intros Hr.
  destruct (store_ready_or_failing (exec import_company_structure w)) as [Hr2|Hf2];
    [|apply import_fails; exact Hf2].
  apply import_skips.
  destruct (departments (store w)) as [|x ds] eqn:He.
  - destruct (import_commits w Hr He) as (d' & ids & Hins & ->).
    destruct (insert_departments_fresh (store w) He) as (d2 & ids2 & Hins2 & Hn & _).
    rewrite Hins in Hins2. injection Hins2 as <- <-.
    rewrite (proj1 (import_employees_tables ids d')).
    intros E. rewrite E in Hn. discriminate Hn.
  - rewrite import_skips by (rewrite He; discriminate). rewrite He. discriminate.
Qed.

(** The empty store, opened by user 1. *)
Lemma import_runs_once_witness :
  map dept_name
      (departments
         (store (exec import_company_structure
                      (exec import_company_structure
                            (with_store empty_db (Sample.world_at None no_data []))))))
  = map fst import_departments.
Proof.
  rewrite (import_runs_once (with_store empty_db (Sample.world_at None no_data []))
             eq_refl).
  reflexivity.
Defined.

(** X24.  On a directory without departments, the store being usable, the
    import creates the six departments of the code, in its order and with
    its glyphs, and adds 55 employees after those already there: each is
    active, bound to no Telegram identifier and placed in one of the new
    departments.  The ledger is not touched. *)
Theorem import_fills_empty_directory (w : world) :
  store_ready w ->
  departments (store w) = [] ->
  map dept_name (departments (store (exec import_company_structure w)))
  = map fst import_departments
  /\ map dept_emoji (departments (store (exec import_company_structure w)))
     = map (fun x => Some (snd x)) import_departments
  /\ accruals (store (exec import_company_structure w)) = accruals (store w)
  /\ exists new,
       employees (store (exec import_company_structure w))
       = (employees (store w) ++ new)%list
       /\ List.length new = 55%nat
       /\ Forall (fun e =>
                    telegram_user_id e = None /\ is_active e = 1
                    /\ In (department_id e)
                          (map dept_id
                             (departments (store (exec import_company_structure w)))))
            new.
Proof.
  intros Hr He.
  destruct (import_commits w Hr He) as (d' & ids & Hins & ->).
  destruct (insert_departments_fresh (store w) He)
    as (d2 & ids2 & Hins2 & Hn & Hg & Hes & Hac & Hk).
  rewrite Hins in Hins2. injection Hins2 as <- <-.
  destruct (staffed_import_employees (map dept_id (departments d')) ids d' Hk)
    as (Hd & Ha & _ & _ & new & Hnew & Hlen & Hall).
  rewrite Hd, Ha, Hac, Hnew, Hes.
  split; [exact Hn|]. split; [exact Hg|]. split; [reflexivity|].
  exists new. split; [reflexivity|]. split; [exact Hlen|exact Hall].
Qed.

Lemma import_fills_empty_directory_witness :
  List.length
    (employees (store (exec import_company_structure
                            (with_store empty_db (Sample.world_at None no_data [])))))
  = 55%nat.
Proof.
  destruct (import_fills_empty_directory
              (with_store empty_db (Sample.world_at None no_data [])) eq_refl eq_refl)
    as (_ & _ & _ & new & -> & Hlen & _).
  exact Hlen.
Defined.

(** X25.  The import keeps the keys in order: when the keys of the three
    tables are unique and not above the AUTOINCREMENT counters and the
    department names are unique, they are so after
    [import_company_structure], whether it imports, skips or fails. *)
Theorem import_keeps_keys (w : world) :
  keys_ok (store w) -> keys_ok (store (exec import_company_structure w)).
Proof.
  intros Hk.
  destruct (store_ready_or_failing w) as [Hr|Hf]; [|rewrite import_fails; assumption].
  destruct (departments (store w)) as [|x ds] eqn:He.
  - destruct (import_commits w Hr He) as (d' & ids & Hins & ->).
    apply keys_ok_import_employees.
    apply (keys_ok_insert_departments _ _ _ _ _ Hins Hk).
  - rewrite import_skips by (rewrite He; discriminate). exact Hk.
Qed.

Lemma import_keeps_keys_witness :
  NoDup (map emp_id
           (employees (store (exec import_company_structure
                                   (with_store empty_db
                                      (Sample.world_at None no_data [])))))).
Proof.
  assert (H : keys_ok (store (with_store empty_db (Sample.world_at None no_data [])))).
  { cbn. unfold keys_ok. cbn. repeat split; try constructor; intros i []. }
  exact (proj1 (proj2 (proj2
           (import_keeps_keys (with_store empty_db (Sample.world_at None no_data [])) H)))).
Defined.

Lemma find_app_all_miss {A} (p : A -> bool) (l new : list A) :
  Forall (fun x => p x = false) new -> find p (l ++ new) = find p l.
Proof.
  intros H. induction l as [|y l IH]; cbn.
  - induction H as [|x new Hx _ IH]; cbn; [reflexivity|]. rewrite Hx. exact IH.
  - destruct (p y); [reflexivity|exact IH].
Qed.

Lemma filter_app_all_miss {A} (p : A -> bool) (l new : list A) :
  Forall (fun x => p x = false) new -> filter p (l ++ new) = filter p l.
Proof.
  intros H. rewrite filter_app.
  assert (E : filter p new = []).
  { induction H as [|x new Hx _ IH]; cbn; [reflexivity|]. rewrite Hx. exact IH. }
  rewrite E. apply app_nil_r.
Qed.

(** X26.  The import binds nobody: whatever the tables hold, every Telegram
    identifier is bound to the same role tag after [import_company_structure]
    as before it, and administers the same departments.  The two managers of
    the import are rows without an identifier. *)
Theorem import_binds_nobody (w : world) (user_id : Z) :
  bound_role user_id (store (exec import_company_structure w))
  = bound_role user_id (store w)
  /\ manager_scope user_id (store (exec import_company_structure w))
     = manager_scope user_id (store w).
Proof.
  destruct (store_ready_or_failing w) as [Hr|Hf];
    [|rewrite import_fails by assumption; split; reflexivity].
  destruct (departments (store w)) as [|x ds] eqn:He;
    [|rewrite import_skips by (rewrite He; discriminate); split; reflexivity].
  destruct (import_commits w Hr He) as (d' & ids & Hins & ->).
  destruct (insert_departments_fresh (store w) He)
    as (d2 & ids2 & Hins2 & _ & _ & Hes & _ & Hk).
  rewrite Hins in Hins2. injection Hins2 as <- <-.
  destruct (staffed_import_employees (map dept_id (departments d')) ids d' Hk)
    as (_ & _ & _ & _ & new & Hnew & _ & Hall).
  unfold bound_role, manager_scope. rewrite Hnew, Hes.
  split.
  - rewrite find_app_all_miss; [reflexivity|].
    eapply Forall_impl; [|exact Hall]. intros e (-> & _). reflexivity.
  - rewrite filter_app_all_miss; [reflexivity|].
    eapply Forall_impl; [|exact Hall]. intros e (-> & _). reflexivity.
Qed.

(* ------------------------------------------------------------------ *)
(** ** What the manager is offered *)

(** X27.  The keyboard of [accrual_start] offers the own staff only: whoever
    sends the menu entry, whatever the tables hold and whether the store
    fails or not, every button of a keyboard sent in reply is the label of an
    active employee of a department that the sender administers. *)
Theorem accrual_start_offers_own_staff (w : world) (user_id : Z) (txt : string) :
  exists sent,
    outbox (exec (accrual_start user_id txt) w) = (outbox w ++ sent)%list
    /\ forall m labels l,
         In {| text := m; markup := KbButtons labels |} sent ->
         In l labels ->
         exists e,
           In e (employees (store w))
           /\ l = employee_label e
           /\ in_scope user_id (emp_id e) (store w) = true.
Proof.
  unfold exec, accrual_start.
  destruct (require_role_run [ROLE_MANAGER]
              (fun user_id _ =>
                 dept_ids <- get_manager_departments user_id ;;
                 match dept_ids with
                 | [] => answer MsgManagerDepartmentNotFound KbManagerMain
                 | _ =>
                     es <- employees_of_departments dept_ids ;;
                     match es with
                     | [] => answer MsgNoEmployeesInDepartment KbManagerMain
                     | _ =>
                         set_state (Some Accrual_waiting_for_employee) ;;;
                         answer MsgChooseEmployee (KbButtons (map employee_label es))
                     end
                 end) user_id txt w)
    as (r & w1 & _ & (S1 & _) & O1 & ->).
  destruct (existsb (user_role_eqb r) [ROLE_MANAGER]).
  - unfold bind.
    destruct (get_manager_departments_run w1 user_id)
      as (ds & w2 & -> & (S2 & _) & O2 & _ & Hds).
    destruct ds as [|d0 ds].
    + cbn. rewrite O2, O1. eexists. split; [reflexivity|].
      intros m labels l [E|[]]. discriminate E.
    + destruct (employees_of_departments_run (d0 :: ds) w2)
        as (es & w3 & -> & (S3 & _) & O3 & Hes).
      destruct es as [|e0 es].
      * cbn. rewrite O3, O2, O1. eexists. split; [reflexivity|].
        intros m labels l [E|[]]. discriminate E.
      * cbn [set_state answer snd outbox with_outbox with_state].
        rewrite O3, O2, O1. eexists. split; [reflexivity|].
        intros m labels l [E|[]] Hl. injection E as _ <-.
        change (In l (map employee_label (e0 :: es))) in Hl.
        apply in_map_iff in Hl. destruct Hl as (e & <- & He).
        destruct (Hes e He) as (Hin & Hdept & Hact).
        rewrite S2, S1 in Hin. exists e. split; [exact Hin|]. split; [reflexivity|].
        unfold in_scope. apply existsb_exists. exists e. split; [exact Hin|].
        rewrite Z.eqb_refl, Hact. cbn [andb Z.eqb Pos.eqb].
        apply existsb_exists. exists (department_id e).
        split; [|apply Z.eqb_refl].
        rewrite <- S1. apply Hds. exact Hdept.
  - cbn. rewrite O1. eexists. split; [reflexivity|].
    intros m labels l [E|[]]. discriminate E.
Qed.

(* ------------------------------------------------------------------ *)
(** ** The list of a department and the way back to it *)

Lemma order_by_nonempty {A} (le : A -> A -> bool) (l : list A) :
  l <> [] -> order_by le l <> [].
Proof.
  intros Hl E. pose proof (Permutation_order_by le l) as Hp. rewrite E in Hp.
  apply Permutation_nil in Hp. contradiction.
Qed.

Lemma find_department_by_id (ds : list department) (d : department) :
  In d ds -> NoDup (map dept_id ds) ->
  find (fun x => dept_id x =? dept_id d)
       (order_by (fun a b => dept_id a <=? dept_id b) ds)
  = Some d.
Proof.
  intros Hin Hnd. apply find_the_one.
  - apply In_order_by. exact Hin.
  - apply Z.eqb_refl.
  - intros y Hy Hp. apply In_order_by in Hy. apply Z.eqb_eq in Hp.
    exact (NoDup_map_inj dept_id ds y d Hnd Hy Hin Hp).
Qed.

(** X29.  When a super-administrator presses the button of a department that
    has an active employee, no store failure being scheduled, the keys and
    the names of the departments being unique and the button showing a known
    glyph and a name free of glyphs and outer white space,
    [superadmin_view_department] pins that department and answers, under the
    glyph and the name of the department, with the badge buttons of its
    active employees in the order of their names, followed by the back
    button; and [back_to_employee_list], run next on any text, answers under
    the name alone with the same keyboard.  Neither changes the tables. *)
Theorem department_view_round_trip
    (w : world) (user_id : Z) (d : department) (txt : string) :
  In user_id (superadmins w) ->
  no_faults w ->
  In d (departments (store w)) ->
  NoDup (map dept_id (departments (store w))) ->
  NoDup (map dept_name (departments (store w))) ->
  dept_id d <> 0 ->
  In (department_glyph d) department_emojis ->
  (forall e, In e department_emojis ->
             PyStr.replace e EmptyString (dept_name d) = dept_name d) ->
  PyStr.strip (dept_name d) = dept_name d ->
  filter (fun r => (department_id r =? dept_id d) && (is_active r =? 1))
         (employees (store w)) <> [] ->
  let kb :=
    KbButtons
      (map badge_label
         (order_by (fun a b => String.leb (full_name a) (full_name b))
            (filter (fun r => (department_id r =? dept_id d) && (is_active r =? 1))
                    (employees (store w))))
       ++ [back_label]) in
  let w1 := exec (superadmin_view_department user_id (department_label d)) w in
  d_current_department_id (data w1) = Some (dept_id d)
  /\ outbox w1
     = (outbox w ++ [{| text := MsgDepartmentEmployees (dept_emoji d) (dept_name d);
                        markup := kb |}])%list
  /\ store w1 = store w
  /\ outbox (exec (back_to_employee_list user_id txt) w1)
     = (outbox w1 ++ [{| text := MsgListEmployees (Some (dept_name d));
                         markup := kb |}])%list
  /\ store (exec (back_to_employee_list user_id txt) w1) = store w.
Proof.
  intros Hadmin Hnf Hin Hni Hnd Hid Hg Hclean Hstrip Hstaff kb w1.
  assert (Hlabel : department_name_of_text (department_label d) = dept_name d).
  { rewrite department_label_glyph. apply department_label_cleans; assumption. }
  pose proof (no_faults_nth w Hnf) as H.
  pose proof (order_by_nonempty (fun a b => String.leb (full_name a) (full_name b)) _ Hstaff)
    as Hne.
  assert (Hrun :
            w1 = with_outbox
                   (outbox w ++ [{| text := MsgDepartmentEmployees (dept_emoji d) (dept_name d);
                                    markup := kb |}])
                   (with_data (put_current_department (dept_id d) (dept_name d) (data w))
                      (with_faults (tl (tl (faults w))) w))).
  { subst w1 kb.
    unfold exec, superadmin_view_department, require_role, bind.
    rewrite (get_user_role_superadmin w user_id Hadmin).
    cbn [existsb user_role_eqb orb negb]. cbv beta iota.
    rewrite get_departments_step by ready H. cbv beta iota.
    rewrite Hlabel, (find_department_by_name _ d Hin Hnd).
    cbn [option_map truthy_id].
    destruct (dept_id d =? 0) eqn:E; [apply Z.eqb_eq in E; contradiction|].
    rewrite get_department_employees_step by ready H. cbv beta iota zeta.
    rewrite (find_department_by_id _ d Hin Hni).
    cbn [store with_faults].
    destruct (order_by _ _) as [|e0 es] eqn:Ees; [contradiction|].
    reflexivity. }
  rewrite Hrun.
  cbn [data store outbox with_outbox with_data with_faults put_current_department
         d_current_department_id].
  split; [reflexivity|]. split; [reflexivity|]. split; [reflexivity|].
  unfold exec, back_to_employee_list, bind, get_data. cbv beta iota.
  cbn [data with_outbox with_data put_current_department d_current_department_id
         d_current_department_name truthy_id].
  destruct (dept_id d =? 0) eqn:E; [apply Z.eqb_eq in E; contradiction|].
  rewrite get_department_employees_step by ready H. cbv beta iota.
  cbn [store with_faults with_outbox with_data].
  subst kb.
  destruct (order_by _ _) as [|e0 es] eqn:Ees; [contradiction|].
  split; reflexivity.
Qed.

(** User 1 opens department Ops of the sample company and comes back to it. *)
Lemma department_view_round_trip_witness :
  map markup
      (outbox (exec (back_to_employee_list 1 "back")
                    (exec (superadmin_view_department 1 (department_label Sample.ops))
                          (Sample.world_at None no_data []))))
  = [KbButtons [badge_label Sample.petrov; back_label];
     KbButtons [badge_label Sample.petrov; back_label]].
Proof.
  destruct (department_view_round_trip (Sample.world_at None no_data []) 1 Sample.ops "back"
              (or_introl eq_refl) eq_refl (or_intror (or_introl eq_refl)))
    as (_ & H1 & _ & H2 & _).
  - cbn. repeat constructor; cbn; intuition discriminate.
  - cbn. repeat constructor; cbn; intuition discriminate.
  - discriminate.
  - cbn. tauto.
  - cbn. intros e [<-|[<-|[<-|[<-|[<-|[<-|[<-|[]]]]]]]]; reflexivity.
  - reflexivity.
  - discriminate.
  - rewrite H2, H1. reflexivity.
Defined.

(* ------------------------------------------------------------------ *)
(** ** The full list *)

Lemma employees_by_department_step (ds : list department) (w : world) :
  no_faults w ->
  exists w',
    employees_by_department ds w
    = (Ok (map (fun d =>
                  (d, order_by (fun a b => String.leb (full_name a) (full_name b))
                        (filter (fun r => (department_id r =? dept_id d) && (is_active r =? 1))
                                (employees (store w)))))
               ds),
       w')
    /\ no_faults w' /\ store w' = store w /\ outbox w' = outbox w
    /\ state w' = state w /\ data w' = data w.
Proof.
  revert w. induction ds as [|d ds IH]; intros w Hnf; cbn [employees_by_department map].
  - exists w. repeat split. exact Hnf.
  - unfold bind.
    rewrite get_department_employees_step by (apply no_faults_ready; exact Hnf).
    destruct (IH (with_faults (tl (faults w)) w)) as (w' & Hrun & Hnf' & S & O & T & D).
    { exact (no_faults_tl w (with_faults (tl (faults w)) w) Hnf eq_refl). }
    rewrite Hrun. exists w'. split; [reflexivity|]. repeat split; assumption.
Qed.

(** X30.  The full list is complete: when a super-administrator asks for all
    employees, no store failure being scheduled and there being a department,
    the one reply lists the departments in the order of their keys, each with
    its active employees in the order of their names; so every active
    employee of an existing department is in the list, under the own
    department.  Nothing else changes. *)
Theorem all_employees_lists_everyone (w : world) (user_id : Z) (txt : string) :
  In user_id (superadmins w) ->
  no_faults w ->
  departments (store w) <> [] ->
  exists groups kb,
    outbox (exec (superadmin_all_employees user_id txt) w)
    = (outbox w ++ [{| text := MsgAllEmployees groups; markup := kb |}])%list
    /\ map fst groups
       = order_by (fun a b => dept_id a <=? dept_id b) (departments (store w))
    /\ (forall d es, In (d, es) groups ->
          sorted_by (fun a b => String.leb (full_name a) (full_name b)) es
          /\ forall e, In e es <->
               In e (employees (store w)) /\ department_id e = dept_id d
               /\ is_active e = 1)
    /\ (forall d e,
          In d (departments (store w)) -> In e (employees (store w)) ->
          department_id e = dept_id d -> is_active e = 1 ->
          exists es, In (d, es) groups /\ In e es)
    /\ store (exec (superadmin_all_employees user_id txt) w) = store w
    /\ state (exec (superadmin_all_employees user_id txt) w) = state w
    /\ data (exec (superadmin_all_employees user_id txt) w) = data w.
Proof.
  intros Hadmin Hnf Hne.
  pose proof (no_faults_nth w Hnf) as H.
  pose proof (order_by_nonempty (fun a b => dept_id a <=? dept_id b) _ Hne) as Hne'.
  unfold exec, superadmin_all_employees, require_role, bind.
  rewrite (get_user_role_superadmin w user_id Hadmin).
  cbn [existsb user_role_eqb orb negb]. cbv beta iota.
  rewrite get_departments_step by ready H. cbv beta iota.
  destruct (order_by (fun a b => dept_id a <=? dept_id b) (departments (store w)))
    as [|d0 ds] eqn:Eds; [contradiction|].
  destruct (employees_by_department_step (d0 :: ds) (with_faults (tl (faults w)) w))
    as (w1 & Hrun & Hnf1 & S1 & O1 & T1 & D1).
  { exact (no_faults_tl w (with_faults (tl (faults w)) w) Hnf eq_refl). }
  rewrite Hrun. cbv beta iota.
  destruct (superadmin_main_kb_run w1) as (kb & w2 & Hkb & (S2 & T2 & D2 & _) & O2).
  rewrite Hkb. cbv beta iota. unfold answer. cbn [snd outbox store state data with_outbox].
  rewrite O2, O1, S2, S1, T2, T1, D2, D1. cbn [outbox store state data with_faults].
  eexists. exists kb. split; [reflexivity|].
  split; [rewrite map_map; cbn [fst]; apply map_id|].
  split.
  - intros d es Hin. apply in_map_iff in Hin. destruct Hin as (d' & E & _).
    injection E as <- <-. split.
    + apply sorted_order_by. intros a b. apply String.leb_total.
    + intros e. rewrite In_order_by, filter_In, andb_true_iff, !Z.eqb_eq. tauto.
  - split; [|repeat split].
    intros d e Hd He Hdept Hact. eexists. split.
    + apply in_map_iff. exists d. split; [reflexivity|].
      rewrite <- Eds. apply In_order_by. exact Hd.
    + apply In_order_by. apply filter_In. split; [exact He|].
      rewrite Hdept, Hact, Z.eqb_refl. reflexivity.
Qed.

(** User 1 asks for all employees of the sample company. *)
Lemma all_employees_lists_everyone_witness :
  exists groups kb,
    outbox (exec (superadmin_all_employees 1 "all") (Sample.world_at None no_data []))
    = [{| text := MsgAllEmployees groups; markup := kb |}]
    /\ map fst groups = [Sample.sales; Sample.ops].
Proof.
  assert (Hne : departments (store (Sample.world_at None no_data [])) <> [])
    by discriminate.
  destruct (all_employees_lists_everyone (Sample.world_at None no_data []) 1 "all"
              (or_introl eq_refl) eq_refl Hne)
    as (groups & kb & Hout & Hfst & _).
  exists groups, kb. split; [exact Hout|exact Hfst].
Defined.

(* ------------------------------------------------------------------ *)
(** ** The button of the advance *)

(** X31.  [give_advance] is registered under the text of its card button,
    but the router never calls it.  The text begins with the glyph of a
    department, so the handler of the department buttons, registered before
    it, takes the text (or, in a state of the AddDepartment or AddEmployee
    flow, the handler of that state does); and no other text is sent to
    [give_advance]. *)
Theorem advance_button_is_shadowed (st : option fsm_state) (txt : string) :
  In (OnText "💸 Выдать аванс 20,000", AGiveAdvance) registrations
  /\ route st "💸 Выдать аванс 20,000"
     = match st with
       | Some AddDepartment_waiting_for_name => Handler ASuperadminAddDepartmentFinish
       | Some AddEmployee_waiting_for_full_name => Handler AAddEmployeeEnterPosition
       | Some AddEmployee_waiting_for_position => Handler AAddEmployeeChooseDepartment
       | Some AddEmployee_waiting_for_department => Handler AAddEmployeeFinishSuperadmin
       | _ => Handler ASuperadminViewDepartment
       end
  /\ route st txt <> Handler AGiveAdvance.
Proof.
  split; [cbn; auto 30|].
  split; [destruct st as [[]|]; reflexivity|].
  intros H. unfold route in H.
  destruct (find (fun r => triggers (fst r) st txt) registrations) as [r|] eqn:E.
  - assert (Hr : snd r = AGiveAdvance).
    { destruct (PyStr.lstrip txt) as [|[[] [] [] [] [] [] [] []] ?];
        try discriminate H; injection H; auto. }
    pose proof (find_some _ _ E) as [Hin Htrig].
    cbn [registrations In] in Hin.
    repeat (destruct Hin as [<-|Hin]; [try discriminate Hr|]); [|contradiction].
    cbn [fst triggers] in Htrig. apply String.eqb_eq in Htrig. subst txt.
    destruct st as [[]|]; vm_compute in E; discriminate E.
  - destruct (PyStr.lstrip txt) as [|[[] [] [] [] [] [] [] []] ?]; discriminate H.
Qed.
